(** * Legacy virtio-over-PCI transport of the hypervisor library

    A shallow embedding of [system/ulib/hypervisor/virtio.cpp]: the ring
    layout computed by [virtio_queue_set_pfn], the available/used ring
    protocol ([ring_avail_count], [virtio_queue_next_avail],
    [virtio_queue_return]), the descriptor-chain walk of
    [virtio_queue_handler] and the register dispatch of
    [virtio_pci_legacy_read] / [virtio_pci_legacy_write].

    Machine integers are [Z] with the wrap-around of their C type written
    out; guest memory is a byte store indexed by host virtual address;
    dereferencing a null pointer and dividing by zero are explicit faults.
    The loads of a volatile descriptor are told apart, with the guest writing
    between them, in [virtio_queue_read_desc_volatile] and
    [chain_step_volatile]. *)

From Stdlib Require Import ZArith Lia Bool.
From stdpp Require Import base list.

Local Open Scope Z_scope.

(* ===================================================================== *)
(** ** Machine integers *)

Definition u8  (x : Z) : Z := x mod 2 ^ 8.
Definition u16 (x : Z) : Z := x mod 2 ^ 16.
Definition u32 (x : Z) : Z := x mod 2 ^ 32.
(** [uintptr_t], [size_t], [mx_vaddr_t] and [uint64_t] on the 64-bit targets
    the hypervisor runs on. *)
Definition u64 (x : Z) : Z := x mod 2 ^ 64.

(* ===================================================================== *)
(** ** Status codes, faults and the outcome monad *)

(** The [mx_status_t] values the file names, and [MX_ERR_OTHER] for any other
    code a device callback may hand back. *)
Inductive mx_status_t : Type :=
  | MX_OK
  | MX_ERR_INTERNAL
  | MX_ERR_NOT_SUPPORTED
  | MX_ERR_INVALID_ARGS
  | MX_ERR_OUT_OF_RANGE
  | MX_ERR_NOT_FOUND
  | MX_ERR_IO_DATA_INTEGRITY
  | MX_ERR_STOP
  | MX_ERR_NEXT
  | MX_ERR_OTHER (code : Z).

Definition is_ok (s : mx_status_t) : bool :=
  match s with MX_OK => true | _ => false end.

Definition is_not_found (s : mx_status_t) : bool :=
  match s with MX_ERR_NOT_FOUND => true | _ => false end.

(** What the C++ leaves undefined and the model makes explicit. *)
Inductive fault : Type :=
  | NullDeref      (* [p->f] or [p[i]] through a null pointer *)
  | DivByZero      (* [index % queue->size] with [size == 0] *)
  | BadQueueRef.   (* a queue reference outside [device->queues] *)

Inductive outcome (A : Type) : Type :=
  | Ret (a : A)
  | Fault (f : fault)
  | OutOfFuel.
Arguments Ret {A} a.
Arguments Fault {A} f.
Arguments OutOfFuel {A}.

Definition obind {A B : Type} (o : outcome A) (k : A -> outcome B) : outcome B :=
  match o with
  | Ret a => k a
  | Fault f => Fault f
  | OutOfFuel => OutOfFuel
  end.

Notation "x <- e ;; k" := (obind e (fun x => k))
  (at level 100, e at next level, right associativity).

(* ===================================================================== *)
(** ** Guest memory

    A byte store indexed by host virtual address. Multi-byte fields are
    little-endian, as on every target of the hypervisor. *)

Definition memory : Type := Z -> Z.

Definition read8 (m : memory) (a : Z) : Z := u8 (m a).
Definition read16 (m : memory) (a : Z) : Z := read8 m a + 2 ^ 8 * read8 m (a + 1).
Definition read32 (m : memory) (a : Z) : Z := read16 m a + 2 ^ 16 * read16 m (a + 2).
Definition read64 (m : memory) (a : Z) : Z := read32 m a + 2 ^ 32 * read32 m (a + 4).

Definition write8 (m : memory) (a v : Z) : memory :=
  fun x => if x =? a then u8 v else m x.
Definition write16 (m : memory) (a v : Z) : memory :=
  write8 (write8 m a v) (a + 1) (v / 2 ^ 8).
Definition write32 (m : memory) (a v : Z) : memory :=
  write16 (write16 m a v) (a + 2) (v / 2 ^ 16).
Definition write64 (m : memory) (a v : Z) : memory :=
  write32 (write32 m a v) (a + 4) (v / 2 ^ 32).

(* ===================================================================== *)
(** ** Constants and struct layouts of the headers *)

(** Modelled from the spec: [PAGE_SIZE] comes from [<limits.h>], which is not
    part of the sources; it is the 4096-byte page that [PCI_ALIGN] also
    hard-codes. It is an [int] constant, so [queue->pfn * PAGE_SIZE] is a
    32-bit unsigned product. *)
Definition PAGE_SIZE : Z := 4096.

(** [#define PCI_ALIGN(n) ((((uintptr_t)n) + 4095) & ~4095)] *)
Definition PCI_ALIGN (n : Z) : Z := Z.land (u64 (n + 4095)) (Z.lnot 4095).

(** Modelled from the spec: [struct vring_desc], [struct vring_avail],
    [struct vring_used] and [struct vring_used_elem] are declared in
    [virtio/virtio_ring.h], which is not part of the sources. They are the
    packed legacy virtio structures:
    - descriptor: [addr] (8 bytes), [len] (4), [flags] (2), [next] (2);
    - available ring: [flags] (2), [idx] (2), then 2-byte [ring] entries;
    - used ring: [flags] (2), [idx] (2), then [ring] entries of [id] (4),
      [len] (4). *)
Definition sizeof_vring_desc : Z := 16.
Definition sizeof_vring_avail : Z := 4.
Definition sizeof_avail_entry : Z := 2.
Definition sizeof_vring_used : Z := 4.
Definition sizeof_vring_used_elem : Z := 8.

Definition desc_addr_off : Z := 0.
Definition desc_len_off : Z := 8.
Definition desc_flags_off : Z := 12.
Definition desc_next_off : Z := 14.
Definition ring_idx_off : Z := 2.
Definition ring_entries_off : Z := 4.
Definition used_elem_id_off : Z := 0.
Definition used_elem_len_off : Z := 4.

(** The size of a pointer: [queue->avail], [queue->used], [queue->used_event]
    and [queue->avail_event] are pointers (they are compared with [NULL],
    dereferenced with [->] and assigned from a [reinterpret_cast] of an
    address), so [sizeof] of any of them is the size of a pointer. *)
Definition sizeof_ptr : Z := 8.

(** Modelled from the spec: flag and interrupt bits of [virtio/virtio.h] and
    [virtio/virtio_ring.h] (not part of the sources), with their legacy
    virtio values. *)
Definition VRING_DESC_F_NEXT : Z := 1.
Definition VRING_DESC_F_WRITE : Z := 2.
Definition VIRTIO_ISR_QUEUE : Z := 1.

(** Modelled from the spec: the register offsets of the legacy virtio PCI
    header ([virtio/virtio.h], not part of the sources). *)
Definition VIRTIO_PCI_DEVICE_FEATURES : Z := 0.
Definition VIRTIO_PCI_DRIVER_FEATURES : Z := 4.
Definition VIRTIO_PCI_QUEUE_PFN : Z := 8.
Definition VIRTIO_PCI_QUEUE_SIZE : Z := 12.
Definition VIRTIO_PCI_QUEUE_SELECT : Z := 14.
Definition VIRTIO_PCI_QUEUE_NOTIFY : Z := 16.
Definition VIRTIO_PCI_DEVICE_STATUS : Z := 18.
Definition VIRTIO_PCI_ISR_STATUS : Z := 19.
Definition VIRTIO_PCI_DEVICE_CFG_BASE : Z := 20.

(* ===================================================================== *)
(** ** Queue and device state *)

(** [queue->virtio_device]: null, or the device that owns the queue. *)
Inductive device_ptr : Type :=
  | NullDevice
  | OwningDevice.

(** [virtio_queue_t]. Pointers into guest memory are host virtual addresses,
    0 is [NULL]. The mutex and the condition variable carry no data of their
    own; signalling the condition is an event of the trace. *)
Record virtio_queue_t : Type := mk_queue {
  size : Z;                    (* uint16_t *)
  index : Z;                   (* uint16_t: the consumer cursor *)
  pfn : Z;                     (* uint32_t *)
  virtio_device : device_ptr;
  desc : Z;
  avail : Z;
  used_event : Z;
  used : Z;
  avail_event : Z
}.

(** [memset(queue, 0, sizeof( *queue))] *)
Definition zero_queue : virtio_queue_t :=
  mk_queue 0 0 0 NullDevice 0 0 0 0 0.

(** [virtio_device_t]. [queues] with its length stands for the pair
    [queues] / [num_queues]. *)
Record virtio_device_t : Type := mk_device {
  features : Z;                (* uint32_t *)
  status : Z;                  (* uint8_t *)
  isr_status : Z;              (* uint8_t *)
  queue_sel : Z;               (* uint16_t *)
  queues : list virtio_queue_t;
  guest_physmem_addr : Z;      (* uintptr_t *)
  guest_physmem_size : Z       (* size_t *)
}.

Definition num_queues (d : virtio_device_t) : Z := Z.of_nat (length (queues d)).

Definition set_queues (d : virtio_device_t) (qs : list virtio_queue_t) : virtio_device_t :=
  mk_device (features d) (status d) (isr_status d) (queue_sel d) qs
            (guest_physmem_addr d) (guest_physmem_size d).
Definition set_status (d : virtio_device_t) (v : Z) : virtio_device_t :=
  mk_device (features d) v (isr_status d) (queue_sel d) (queues d)
            (guest_physmem_addr d) (guest_physmem_size d).
Definition set_isr_status (d : virtio_device_t) (v : Z) : virtio_device_t :=
  mk_device (features d) (status d) v (queue_sel d) (queues d)
            (guest_physmem_addr d) (guest_physmem_size d).
Definition set_queue_sel (d : virtio_device_t) (v : Z) : virtio_device_t :=
  mk_device (features d) (status d) (isr_status d) v (queues d)
            (guest_physmem_addr d) (guest_physmem_size d).

Definition set_size (q : virtio_queue_t) (v : Z) : virtio_queue_t :=
  mk_queue v (index q) (pfn q) (virtio_device q)
           (desc q) (avail q) (used_event q) (used q) (avail_event q).
Definition set_index (q : virtio_queue_t) (v : Z) : virtio_queue_t :=
  mk_queue (size q) v (pfn q) (virtio_device q)
           (desc q) (avail q) (used_event q) (used q) (avail_event q).

(** [mx_packet_guest_io_t]: a guest port write. [data] holds the bytes of the
    union; [io_u8], [io_u16] and [io_u32] are its members. *)
Record mx_packet_guest_io_t : Type := mk_io {
  access_size : Z;
  data : Z
}.
Definition io_u8 (io : mx_packet_guest_io_t) : Z := u8 (data io).
Definition io_u16 (io : mx_packet_guest_io_t) : Z := u16 (data io).
Definition io_u32 (io : mx_packet_guest_io_t) : Z := u32 (data io).

(** [mx_vcpu_io_t]: the answer to a guest port read. Assigning to a member of
    the union replaces its low bytes only. *)
Record mx_vcpu_io_t : Type := mk_vcpu_io {
  vcpu_access_size : Z;
  vcpu_data : Z
}.
Definition vcpu_u8 (io : mx_vcpu_io_t) : Z := u8 (vcpu_data io).
Definition vcpu_u16 (io : mx_vcpu_io_t) : Z := u16 (vcpu_data io).
Definition vcpu_u32 (io : mx_vcpu_io_t) : Z := u32 (vcpu_data io).
Definition vcpu_set_u8 (v : Z) (io : mx_vcpu_io_t) : mx_vcpu_io_t :=
  mk_vcpu_io 1 (vcpu_data io - u8 (vcpu_data io) + u8 v).
Definition vcpu_set_u16 (v : Z) (io : mx_vcpu_io_t) : mx_vcpu_io_t :=
  mk_vcpu_io 2 (vcpu_data io - u16 (vcpu_data io) + u16 v).
Definition vcpu_set_u32 (v : Z) (io : mx_vcpu_io_t) : mx_vcpu_io_t :=
  mk_vcpu_io 4 (vcpu_data io - u32 (vcpu_data io) + u32 v).

(** What the transport does to the outside, in program order. *)
Inductive event : Type :=
  | EvQueueNotify (queue_sel : Z)      (* device->ops->queue_notify(device, queue_sel) *)
  | EvPciInterrupt                     (* pci_interrupt(&device->pci_device) *)
  | EvCndSignal (queue : nat)          (* cnd_signal(&queue->avail_ring_cnd) *)
  | EvHandler (addr len flags : Z)     (* handler(addr, len, flags, &used_len, context) *)
  | EvUsedElem (queue : nat) (id len : Z) (* used->id = index; used->len = len *)
  | EvConfigRead (offset : Z)          (* device->ops->read(device, offset, vcpu_io) *)
  | EvConfigWrite (offset : Z).        (* device->ops->write(device, offset, io) *)

Definition is_handler_event (e : event) : bool :=
  match e with EvHandler _ _ _ => true | _ => false end.

Section Transport.

(** State of the device model behind the callbacks, opaque to the transport. *)
Context {H : Type}.

(** Everything a callback can read and change. *)
Record machine : Type := mk_machine {
  dev : virtio_device_t;
  mem : memory;
  host : H
}.

Record world : Type := mk_world {
  mach : machine;
  trace : list event
}.

Definition set_dev (m : machine) (d : virtio_device_t) : machine :=
  mk_machine d (mem m) (host m).
Definition set_mem (m : machine) (g : memory) : machine :=
  mk_machine (dev m) g (host m).
Definition set_mach (w : world) (m : machine) : world :=
  mk_world m (trace w).
Definition emit (w : world) (e : event) : world :=
  mk_world (mach w) (trace w ++ [e]).

(** [device->ops]: the callback table of the device model. *)
Record virtio_device_ops_t : Type := mk_ops {
  ops_read : machine -> Z -> mx_vcpu_io_t -> mx_status_t * mx_vcpu_io_t * machine;
  ops_write : machine -> Z -> mx_packet_guest_io_t -> mx_status_t * machine;
  ops_queue_notify : option (machine -> Z -> mx_status_t * machine)
}.

(** [virtio_queue_fn_t]: [handler(addr, len, flags, &used_len, context)]
    returns a status and the new [used_len]. *)
Definition virtio_queue_fn_t : Type :=
  Z -> Z -> Z -> Z -> machine -> mx_status_t * Z * machine.

(** A [virtio_queue_t*] into [device->queues] is the position of the queue. *)
Definition get_queue (m : machine) (qi : nat) : outcome virtio_queue_t :=
  match queues (dev m) !! qi with
  | Some q => Ret q
  | None => Fault BadQueueRef
  end.

Definition put_queue (m : machine) (qi : nat) (q : virtio_queue_t) : machine :=
  set_dev m (set_queues (dev m) (<[qi := q]> (queues (dev m)))).

(** [uint32_t ring_index(virtio_queue_t* queue, uint32_t index)] *)
Definition ring_index (queue : virtio_queue_t) (index : Z) : outcome Z :=
  if size queue =? 0 then Fault DivByZero
  else Ret (u32 index mod size queue).

(** [int ring_avail_count(virtio_queue_t* queue)]: both operands are
    promoted to [int] before the subtraction. *)
Definition ring_avail_count (queue : virtio_queue_t) (g : memory) : Z :=
  if avail queue =? 0 then 0
  else read16 g (avail queue + ring_idx_off) - index queue.

(** [selected_queue]: [NULL] is [None]. *)
Definition selected_queue (device : virtio_device_t) : option nat :=
  if queue_sel device <? num_queues device
  then Some (Z.to_nat (queue_sel device))
  else None.

(** [virtio_pci_legacy_read] *)
Definition virtio_pci_legacy_read (ops : virtio_device_ops_t) (bar port : Z)
    (vcpu_io : mx_vcpu_io_t) (w : world)
    : outcome (mx_status_t * mx_vcpu_io_t * world) :=
  if negb (bar =? 0) then Ret (MX_ERR_NOT_SUPPORTED, vcpu_io, w)
  else
    let device := dev (mach w) in
    let queue := selected_queue device in
    if port =? VIRTIO_PCI_DEVICE_FEATURES then
      Ret (MX_OK, vcpu_set_u32 (features device) vcpu_io, w)
    else if port =? VIRTIO_PCI_QUEUE_PFN then
      match queue with
      | None => Ret (MX_ERR_NOT_SUPPORTED, vcpu_io, w)
      | Some qi =>
          q <- get_queue (mach w) qi ;;
          Ret (MX_OK, vcpu_set_u32 (pfn q) vcpu_io, w)
      end
    else if port =? VIRTIO_PCI_QUEUE_SIZE then
      match queue with
      | None => Ret (MX_ERR_NOT_SUPPORTED, vcpu_io, w)
      | Some qi =>
          q <- get_queue (mach w) qi ;;
          Ret (MX_OK, vcpu_set_u16 (size q) vcpu_io, w)
      end
    else if port =? VIRTIO_PCI_DEVICE_STATUS then
      Ret (MX_OK, vcpu_set_u8 (status device) vcpu_io, w)
    else if port =? VIRTIO_PCI_ISR_STATUS then
      Ret (MX_OK, vcpu_set_u8 (isr_status device) vcpu_io,
           set_mach w (set_dev (mach w) (set_isr_status device 0)))
    else if port >=? VIRTIO_PCI_DEVICE_CFG_BASE then
      let device_offset := u16 (port - VIRTIO_PCI_DEVICE_CFG_BASE) in
      let '(st, vcpu_io', m') := ops_read ops (mach w) device_offset vcpu_io in
      Ret (st, vcpu_io', emit (set_mach w m') (EvConfigRead device_offset))
    else Ret (MX_ERR_NOT_SUPPORTED, vcpu_io, w).

(** [virtio_queue_set_pfn]. The five [..._paddr] are guest-physical, the
    pointers stored in the queue are [guest_paddr_to_host_vaddr] of them. *)
Definition virtio_queue_set_pfn (qi : nat) (new_pfn : Z) (m : machine)
    : outcome (mx_status_t * machine) :=
  queue <- get_queue m qi ;;
  match virtio_device queue with
  | NullDevice => Fault NullDeref
  | OwningDevice =>
      let device := dev m in
      let mem_addr := guest_physmem_addr device in
      let mem_size := guest_physmem_size device in
      let queue_pfn := u32 new_pfn in
      (* Descriptor Table. *)
      let desc_paddr := u32 (queue_pfn * PAGE_SIZE) in
      let desc_size := u64 (size queue * sizeof_vring_desc) in
      let desc_host_vaddr := u64 (mem_addr + desc_paddr) in
      (* Avail Ring. *)
      let avail_paddr := u64 (desc_paddr + desc_size) in
      let avail_size := u64 (sizeof_ptr + u64 (size queue * sizeof_avail_entry)) in
      let avail_host_vaddr := u64 (mem_addr + avail_paddr) in
      (* Used Event. *)
      let used_event_paddr := u64 (avail_paddr + avail_size) in
      let used_event_size := sizeof_ptr in
      let used_event_host_vaddr := u64 (mem_addr + used_event_paddr) in
      (* Used Ring. *)
      let used_paddr := PCI_ALIGN (used_event_paddr + used_event_size) in
      let used_size := u64 (sizeof_ptr + u64 (size queue * sizeof_vring_used_elem)) in
      let used_host_vaddr := u64 (mem_addr + used_paddr) in
      (* Avail Event. *)
      let avail_event_paddr := u64 (used_paddr + used_size) in
      let avail_event_size := sizeof_ptr in
      let avail_event_host_paddr := u64 (mem_addr + avail_event_paddr) in
      let end_ := u64 (avail_event_host_paddr + avail_event_size) in
      if (end_ <? desc_paddr) || (end_ >? u64 (mem_addr + mem_size)) then
        Ret (MX_ERR_OUT_OF_RANGE, put_queue m qi zero_queue)
      else
        Ret (MX_OK,
             put_queue m qi
               (mk_queue (size queue) (index queue) queue_pfn OwningDevice
                         desc_host_vaddr avail_host_vaddr used_event_host_vaddr
                         used_host_vaddr avail_event_host_paddr))
  end.

(** [virtio_queue_signal] *)
Definition virtio_queue_signal (qi : nat) (w : world) : outcome world :=
  queue <- get_queue (mach w) qi ;;
  if ring_avail_count queue (mem (mach w)) >? 0
  then Ret (emit w (EvCndSignal qi))
  else Ret w.

(** [virtio_pci_legacy_write]. [pci_interrupt] belongs to the PCI bus. *)
Definition virtio_pci_legacy_write (ops : virtio_device_ops_t)
    (pci_interrupt : machine -> mx_status_t * machine)
    (bar port : Z) (io : mx_packet_guest_io_t) (w : world)
    : outcome (mx_status_t * world) :=
  if negb (bar =? 0) then Ret (MX_ERR_NOT_SUPPORTED, w)
  else
    let device := dev (mach w) in
    let queue := selected_queue device in
    if port =? VIRTIO_PCI_DRIVER_FEATURES then
      if negb (access_size io =? 4) then Ret (MX_ERR_IO_DATA_INTEGRITY, w)
      else if negb (io_u32 io =? features device) then Ret (MX_ERR_INVALID_ARGS, w)
      else Ret (MX_OK, w)
    else if port =? VIRTIO_PCI_DEVICE_STATUS then
      if negb (access_size io =? 1) then Ret (MX_ERR_IO_DATA_INTEGRITY, w)
      else Ret (MX_OK, set_mach w (set_dev (mach w) (set_status device (io_u8 io))))
    else if port =? VIRTIO_PCI_QUEUE_PFN then
      if negb (access_size io =? 4) then Ret (MX_ERR_IO_DATA_INTEGRITY, w)
      else
        match queue with
        | None => Ret (MX_ERR_NOT_SUPPORTED, w)
        | Some qi =>
            r <- virtio_queue_set_pfn qi (io_u32 io) (mach w) ;;
            Ret (fst r, set_mach w (snd r))
        end
    else if port =? VIRTIO_PCI_QUEUE_SIZE then
      if negb (access_size io =? 2) then Ret (MX_ERR_IO_DATA_INTEGRITY, w)
      else
        match queue with
        | None => Fault NullDeref
        | Some qi =>
            q <- get_queue (mach w) qi ;;
            Ret (MX_OK, set_mach w (put_queue (mach w) qi (set_size q (io_u16 io))))
        end
    else if port =? VIRTIO_PCI_QUEUE_SELECT then
      if negb (access_size io =? 2) then Ret (MX_ERR_IO_DATA_INTEGRITY, w)
      else if io_u16 io >=? num_queues device then Ret (MX_ERR_NOT_SUPPORTED, w)
      else Ret (MX_OK, set_mach w (set_dev (mach w) (set_queue_sel device (io_u16 io))))
    else if port =? VIRTIO_PCI_QUEUE_NOTIFY then
      if negb (access_size io =? 2) then Ret (MX_ERR_IO_DATA_INTEGRITY, w)
      else if io_u16 io >=? num_queues device then Ret (MX_ERR_NOT_SUPPORTED, w)
      else
        let queue_sel := io_u16 io in
        match ops_queue_notify ops with
        | Some queue_notify =>
            let '(st, m1) := queue_notify (mach w) queue_sel in
            let w1 := emit (set_mach w m1) (EvQueueNotify queue_sel) in
            if negb (is_ok st) then Ret (st, w1)
            else if isr_status (dev m1) >? 0 then
              let '(st2, m2) := pci_interrupt m1 in
              Ret (st2, emit (set_mach w1 m2) EvPciInterrupt)
            else
              w2 <- virtio_queue_signal (Z.to_nat queue_sel) w1 ;;
              Ret (MX_OK, w2)
        | None =>
            w2 <- virtio_queue_signal (Z.to_nat queue_sel) w ;;
            Ret (MX_OK, w2)
        end
    else if port >=? VIRTIO_PCI_DEVICE_CFG_BASE then
      let device_offset := u16 (port - VIRTIO_PCI_DEVICE_CFG_BASE) in
      let '(st, m') := ops_write ops (mach w) device_offset io in
      Ret (st, emit (set_mach w m') (EvConfigWrite device_offset))
    else Ret (MX_ERR_NOT_SUPPORTED, w).

(** [virtio_queue_next_avail_locked]. [index_out] is the value behind the
    out-parameter [index], left alone when nothing is available.
    [queue->index++] is evaluated before [ring_index] is entered. *)
Definition virtio_queue_next_avail_locked (qi : nat) (index_out : Z) (m : machine)
    : outcome (mx_status_t * Z * machine) :=
  queue <- get_queue m qi ;;
  if ring_avail_count queue (mem m) <? 1 then Ret (MX_ERR_NOT_FOUND, index_out, m)
  else
    let cursor := index queue in
    let m1 := put_queue m qi (set_index queue (u16 (cursor + 1))) in
    i <- ring_index queue cursor ;;
    Ret (MX_OK,
         read16 (mem m) (avail queue + ring_entries_off + sizeof_avail_entry * i),
         m1).

(** [virtio_queue_next_avail]: the locked form under the queue mutex. *)
Definition virtio_queue_next_avail (qi : nat) (index_out : Z) (m : machine)
    : outcome (mx_status_t * Z * machine) :=
  virtio_queue_next_avail_locked qi index_out m.

(** [virtio_desc_t] *)
Record virtio_desc_t : Type := mk_desc {
  addr : Z;
  len : Z;
  has_next : bool;
  writable : bool;
  next : Z
}.

(** [end < desc.addr || end > mem_size] for the descriptor at host address
    [d], with [end = desc.addr + desc.len] in 64 bits. *)
Definition desc_out_of_range (g : memory) (d mem_size : Z) : bool :=
  let desc_addr := read64 g (d + desc_addr_off) in
  let desc_len := read32 g (d + desc_len_off) in
  let end_ := u64 (desc_addr + desc_len) in
  (end_ <? desc_addr) || (end_ >? mem_size).

(** [virtio_queue_read_desc] *)
Definition virtio_queue_read_desc (qi : nat) (desc_index : Z)
    (out : virtio_desc_t) (m : machine) : outcome (mx_status_t * virtio_desc_t) :=
  queue <- get_queue m qi ;;
  match virtio_device queue with
  | NullDevice => Fault NullDeref
  | OwningDevice =>
      let device := dev m in
      if desc queue =? 0 then Fault NullDeref
      else
        let d := desc queue + sizeof_vring_desc * desc_index in
        let mem_size := guest_physmem_size device in
        if desc_out_of_range (mem m) d mem_size then Ret (MX_ERR_OUT_OF_RANGE, out)
        else
          let desc_addr := read64 (mem m) (d + desc_addr_off) in
          let desc_flags := read16 (mem m) (d + desc_flags_off) in
          Ret (MX_OK,
               mk_desc (u64 (guest_physmem_addr device + desc_addr))
                       (read32 (mem m) (d + desc_len_off))
                       (negb (Z.land desc_flags VRING_DESC_F_NEXT =? 0))
                       (negb (Z.land desc_flags VRING_DESC_F_WRITE =? 0))
                       (read16 (mem m) (d + desc_next_off)))
  end.

(** [virtio_queue_return] *)
Definition virtio_queue_return (qi : nat) (index len : Z) (w : world)
    : outcome world :=
  queue <- get_queue (mach w) qi ;;
  if used queue =? 0 then Fault NullDeref
  else
    let g := mem (mach w) in
    i <- ring_index queue (read16 g (used queue + ring_idx_off)) ;;
    let elem := used queue + ring_entries_off + sizeof_vring_used_elem * i in
    let g1 := write32 g (elem + used_elem_id_off) index in
    let g2 := write32 g1 (elem + used_elem_len_off) len in
    let g3 := write16 g2 (used queue + ring_idx_off)
                      (read16 g2 (used queue + ring_idx_off) + 1) in
    let w1 := emit (set_mach w (set_mem (mach w) g3)) (EvUsedElem qi index len) in
    (* Set the queue bit in the device ISR. *)
    match virtio_device queue with
    | NullDevice => Fault NullDeref
    | OwningDevice =>
        let device := dev (mach w1) in
        Ret (set_mach w1
               (set_dev (mach w1)
                  (set_isr_status device (u8 (Z.lor (isr_status device) VIRTIO_ISR_QUEUE)))))
    end.

(** One turn of the [do ... while] loop of [virtio_queue_handler]. *)
Inductive step_result : Type :=
  | StepNext (desc_index used_len : Z) (w : world)   (* the flag is set: loop again *)
  | StepLast (used_len : Z) (w : world)              (* the flag is clear: leave the loop *)
  | StepReturn (st : mx_status_t) (w : world)        (* [return] inside the loop *)
  | StepFault (f : fault).

Definition chain_step (handler : virtio_queue_fn_t) (qi : nat)
    (mem_addr mem_size : Z) (desc_index used_len : Z) (w : world) : step_result :=
  match queues (dev (mach w)) !! qi with
  | None => StepFault BadQueueRef
  | Some queue =>
      if desc queue =? 0 then StepFault NullDeref
      else
        let d := desc queue + sizeof_vring_desc * desc_index in
        let g := mem (mach w) in
        if desc_out_of_range g d mem_size then StepReturn MX_ERR_OUT_OF_RANGE w
        else
          let host_addr := u64 (mem_addr + read64 g (d + desc_addr_off)) in
          let desc_len := read32 g (d + desc_len_off) in
          let desc_flags := read16 g (d + desc_flags_off) in
          let '(st, used_len', m1) :=
            handler host_addr desc_len desc_flags used_len (mach w) in
          let w1 := emit (set_mach w m1) (EvHandler host_addr desc_len desc_flags) in
          if negb (is_ok st) then StepReturn st w1
          else
            (* [desc] is volatile: [next] and [flags] are read again *)
            let desc_index' := read16 (mem m1) (d + desc_next_off) in
            if Z.land (read16 (mem m1) (d + desc_flags_off)) VRING_DESC_F_NEXT =? 0
            then StepLast used_len' w1
            else StepNext desc_index' used_len' w1
  end.

(** How the loop is left: by falling out of it, or by a [return] in it. *)
Inductive walk_result : Type :=
  | WalkDone (used_len : Z) (w : world)
  | WalkReturn (st : mx_status_t) (w : world).

(** The loop itself. The source bounds the number of turns by nothing; the
    model runs out of fuel where the source would not stop. *)
Fixpoint chain_walk (handler : virtio_queue_fn_t) (qi : nat)
    (mem_addr mem_size : Z) (fuel : nat) (desc_index used_len : Z) (w : world)
    : outcome walk_result :=
  match fuel with
  | O => OutOfFuel
  | S fuel' =>
      match chain_step handler qi mem_addr mem_size desc_index used_len w with
      | StepNext desc_index' used_len' w' =>
          chain_walk handler qi mem_addr mem_size fuel' desc_index' used_len' w'
      | StepLast used_len' w' => Ret (WalkDone used_len' w')
      | StepReturn st w' => Ret (WalkReturn st w')
      | StepFault f => Fault f
      end
  end.

(** The state of the loop after [k] turns that all went on to a next
    descriptor. *)
Fixpoint chain_prefix (handler : virtio_queue_fn_t) (qi : nat)
    (mem_addr mem_size : Z) (k : nat) (desc_index used_len : Z) (w : world)
    : option (Z * Z * world) :=
  match k with
  | O => Some (desc_index, used_len, w)
  | S k' =>
      match chain_step handler qi mem_addr mem_size desc_index used_len w with
      | StepNext desc_index' used_len' w' =>
          chain_prefix handler qi mem_addr mem_size k' desc_index' used_len' w'
      | _ => None
      end
  end.

(** [virtio_queue_handler]. [head] is uninitialised until
    [virtio_queue_next_avail] stores into it; it is read only after that. *)
Definition virtio_queue_handler (handler : virtio_queue_fn_t) (qi : nat)
    (fuel : nat) (w : world) : outcome (mx_status_t * world) :=
  queue <- get_queue (mach w) qi ;;
  match virtio_device queue with
  | NullDevice => Fault NullDeref
  | OwningDevice =>
      let used_len := 0 in
      let mem_addr := guest_physmem_addr (dev (mach w)) in
      let mem_size := guest_physmem_size (dev (mach w)) in
      r <- virtio_queue_next_avail qi 0 (mach w) ;;
      let '(st, head, m1) := r in
      let w1 := set_mach w m1 in
      if is_not_found st then Ret (MX_OK, w1)
      else if negb (is_ok st) then Ret (st, w1)
      else
        r <- chain_walk handler qi mem_addr mem_size fuel head used_len w1 ;;
        match r with
        | WalkReturn st' w2 => Ret (st', w2)
        | WalkDone used_len' w2 =>
            w3 <- virtio_queue_return qi head used_len' w2 ;;
            queue' <- get_queue (mach w3) qi ;;
            Ret (if ring_avail_count queue' (mem (mach w3)) >? 0
                 then MX_ERR_NEXT else MX_OK, w3)
        end
  end.


End Transport.

Arguments machine : clear implicits.
Arguments world : clear implicits.
Arguments virtio_device_ops_t : clear implicits.
Arguments virtio_queue_fn_t : clear implicits.

(* ===================================================================== *)
(** ** The legacy ring layout *)

(** The five guest-physical addresses of a ring. *)
Record ring_layout : Type := mk_layout {
  desc_paddr : Z;
  avail_paddr : Z;
  used_event_paddr : Z;
  used_paddr : Z;
  avail_event_paddr : Z
}.

Definition align_up (x a : Z) : Z := (x + a - 1) / a * a.

(** The legacy virtio wire layout in the words of sections 4.1 and 6 of the
    specification, not taken from the code: the descriptor table starts at
    [pfn * page_size]; the available ring follows it (its 4-byte header, then
    2-byte entries); the 2-byte used-event cell follows the available ring;
    the used ring starts at the next page boundary after that cell; the
    avail-event cell follows the used ring (its 4-byte header, then used
    entries). *)
Definition legacy_layout (page_size capacity pfn : Z) : ring_layout :=
  let d := pfn * page_size in
  let a := d + capacity * sizeof_vring_desc in
  let ue := a + sizeof_vring_avail + capacity * sizeof_avail_entry in
  let u := align_up (ue + 2) page_size in
  let ae := u + sizeof_vring_used + capacity * sizeof_vring_used_elem in
  mk_layout d a ue u ae.

(* ===================================================================== *)
(** ** Concrete devices, rings and callbacks *)

(** Guest memory of 1 MiB mapped at host address [2 ^ 32]. *)
Definition guest_base : Z := 2 ^ 32.
Definition MiB : Z := 2 ^ 20.

Definition zero_mem : memory := fun _ => 0.

(** A queue of capacity [n] whose pfn was never written. *)
Definition fresh_queue (n : Z) : virtio_queue_t :=
  mk_queue n 0 0 OwningDevice 0 0 0 0 0.

Definition device_of (qs : list virtio_queue_t) : virtio_device_t :=
  mk_device 0 0 0 0 qs guest_base MiB.

Definition boot (n : Z) : machine unit :=
  mk_machine (device_of [fresh_queue n]) zero_mem tt.

(** The queue of capacity 4 at pfn 1, as [virtio_queue_set_pfn] leaves it,
    with the cursor at [cursor]. *)
Definition ring4 (cursor : Z) : virtio_queue_t :=
  mk_queue 4 cursor 1 OwningDevice
           (guest_base + 4096) (guest_base + 4160) (guest_base + 4176)
           (guest_base + 8192) (guest_base + 8232).

Definition running (cursor : Z) (g : memory) : machine unit :=
  mk_machine (device_of [ring4 cursor]) g tt.

(** The available ring with [avail.idx = idx] and [ring[slot] = head]. *)
Definition avail_mem (idx slot head : Z) : memory :=
  write16 (write16 zero_mem (avail (ring4 0) + ring_idx_off) idx)
          (avail (ring4 0) + ring_entries_off + sizeof_avail_entry * slot) head.

(** Writes the descriptor [i] of the table of [ring4]. *)
Definition put_desc (g : memory) (i a l f n : Z) : memory :=
  let d := desc (ring4 0) + sizeof_vring_desc * i in
  write16 (write16 (write32 (write64 g (d + desc_addr_off) a)
                            (d + desc_len_off) l)
                   (d + desc_flags_off) f)
          (d + desc_next_off) n.

(** A chain of two descriptors headed by descriptor 2: the first lies in
    guest memory and links to descriptor 3, whose buffer ends 8 bytes past
    the end of guest memory. *)
Definition chain_mem : memory :=
  put_desc (put_desc (avail_mem 1 0 2) 2 8192 16 VRING_DESC_F_NEXT 3)
           3 (MiB - 8) 16 0 0.

(** A device model without callbacks of interest. *)
Definition quiet_ops : virtio_device_ops_t unit :=
  mk_ops (fun m _ io => (MX_OK, io, m)) (fun m _ _ => (MX_OK, m)) None.

(** A device model whose notify callback handles the queue at once and
    leaves the queue bit in [isr_status]. *)
Definition eager_ops : virtio_device_ops_t unit :=
  mk_ops (fun m _ io => (MX_OK, io, m)) (fun m _ _ => (MX_OK, m))
         (Some (fun m _ =>
                  (MX_OK, set_dev m (set_isr_status (dev m) VIRTIO_ISR_QUEUE)))).

Definition pci_ok : machine unit -> mx_status_t * machine unit :=
  fun m => (MX_OK, m).

(** A handler that reports the length of every buffer as used. *)
Definition count_handler : virtio_queue_fn_t unit :=
  fun _ l _ used_len m => (MX_OK, u32 (used_len + l), m).

(** The worlds the examples start from. *)
Definition notify_world : world unit :=
  mk_world (running 0 (avail_mem 1 0 2)) [].

Definition pending_isr_world : world unit :=
  mk_world (mk_machine (set_isr_status (device_of [ring4 0]) VIRTIO_ISR_QUEUE)
                       (avail_mem 1 0 2) tt) [].

Definition chain_world : world unit := mk_world (running 0 chain_mem) [].

(** [chain_world] once the first descriptor of the chain was handled. *)
Definition chain_stop_world : world unit :=
  mk_world (running 1 chain_mem)
           [EvHandler (guest_base + 8192) 16 VRING_DESC_F_NEXT].

Definition featured_world : world unit :=
  mk_world (mk_machine (mk_device 3 0 0 0 [ring4 0] guest_base MiB) zero_mem tt) [].

(* ===================================================================== *)
(** ** PCI identity, the blocking wait and the polling worker *)

(** [#define PCI_VENDOR_ID_VIRTIO 0x1af4u] *)
Definition PCI_VENDOR_ID_VIRTIO : Z := 0x1af4.

(** [virtio_pci_legacy_id]: [static_cast<uint16_t>(virtio_id + 0xfffu)] *)
Definition virtio_pci_legacy_id (virtio_id : Z) : Z := u16 (virtio_id + 0xfff).

(** Modelled from the spec: [virtio_pci_legacy_config_t] is declared in
    [virtio/virtio.h], which is not part of the sources; it is the packed
    register block of section 4.5 (three 4-byte, three 2-byte and two 1-byte
    registers), which ends where the device configuration begins. *)
Definition sizeof_virtio_pci_legacy_config_t : Z := 20.

(** The fields of [pci_device_t] that [virtio_pci_init] fills with numbers;
    [impl] and [ops] tie the PCI device to the virtio device and to
    [virtio_pci_legacy_read] / [virtio_pci_legacy_write]. *)
Record pci_device_t : Type := mk_pci_device {
  vendor_id : Z;
  pci_device_id : Z;
  subsystem_vendor_id : Z;
  subsystem_id : Z;
  class_code : Z;
  bar0_size : Z
}.

(** [virtio_pci_init], from [device->device_id] and [device->config_size]. *)
Definition virtio_pci_init (device_id config_size : Z) : pci_device_t :=
  mk_pci_device PCI_VENDOR_ID_VIRTIO
                (virtio_pci_legacy_id device_id)
                0
                device_id
                0
                (u16 (sizeof_virtio_pci_legacy_config_t + config_size)).

Definition is_stop (s : mx_status_t) : bool :=
  match s with MX_ERR_STOP => true | _ => false end.

(** A handler event whose buffer lies in the host mapping of guest memory. *)
Definition buffer_in_guest (mem_addr mem_size : Z) (e : event) : bool :=
  match e with
  | EvHandler a l _ => (mem_addr <=? a) && (a + l <=? mem_addr + mem_size)
  | _ => false
  end.

(** The events of a polling worker: a used-ring entry per buffer, each but
    possibly the last followed by an interrupt. *)
Fixpoint poll_events (qi : nat) (bufs : list (Z * Z)) (last_interrupt : bool)
    : list event :=
  match bufs with
  | [] => []
  | [(d, l)] =>
      EvUsedElem qi d l :: (if last_interrupt then [EvPciInterrupt] else [])
  | (d, l) :: rest =>
      EvUsedElem qi d l :: EvPciInterrupt :: poll_events qi rest last_interrupt
  end.

Section Workers.
Context {H : Type}.

(** [virtio_device_notify] *)
Definition virtio_device_notify
    (pci_interrupt : machine H -> mx_status_t * machine H) (w : world H)
    : mx_status_t * world H :=
  let '(st, m) := pci_interrupt (mach w) in
  (st, emit (set_mach w m) EvPciInterrupt).

(** [virtio_queue_wait]. While the thread sleeps in [cnd_wait] the mutex is
    released and the guest and the other threads run: [cnd_wait] is what they
    have done to the machine when the thread wakes up. One unit of fuel is
    one turn of the [while] loop. *)
Fixpoint virtio_queue_wait (cnd_wait : machine H -> machine H) (qi : nat)
    (fuel : nat) (index_out : Z) (m : machine H) : outcome (Z * machine H) :=
  match fuel with
  | O => OutOfFuel
  | S fuel' =>
      r <- virtio_queue_next_avail_locked qi index_out m ;;
      let '(st, index_out', m1) := r in
      if is_not_found st
      then virtio_queue_wait cnd_wait qi fuel' index_out' (cnd_wait m1)
      else Ret (index_out', m1)
  end.

(** [virtio_queue_poll_fn_t]: [handler(queue, descriptor, &used, ctx)]
    returns a status and the new [used]. *)
Definition virtio_queue_poll_fn_t : Type :=
  nat -> Z -> Z -> machine H -> mx_status_t * Z * machine H.

(** The [while (true)] loop of [virtio_queue_poll_task], with [result] as
    the loop carries it. [descriptor] is uninitialised until
    [virtio_queue_wait] stores into it. *)
Fixpoint poll_loop (cnd_wait : machine H -> machine H)
    (pci_interrupt : machine H -> mx_status_t * machine H)
    (handler : virtio_queue_poll_fn_t) (qi : nat) (wait_fuel : nat)
    (fuel : nat) (result : mx_status_t) (w : world H)
    : outcome (mx_status_t * world H) :=
  match fuel with
  | O => OutOfFuel
  | S fuel' =>
      r <- virtio_queue_wait cnd_wait qi wait_fuel 0 (mach w) ;;
      let '(descriptor, m1) := r in
      let used := 0 in
      let '(st, used', m2) := handler qi descriptor used m1 in
      w3 <- virtio_queue_return qi descriptor used' (set_mach w m2) ;;
      if is_stop st then Ret (result, w3)
      else if negb (is_ok st) then Ret (st, w3)
      else
        let '(result', w4) := virtio_device_notify pci_interrupt w3 in
        if negb (is_ok result') then Ret (result', w4)
        else poll_loop cnd_wait pci_interrupt handler qi wait_fuel fuel' result' w4
  end.

(** [virtio_queue_poll_task] *)
Definition virtio_queue_poll_task (cnd_wait : machine H -> machine H)
    (pci_interrupt : machine H -> mx_status_t * machine H)
    (handler : virtio_queue_poll_fn_t) (qi : nat) (wait_fuel fuel : nat)
    (w : world H) : outcome (mx_status_t * world H) :=
  poll_loop cnd_wait pci_interrupt handler qi wait_fuel fuel MX_OK w.

End Workers.

Arguments virtio_queue_poll_fn_t : clear implicits.

(* ===================================================================== *)
(** ** More concrete rings and callbacks *)

(** A chain of two descriptors in guest memory, headed by descriptor 2; the
    second one is device-writable and ends the chain. *)
Definition good_chain_mem : memory :=
  put_desc (put_desc (avail_mem 1 0 2) 2 8192 16 VRING_DESC_F_NEXT 3)
           3 12288 32 VRING_DESC_F_WRITE 0.

(** Descriptor 2 names itself as the next descriptor. *)
Definition loop_mem : memory :=
  put_desc (avail_mem 1 0 2) 2 8192 16 VRING_DESC_F_NEXT 2.

(** A handler that fails on every buffer. *)
Definition refuse_handler : virtio_queue_fn_t unit :=
  fun _ _ _ used_len m => (MX_ERR_INTERNAL, used_len, m).

(** The guest publishing descriptor 2 while the worker sleeps. *)
Definition producer : machine unit -> machine unit :=
  fun m => set_mem m (avail_mem 1 0 2).

Definition blank_desc : virtio_desc_t := mk_desc 0 0 false false 0.

(* ===================================================================== *)
(** ** Volatile loads of a descriptor

    [desc] is [volatile] in [virtio_queue_read_desc] and in
    [virtio_queue_handler]: every [desc->addr], [desc->len], [desc->flags]
    and [desc->next] of the source is a load of its own from guest memory,
    and the guest runs while the device reads. [guest t] is what the guest
    has done to its memory just before load [t] of a call, the loads being
    counted from 0 in the order the source writes them. The operands of
    [desc->addr + desc->len] and the arguments of the handler call are loaded
    in an order the language leaves open; they are numbered from left to
    right. [chain_step] and [virtio_queue_read_desc] above are the case of a
    guest that stands still. *)

(** The guest that stands still. *)
Definition still_guest : nat -> memory -> memory := fun _ g => g.

(** The guest that stands still but for load [n], before which it has
    rewritten its memory to [g']. *)
Definition rewriting_guest (n : nat) (g' : memory) : nat -> memory -> memory :=
  fun t g => if (t =? n)%nat then g' else g.

(** Two memories with the same bytes from [lo] up to [hi]. *)
Definition agree_on (lo hi : Z) (g g' : memory) : Prop :=
  forall x, lo <= x < hi -> g x = g' x.


Section Volatile.
Context {H : Type}.
Variable guest : nat -> memory -> memory.

(** [virtio_queue_read_desc], load by load: [desc.addr] is loaded at lines
    344, 345 and 348, [desc.len] at lines 344 and 349, [desc.flags] at lines
    350 and 351, [desc.next] at line 352. The machine returned has the
    memory of the last load. *)
Definition virtio_queue_read_desc_volatile (qi : nat) (desc_index : Z)
    (out : virtio_desc_t) (m : machine H)
    : outcome (mx_status_t * virtio_desc_t * machine H) :=
  queue <- get_queue m qi ;;
  match virtio_device queue with
  | NullDevice => Fault NullDeref
  | OwningDevice =>
      let device := dev m in
      if desc queue =? 0 then Fault NullDeref
      else
        let d := desc queue + sizeof_vring_desc * desc_index in
        let mem_size := guest_physmem_size device in
        (* const uint64_t end = desc.addr + desc.len; *)
        let g0 := guest 0%nat (mem m) in
        let g1 := guest 1%nat g0 in
        let end_ := u64 (read64 g0 (d + desc_addr_off)
                         + read32 g1 (d + desc_len_off)) in
        (* if (end < desc.addr || end > mem_size) *)
        let g2 := guest 2%nat g1 in
        if (end_ <? read64 g2 (d + desc_addr_off)) || (end_ >? mem_size)
        then Ret (MX_ERR_OUT_OF_RANGE, out, set_mem m g2)
        else
          let g3 := guest 3%nat g2 in
          let g4 := guest 4%nat g3 in
          let g5 := guest 5%nat g4 in
          let g6 := guest 6%nat g5 in
          let g7 := guest 7%nat g6 in
          Ret (MX_OK,
               mk_desc (u64 (guest_physmem_addr device
                             + read64 g3 (d + desc_addr_off)))
                       (read32 g4 (d + desc_len_off))
                       (negb (Z.land (read16 g5 (d + desc_flags_off))
                                     VRING_DESC_F_NEXT =? 0))
                       (negb (Z.land (read16 g6 (d + desc_flags_off))
                                     VRING_DESC_F_WRITE =? 0))
                       (read16 g7 (d + desc_next_off)),
               set_mem m g7)
  end.

(** One turn of the loop of [virtio_queue_handler], load by load, [t] being
    the number of its first load: [desc->addr] is loaded at lines 396, 397
    and 400, [desc->len] at lines 396 and 401, [desc->flags] at lines 401
    and 408, [desc->next] at line 407; when the handler fails, the message
    of line 403 loads [desc->addr] and [desc->len] instead of the last
    two. *)
Definition chain_step_volatile (handler : virtio_queue_fn_t H) (qi : nat)
    (mem_addr mem_size : Z) (t : nat) (desc_index used_len : Z) (w : world H)
    : step_result :=
  match queues (dev (mach w)) !! qi with
  | None => StepFault BadQueueRef
  | Some queue =>
      if desc queue =? 0 then StepFault NullDeref
      else
        let d := desc queue + sizeof_vring_desc * desc_index in
        (* const uint64_t end = desc->addr + desc->len; *)
        let g0 := guest t (mem (mach w)) in
        let g1 := guest (t + 1)%nat g0 in
        let end_ := u64 (read64 g0 (d + desc_addr_off)
                         + read32 g1 (d + desc_len_off)) in
        (* if (end < desc->addr || end > mem_size) *)
        let g2 := guest (t + 2)%nat g1 in
        if (end_ <? read64 g2 (d + desc_addr_off)) || (end_ >? mem_size)
        then StepReturn MX_ERR_OUT_OF_RANGE (set_mach w (set_mem (mach w) g2))
        else
          (* void* addr = reinterpret_cast<void*>(mem_addr + desc->addr); *)
          let g3 := guest (t + 3)%nat g2 in
          let host_addr := u64 (mem_addr + read64 g3 (d + desc_addr_off)) in
          (* handler(addr, desc->len, desc->flags, &used_len, context) *)
          let g4 := guest (t + 4)%nat g3 in
          let desc_len := read32 g4 (d + desc_len_off) in
          let g5 := guest (t + 5)%nat g4 in
          let desc_flags := read16 g5 (d + desc_flags_off) in
          let '(st, used_len', m1) :=
            handler host_addr desc_len desc_flags used_len
                    (set_mem (mach w) g5) in
          let w1 := emit (set_mach w m1) (EvHandler host_addr desc_len desc_flags) in
          let g6 := guest (t + 6)%nat (mem m1) in
          let g7 := guest (t + 7)%nat g6 in
          let w2 := set_mach w1 (set_mem m1 g7) in
          if negb (is_ok st) then StepReturn st w2
          else
            (* desc_index = desc->next; while (desc->flags & VRING_DESC_F_NEXT) *)
            let desc_index' := read16 g6 (d + desc_next_off) in
            if Z.land (read16 g7 (d + desc_flags_off)) VRING_DESC_F_NEXT =? 0
            then StepLast used_len' w2
            else StepNext desc_index' used_len' w2
  end.

(** The loop; a turn that goes on has made eight loads. *)
Fixpoint chain_walk_volatile (handler : virtio_queue_fn_t H) (qi : nat)
    (mem_addr mem_size : Z) (fuel : nat) (t : nat) (desc_index used_len : Z)
    (w : world H) : outcome walk_result :=
  match fuel with
  | O => OutOfFuel
  | S fuel' =>
      match chain_step_volatile handler qi mem_addr mem_size t desc_index used_len w with
      | StepNext desc_index' used_len' w' =>
          chain_walk_volatile handler qi mem_addr mem_size fuel' (t + 8)%nat
                              desc_index' used_len' w'
      | StepLast used_len' w' => Ret (WalkDone used_len' w')
      | StepReturn st w' => Ret (WalkReturn st w')
      | StepFault f => Fault f
      end
  end.


(** [virtio_queue_handler] with the loads of its loop told apart. *)
Definition virtio_queue_handler_volatile (handler : virtio_queue_fn_t H) (qi : nat)
    (fuel : nat) (w : world H) : outcome (mx_status_t * world H) :=
  queue <- get_queue (mach w) qi ;;
  match virtio_device queue with
  | NullDevice => Fault NullDeref
  | OwningDevice =>
      let used_len := 0 in
      let mem_addr := guest_physmem_addr (dev (mach w)) in
      let mem_size := guest_physmem_size (dev (mach w)) in
      r <- virtio_queue_next_avail qi 0 (mach w) ;;
      let '(st, head, m1) := r in
      let w1 := set_mach w m1 in
      if is_not_found st then Ret (MX_OK, w1)
      else if negb (is_ok st) then Ret (st, w1)
      else
        r <- chain_walk_volatile handler qi mem_addr mem_size fuel 0%nat head
                                 used_len w1 ;;
        match r with
        | WalkReturn st' w2 => Ret (st', w2)
        | WalkDone used_len' w2 =>
            w3 <- virtio_queue_return qi head used_len' w2 ;;
            queue' <- get_queue (mach w3) qi ;;
            Ret (if ring_avail_count queue' (mem (mach w3)) >? 0
                 then MX_ERR_NEXT else MX_OK, w3)
        end
  end.

End Volatile.

Section Invariants.
Context {H : Type}.


(** The available ring of the queue [qi] follows the sequence of heads [hs]
    from position [c] on: the queue is [q0] with its cursor at [c], and every
    entry that is published and not yet taken, at the positions from [c] up
    to [avail.idx], holds the head of its position. *)
Definition ring_follows (hs : Z -> Z) (qi : nat) (q0 : virtio_queue_t) (c : Z)
    (m : machine H) : Prop :=
  queues (dev m) !! qi = Some (set_index q0 c) /\
  forall j, c <= j < read16 (mem m) (avail q0 + ring_idx_off) ->
    read16 (mem m) (avail q0 + ring_entries_off + sizeof_avail_entry * (j mod size q0))
      = hs j.

End Invariants.

(** The heads at positions [c], [c + 1], ... of a sequence [hs], [n] of
    them. *)
Fixpoint heads_from (hs : Z -> Z) (c : Z) (n : nat) : list Z :=
  match n with
  | O => []
  | S n' => hs c :: heads_from hs (c + 1) n'
  end.

(* ===================================================================== *)
(** ** Guests, rings and callbacks of the examples *)


(** Descriptor 2 of [good_chain_mem] once the guest has pointed it 4 GiB
    past the start of guest memory. *)
Definition moved_chain_mem : memory :=
  write64 good_chain_mem (desc (ring4 0) + sizeof_vring_desc * 2 + desc_addr_off)
          (2 ^ 32).

(** A guest that keeps writing to the first byte of its memory. *)
Definition scribbling_guest : nat -> memory -> memory :=
  fun t g => write8 g guest_base (Z.of_nat t).

(** The guest publishing one more entry, whatever the ring holds. *)
Definition eager_producer : machine unit -> machine unit :=
  fun m => set_mem m (write16 (mem m) (avail (ring4 0) + ring_idx_off)
                              (read16 (mem m) (avail (ring4 0) + ring_idx_off) + 1)).

(** The guest publishing descriptors 2 and 3 while the worker sleeps. *)
Definition producer_of_two : machine unit -> machine unit :=
  fun m =>
    set_mem m
      (write16
         (write16 (write16 (mem m) (avail (ring4 0) + ring_idx_off) 2)
                  (avail (ring4 0) + ring_entries_off + sizeof_avail_entry * 0) 2)
         (avail (ring4 0) + ring_entries_off + sizeof_avail_entry * 1) 3).

(** A polling handler that uses 16 bytes of every buffer and stops the
    worker at descriptor 3. *)
Definition stop_at_3 : virtio_queue_poll_fn_t unit :=
  fun _ d _ m => (if d =? 3 then MX_ERR_STOP else MX_OK, 16, m).

(** The heads that [producer_of_two] publishes, by position. *)
Definition heads_2_3 : Z -> Z := fun j => if j =? 0 then 2 else 3.

(* ===================================================================== *)
(** ** Machine integers and memory *)

Lemma u8_idem (x : Z) : u8 (u8 x) = u8 x.
Proof. unfold u8. apply Z.mod_mod. lia. Qed.

Lemma read8_range (g : memory) (a : Z) : 0 <= read8 g a < 2 ^ 8.
Proof. unfold read8, u8. apply Z.mod_pos_bound. lia. Qed.

Lemma read16_range (g : memory) (a : Z) : 0 <= read16 g a < 2 ^ 16.
Proof.
  unfold read16.
  pose proof (read8_range g a). pose proof (read8_range g (a + 1)). lia.
Qed.

Lemma vcpu_u8_set_u8 (v : Z) (io : mx_vcpu_io_t) :
  vcpu_u8 (vcpu_set_u8 v io) = u8 v.
Proof.
  unfold vcpu_u8, vcpu_set_u8, u8; simpl.
  rewrite (Z.div_mod (vcpu_data io) (2 ^ 8)) at 1 by lia.
  replace (2 ^ 8 * (vcpu_data io / 2 ^ 8) + vcpu_data io mod 2 ^ 8
           - vcpu_data io mod 2 ^ 8 + v mod 2 ^ 8)
    with (v mod 2 ^ 8 + (vcpu_data io / 2 ^ 8) * 2 ^ 8) by lia.
  rewrite Z.mod_add by lia. apply Z.mod_mod. lia.
Qed.

(** Or-ing the queue bit into a byte leaves a nonzero byte that has it. *)
Lemma u8_lor_queue_bit (v : Z) :
  u8 (Z.lor v VIRTIO_ISR_QUEUE) <> 0 /\
  Z.land (u8 (Z.lor v VIRTIO_ISR_QUEUE)) VIRTIO_ISR_QUEUE = VIRTIO_ISR_QUEUE.
Proof.
  assert (Hodd : u8 (Z.lor v VIRTIO_ISR_QUEUE) mod 2 = 1).
  { unfold u8, VIRTIO_ISR_QUEUE.
    rewrite Z.mod_mod_divide by (exists (2 ^ 7); reflexivity).
    rewrite <- Z.bit0_mod, Z.lor_spec. simpl. now rewrite orb_true_r. }
  split.
  - intros E. rewrite E in Hodd. discriminate.
  - unfold VIRTIO_ISR_QUEUE in *. change 1 with (Z.ones 1) at 2.
    rewrite Z.land_ones by lia. exact Hodd.
Qed.

Lemma align_up_bounds (x : Z) : 0 <= x -> x <= align_up x 4096 <= x + 4095.
Proof.
  intros Hx. unfold align_up.
  pose proof (Z.div_mod (x + 4096 - 1) 4096 ltac:(lia)) as E.
  pose proof (Z.mod_pos_bound (x + 4096 - 1) 4096 ltac:(lia)) as B.
  lia.
Qed.

(** [PCI_ALIGN] rounds up to the next multiple of 4096 as long as the
    addition does not wrap. *)
Lemma PCI_ALIGN_align_up (x : Z) :
  0 <= x -> x + 4095 < 2 ^ 64 -> PCI_ALIGN x = align_up x 4096.
Proof.
  intros Hx Hb. unfold PCI_ALIGN, align_up, u64.
  rewrite Z.mod_small by lia.
  rewrite <- Z.ldiff_land. change 4095 with (Z.ones 12).
  rewrite Z.ldiff_ones_r by lia.
  rewrite Z.shiftl_mul_pow2, Z.shiftr_div_pow2 by lia.
  change (Z.ones 12) with 4095. change (2 ^ 12) with 4096.
  f_equal. f_equal. lia.
Qed.

(* ===================================================================== *)
(** ** Ring layout *)

Section Layout.
Context {H : Type}.

(** [virtio_queue_set_pfn] in closed form, for every capacity and every pfn
    below [2 ^ 20] when guest memory is mapped away from the top of the
    address space, so that no addition wraps: the three ring headers and the
    two event cells are [sizeof_ptr] bytes each, and the call fails exactly
    when the end of the avail-event cell lies past the end of guest memory. *)
Lemma set_pfn_no_wrap (qi : nat) (p : Z) (m : machine H) (q : virtio_queue_t) :
  queues (dev m) !! qi = Some q ->
  virtio_device q = OwningDevice ->
  0 <= size q < 2 ^ 16 ->
  0 <= p < 2 ^ 20 ->
  0 <= guest_physmem_addr (dev m) ->
  guest_physmem_addr (dev m) + 2 ^ 33 <= 2 ^ 64 ->
  0 <= guest_physmem_size (dev m) ->
  guest_physmem_addr (dev m) + guest_physmem_size (dev m) < 2 ^ 64 ->
  let base := guest_physmem_addr (dev m) in
  let n := size q in
  let d := p * PAGE_SIZE in
  let ue := d + n * sizeof_vring_desc + sizeof_ptr + n * sizeof_avail_entry in
  let u := align_up (ue + sizeof_ptr) PAGE_SIZE in
  let ae := u + sizeof_ptr + n * sizeof_vring_used_elem in
  virtio_queue_set_pfn qi p m
    = if ae + sizeof_ptr >? guest_physmem_size (dev m)
      then Ret (MX_ERR_OUT_OF_RANGE, put_queue m qi zero_queue)
      else Ret (MX_OK,
                put_queue m qi
                  (mk_queue n (index q) p OwningDevice
                            (base + d) (base + (d + n * sizeof_vring_desc))
                            (base + ue) (base + u) (base + ae))).
Proof.
  intros Hq Hd Hn Hp Hb0 Hb1 Hs0 Hs1 base n d ue u ae.
  unfold virtio_queue_set_pfn, get_queue. rewrite Hq. simpl. rewrite Hd.
  assert (Hu := align_up_bounds (ue + sizeof_ptr)).
  unfold sizeof_vring_desc, sizeof_ptr, sizeof_avail_entry, sizeof_vring_used_elem,
    PAGE_SIZE in *.
  fold n base.
  assert (Hd0 : 0 <= d < 2 ^ 32) by (unfold d; lia).
  assert (Hue : 0 <= ue < 2 ^ 32 + 2 ^ 21) by (unfold ue; lia).
  assert (Hu' : ue + 8 <= u <= ue + 8 + 4095) by (apply Hu; lia).
  assert (Hae : 0 <= ae < 2 ^ 32 + 2 ^ 23) by (unfold ae; lia).
  assert (Hsmall : forall x, 0 <= x < 2 ^ 64 -> u64 x = x)
    by (intros x Hx; unfold u64; apply Z.mod_small; lia).
  assert (E1 : u32 p = p) by (unfold u32; apply Z.mod_small; lia).
  assert (E2 : u32 (p * 4096) = d) by (unfold u32, d; apply Z.mod_small; lia).
  rewrite E1, E2.
  rewrite (Hsmall (n * 16)), (Hsmall (n * 2)), (Hsmall (n * 8)) by lia.
  rewrite (Hsmall (d + n * 16)), (Hsmall (8 + n * 2)), (Hsmall (8 + n * 8)) by lia.
  replace (d + n * 16 + (8 + n * 2)) with ue by (unfold ue; lia).
  rewrite (Hsmall ue) by lia.
  rewrite (PCI_ALIGN_align_up (ue + 8)) by lia. fold u.
  replace (u + (8 + n * 8)) with ae by (unfold ae; lia).
  rewrite (Hsmall ae) by lia.
  rewrite (Hsmall (base + d)), (Hsmall (base + (d + n * 16))), (Hsmall (base + ue)),
    (Hsmall (base + u)), (Hsmall (base + ae)), (Hsmall (base + ae + 8)),
    (Hsmall (base + guest_physmem_size (dev m))) by lia.
  destruct (Z.ltb_spec (base + ae + 8) d) as [Hlt|_]; [lia|]. simpl.
  destruct (Z.gtb_spec (base + ae + 8) (base + guest_physmem_size (dev m)));
    destruct (Z.gtb_spec (ae + 8) (guest_physmem_size (dev m)));
    try lia; reflexivity.
Qed.

(** What a successful [virtio_queue_set_pfn] stores. *)
Lemma set_pfn_layout (qi : nat) (p : Z) (m m' : machine H) (q : virtio_queue_t) :
  queues (dev m) !! qi = Some q ->
  virtio_device q = OwningDevice ->
  0 <= size q < 2 ^ 16 ->
  0 <= p < 2 ^ 20 ->
  0 <= guest_physmem_addr (dev m) ->
  guest_physmem_addr (dev m) + 2 ^ 33 <= 2 ^ 64 ->
  0 <= guest_physmem_size (dev m) ->
  guest_physmem_addr (dev m) + guest_physmem_size (dev m) < 2 ^ 64 ->
  virtio_queue_set_pfn qi p m = Ret (MX_OK, m') ->
  let base := guest_physmem_addr (dev m) in
  let n := size q in
  let d := p * PAGE_SIZE in
  let ue := d + n * sizeof_vring_desc + sizeof_ptr + n * sizeof_avail_entry in
  let u := align_up (ue + sizeof_ptr) PAGE_SIZE in
  queues (dev m') !! qi
    = Some (mk_queue n (index q) p OwningDevice
                     (base + d)
                     (base + (d + n * sizeof_vring_desc))
                     (base + ue)
                     (base + u)
                     (base + (u + sizeof_ptr + n * sizeof_vring_used_elem))).
Proof.
  intros Hq Hd Hn Hp Hb0 Hb1 Hs0 Hs1 E base n d ue u.
  rewrite (set_pfn_no_wrap qi p m q) in E by assumption.
  match type of E with context [if ?c then _ else _] => destruct c end;
    [discriminate|].
  injection E as <-. simpl.
  apply list_lookup_insert_eq. eapply lookup_lt_Some; eassumption.
Qed.

(** A ring that would end past guest memory is refused and the queue
    zeroed. *)
Lemma set_pfn_outside_guest_memory (qi : nat) (p : Z) (m : machine H)
    (q : virtio_queue_t) :
  queues (dev m) !! qi = Some q ->
  virtio_device q = OwningDevice ->
  0 <= size q < 2 ^ 16 ->
  0 <= p < 2 ^ 20 ->
  0 <= guest_physmem_addr (dev m) ->
  guest_physmem_addr (dev m) + 2 ^ 33 <= 2 ^ 64 ->
  0 <= guest_physmem_size (dev m) ->
  guest_physmem_addr (dev m) + guest_physmem_size (dev m) < 2 ^ 64 ->
  guest_physmem_size (dev m)
    < align_up (p * PAGE_SIZE + size q * sizeof_vring_desc + sizeof_ptr
                + size q * sizeof_avail_entry + sizeof_ptr) PAGE_SIZE
      + sizeof_ptr + size q * sizeof_vring_used_elem + sizeof_ptr ->
  virtio_queue_set_pfn qi p m
    = Ret (MX_ERR_OUT_OF_RANGE, put_queue m qi zero_queue).
Proof.
  intros Hq Hd Hn Hp Hb0 Hb1 Hs0 Hs1 Hout.
  rewrite (set_pfn_no_wrap qi p m q) by assumption.
  match goal with |- context [?a >? ?b] => destruct (Z.gtb_spec a b) end;
    [reflexivity|lia].
Qed.

(** Against the legacy layout: the descriptor table and the available ring
    are where the guest puts them, the used-event cell is 4 bytes late. *)
Lemma set_pfn_used_event_late (qi : nat) (p : Z) (m m' : machine H)
    (q : virtio_queue_t) :
  queues (dev m) !! qi = Some q ->
  virtio_device q = OwningDevice ->
  0 <= size q < 2 ^ 16 ->
  0 <= p < 2 ^ 20 ->
  0 <= guest_physmem_addr (dev m) ->
  guest_physmem_addr (dev m) + 2 ^ 33 <= 2 ^ 64 ->
  0 <= guest_physmem_size (dev m) ->
  guest_physmem_addr (dev m) + guest_physmem_size (dev m) < 2 ^ 64 ->
  virtio_queue_set_pfn qi p m = Ret (MX_OK, m') ->
  exists q',
    queues (dev m') !! qi = Some q' /\
    desc q' = guest_physmem_addr (dev m)
              + desc_paddr (legacy_layout PAGE_SIZE (size q) p) /\
    avail q' = guest_physmem_addr (dev m)
               + avail_paddr (legacy_layout PAGE_SIZE (size q) p) /\
    used_event q' = guest_physmem_addr (dev m)
                    + used_event_paddr (legacy_layout PAGE_SIZE (size q) p) + 4.
Proof.
  intros Hq Hd Hn Hp Hb0 Hb1 Hs0 Hs1 E.
  eexists. split; [eapply set_pfn_layout; eassumption|].
  simpl. unfold sizeof_vring_avail, sizeof_ptr. repeat split; lia.
Qed.

(** A failed [virtio_queue_set_pfn] leaves the zeroed queue behind. *)
Lemma set_pfn_failure_zeroes (qi : nat) (p : Z) (m m' : machine H) :
  virtio_queue_set_pfn qi p m = Ret (MX_ERR_OUT_OF_RANGE, m') ->
  m' = put_queue m qi zero_queue /\ queues (dev m') !! qi = Some zero_queue.
Proof.
  unfold virtio_queue_set_pfn, get_queue.
  destruct (queues (dev m) !! qi) as [q|] eqn:Hq; simpl; [|discriminate].
  destruct (virtio_device q); [discriminate|].
  match goal with |- context [if ?c then _ else _] => destruct c end;
    intros E; [|discriminate].
  injection E as <-. split; [reflexivity|].
  simpl. apply list_lookup_insert_eq. eapply lookup_lt_Some; eassumption.
Qed.

(** After a failure every further [virtio_queue_set_pfn] on the queue goes
    through the zeroed device pointer. *)
Lemma set_pfn_after_failure (qi : nat) (p p' : Z) (m m' : machine H) :
  virtio_queue_set_pfn qi p m = Ret (MX_ERR_OUT_OF_RANGE, m') ->
  virtio_queue_set_pfn qi p' m' = Fault NullDeref.
Proof.
  intros E. apply set_pfn_failure_zeroes in E as [_ Hz].
  unfold virtio_queue_set_pfn, get_queue. rewrite Hz. reflexivity.
Qed.

End Layout.

(** C1. [virtio_queue_set_pfn] sizes the three ring headers and the two event
    cells with [sizeof] of the pointers, not of what they point to. For
    capacity 4 at pfn 1 the call succeeds with the descriptor table, the
    available ring and the used ring at their legacy addresses, but the
    used-event cell and the avail-event cell 4 bytes past theirs; for
    capacity 1365 the used ring itself starts one page late. *)
Theorem set_pfn_departs_from_legacy_layout :
  let L := legacy_layout PAGE_SIZE 4 1 in
  let L' := legacy_layout PAGE_SIZE 1365 1 in
  (exists q,
     virtio_queue_set_pfn 0 1 (boot 4) = Ret (MX_OK, put_queue (boot 4) 0 q) /\
     desc q = guest_base + desc_paddr L /\
     avail q = guest_base + avail_paddr L /\
     used q = guest_base + used_paddr L /\
     used_event q = guest_base + used_event_paddr L + 4 /\
     avail_event q = guest_base + avail_event_paddr L + 4) /\
  (exists q,
     virtio_queue_set_pfn 0 1 (boot 1365) = Ret (MX_OK, put_queue (boot 1365) 0 q) /\
     used q = guest_base + used_paddr L' + PAGE_SIZE).
Proof.
  split.
  - exists (ring4 0). repeat split; reflexivity.
  - eexists. split; [ vm_compute; reflexivity | reflexivity ].
Qed.

(** C2. A pfn whose ring would end past guest memory makes
    [virtio_queue_set_pfn] zero the queue and return the bounds error; the
    zeroed queue has lost its device pointer, so the next
    [virtio_queue_set_pfn], with a pfn that is valid on the fresh queue,
    dereferences a null pointer, called directly or through the QUEUE_PFN
    register. *)
Theorem set_pfn_after_failure_dereferences_null :
  let zeroed := put_queue (boot 4) 0 zero_queue in
  virtio_queue_set_pfn 0 256 (boot 4) = Ret (MX_ERR_OUT_OF_RANGE, zeroed) /\
  queues (dev zeroed) = [zero_queue] /\
  (exists m', virtio_queue_set_pfn 0 1 (boot 4) = Ret (MX_OK, m')) /\
  virtio_queue_set_pfn 0 1 zeroed = Fault NullDeref /\
  virtio_pci_legacy_write quiet_ops pci_ok 0 VIRTIO_PCI_QUEUE_PFN (mk_io 4 1)
    (mk_world zeroed []) = Fault NullDeref.
Proof.
  repeat split; try reflexivity.
  eexists. vm_compute. reflexivity.
Qed.

(* ===================================================================== *)
(** ** The available ring *)

Section AvailRing.
Context {H : Type}.

Lemma ring_avail_count_null (q : virtio_queue_t) (g : memory) :
  avail q = 0 -> ring_avail_count q g = 0.
Proof. intros E. unfold ring_avail_count. rewrite E. reflexivity. Qed.

(** The count is the difference of the two counters as integers. *)
Lemma ring_avail_count_int (q : virtio_queue_t) (g : memory) :
  avail q <> 0 ->
  ring_avail_count q g = read16 g (avail q + ring_idx_off) - index q.
Proof.
  intros Hn. unfold ring_avail_count.
  destruct (Z.eqb_spec (avail q) 0); [contradiction|reflexivity].
Qed.

(** While [avail.idx] has not wrapped past the cursor, the count is the
    difference modulo [2 ^ 16]. *)
Lemma ring_avail_count_no_wrap (q : virtio_queue_t) (g : memory) :
  avail q <> 0 ->
  0 <= index q <= read16 g (avail q + ring_idx_off) ->
  ring_avail_count q g = u16 (read16 g (avail q + ring_idx_off) - index q).
Proof.
  intros Hn Hle. rewrite ring_avail_count_int by assumption.
  pose proof (read16_range g (avail q + ring_idx_off)).
  unfold u16. rewrite Z.mod_small; lia.
Qed.

(** Once [avail.idx] has wrapped and the cursor has not, the count is
    negative although entries are pending. *)
Lemma ring_avail_count_wrapped (q : virtio_queue_t) (g : memory) :
  avail q <> 0 ->
  read16 g (avail q + ring_idx_off) < index q < 2 ^ 16 ->
  ring_avail_count q g < 0 /\
  0 < u16 (read16 g (avail q + ring_idx_off) - index q).
Proof.
  intros Hn Hlt. rewrite ring_avail_count_int by assumption.
  pose proof (read16_range g (avail q + ring_idx_off)) as Hr.
  split; [lia|].
  unfold u16.
  replace (read16 g (avail q + ring_idx_off) - index q)
    with (read16 g (avail q + ring_idx_off) - index q + 2 ^ 16 + (-1) * 2 ^ 16)
    by lia.
  rewrite Z.mod_add by lia. rewrite Z.mod_small; lia.
Qed.

(** With a positive count [virtio_queue_next_avail] returns the entry at
    [cursor mod capacity] and advances the cursor by one, modulo [2 ^ 16]. *)
Lemma next_avail_takes_entry (qi : nat) (out : Z) (m : machine H)
    (q : virtio_queue_t) :
  queues (dev m) !! qi = Some q ->
  1 <= ring_avail_count q (mem m) ->
  size q <> 0 ->
  virtio_queue_next_avail qi out m
    = Ret (MX_OK,
           read16 (mem m) (avail q + ring_entries_off
                           + sizeof_avail_entry * (u32 (index q) mod size q)),
           put_queue m qi (set_index q (u16 (index q + 1)))).
Proof.
  intros Hq Hc Hs.
  unfold virtio_queue_next_avail, virtio_queue_next_avail_locked, get_queue,
    ring_index.
  rewrite Hq. simpl.
  destruct (Z.ltb_spec (ring_avail_count q (mem m)) 1); [lia|].
  destruct (Z.eqb_spec (size q) 0); [contradiction|]. reflexivity.
Qed.

Lemma next_avail_no_work (qi : nat) (out : Z) (m : machine H)
    (q : virtio_queue_t) :
  queues (dev m) !! qi = Some q ->
  ring_avail_count q (mem m) < 1 ->
  virtio_queue_next_avail qi out m = Ret (MX_ERR_NOT_FOUND, out, m).
Proof.
  intros Hq Hc.
  unfold virtio_queue_next_avail, virtio_queue_next_avail_locked, get_queue.
  rewrite Hq. simpl.
  destruct (Z.ltb_spec (ring_avail_count q (mem m)) 1); [reflexivity|lia].
Qed.

(** Scenario B on any ring: [avail.idx = 1], cursor 0, slot 0 holding
    descriptor 2. The first call returns 2 and moves the cursor to 1, the
    second one finds no work. *)
Lemma next_avail_one_entry (qi : nat) (out : Z) (m : machine H)
    (q : virtio_queue_t) :
  queues (dev m) !! qi = Some q ->
  avail q <> 0 ->
  size q <> 0 ->
  index q = 0 ->
  read16 (mem m) (avail q + ring_idx_off) = 1 ->
  read16 (mem m) (avail q + ring_entries_off) = 2 ->
  virtio_queue_next_avail qi out m
    = Ret (MX_OK, 2, put_queue m qi (set_index q 1)) /\
  virtio_queue_next_avail qi 2 (put_queue m qi (set_index q 1))
    = Ret (MX_ERR_NOT_FOUND, 2, put_queue m qi (set_index q 1)).
Proof.
  intros Hq Ha Hs Hi Hidx Hslot. split.
  - rewrite (next_avail_takes_entry qi out m q Hq).
    + rewrite Hi. change (u32 0) with 0. rewrite Z.mod_0_l by assumption.
      rewrite Z.mul_0_r, Z.add_0_r, Hslot. reflexivity.
    + rewrite ring_avail_count_int by assumption. lia.
    + assumption.
  - apply (next_avail_no_work qi 2 _ (set_index q 1)).
    + simpl. apply list_lookup_insert_eq. eapply lookup_lt_Some; eassumption.
    + simpl. rewrite ring_avail_count_int by assumption. simpl. lia.
Qed.

End AvailRing.

(** Scenario B on the ring of capacity 4 at pfn 1. *)
Example next_avail_scenario_B :
  virtio_queue_next_avail 0 0 (running 0 (avail_mem 1 0 2))
    = Ret (MX_OK, 2, running 1 (avail_mem 1 0 2)) /\
  virtio_queue_next_avail 0 2 (running 1 (avail_mem 1 0 2))
    = Ret (MX_ERR_NOT_FOUND, 2, running 1 (avail_mem 1 0 2)).
Proof. split; reflexivity. Qed.

(** C3. With the cursor at 65535 and [avail.idx] wrapped to 0 one entry is
    pending, [(avail.idx - cursor) mod 2 ^ 16 = 1]; [ring_avail_count]
    subtracts in [int] and returns -65535, and the queue is reported empty. *)
Theorem ring_avail_count_negative_after_wrap :
  let g := avail_mem 0 3 2 in
  read16 g (avail (ring4 65535) + ring_idx_off) = 0 /\
  index (ring4 65535) = 65535 /\
  u16 (0 - 65535) = 1 /\
  ring_avail_count (ring4 65535) g = -65535 /\
  virtio_queue_next_avail_locked 0 0 (running 65535 g)
    = Ret (MX_ERR_NOT_FOUND, 0, running 65535 g).
Proof.
  repeat split; reflexivity.
Qed.

(** C6. The same ring seen from [virtio_queue_next_avail]: slot
    [65535 mod 4] of the available ring holds descriptor 2 and the available
    count is not zero, yet the call returns "no work", stores no head and
    leaves the cursor where it was. *)
Theorem next_avail_misses_entry_after_wrap :
  let g := avail_mem 0 3 2 in
  let q := ring4 65535 in
  ring_index q (index q) = Ret 3 /\
  read16 g (avail q + ring_entries_off + sizeof_avail_entry * 3) = 2 /\
  ring_avail_count q g <> 0 /\
  u16 (read16 g (avail q + ring_idx_off) - index q) <> 0 /\
  virtio_queue_next_avail 0 7 (running 65535 g)
    = Ret (MX_ERR_NOT_FOUND, 7, running 65535 g).
Proof.
  repeat split; try reflexivity; vm_compute; discriminate.
Qed.

(* ===================================================================== *)
(** ** The descriptor-chain walk *)

Section Walk.
Context {H : Type}.
Variable handler : virtio_queue_fn_t H.
Variable qi : nat.
Variables mem_addr mem_size : Z.

(** A turn of the loop adds at most one event, a handler call. *)
Lemma chain_step_trace (i u : Z) (w : world H) :
  match chain_step handler qi mem_addr mem_size i u w with
  | StepNext _ _ w' | StepLast _ w' | StepReturn _ w' =>
      exists evs, trace w' = trace w ++ evs /\
                  forallb is_handler_event evs = true
  | StepFault _ => True
  end.
Proof.
  unfold chain_step.
  destruct (queues (dev (mach w)) !! qi) as [q|]; [|exact I].
  destruct (desc q =? 0); [exact I|].
  destruct (desc_out_of_range _ _ _).
  { exists []. rewrite app_nil_r. auto. }
  destruct (handler _ _ _ _ _) as [[st u1] m1].
  destruct (negb (is_ok st)); [|destruct (Z.land _ _ =? 0)];
    simpl; eexists; split; reflexivity.
Qed.

Lemma chain_step_next_trace (i u : Z) (w : world H) (i' u' : Z) (w' : world H) :
  chain_step handler qi mem_addr mem_size i u w = StepNext i' u' w' ->
  exists a l f, trace w' = trace w ++ [EvHandler a l f].
Proof.
  unfold chain_step.
  destruct (queues (dev (mach w)) !! qi) as [q|]; [|discriminate].
  destruct (desc q =? 0); [discriminate|].
  destruct (desc_out_of_range _ _ _); [discriminate|].
  destruct (handler _ _ _ _ _) as [[st u1] m1].
  destruct (negb (is_ok st)); [discriminate|].
  destruct (Z.land _ _ =? 0); [discriminate|].
  intros E. injection E as _ _ <-. simpl. eauto.
Qed.


(** The loop never writes the used ring: whatever way it is left, the events
    it added are handler calls. *)
Lemma chain_walk_trace (fuel : nat) : forall (i u : Z) (w : world H),
  match chain_walk handler qi mem_addr mem_size fuel i u w with
  | Ret (WalkDone _ w') | Ret (WalkReturn _ w') =>
      exists evs, trace w' = trace w ++ evs /\
                  forallb is_handler_event evs = true
  | _ => True
  end.
Proof.
  induction fuel as [|fuel IH]; simpl; intros i u w; [exact I|].
  pose proof (chain_step_trace i u w) as S1.
  destruct (chain_step handler qi mem_addr mem_size i u w) as [i1 u1 w1| | |];
    try assumption.
  specialize (IH i1 u1 w1).
  destruct S1 as (e1 & T1 & F1).
  destruct (chain_walk handler qi mem_addr mem_size fuel i1 u1 w1) as [[? w'|? w']| |];
    try exact I;
    destruct IH as (e2 & T2 & F2); exists (e1 ++ e2);
    rewrite T2, T1, <- app_assoc, forallb_app, F1, F2; auto.
Qed.

Lemma chain_prefix_trace (k : nat) :
  forall (i u : Z) (w : world H) (i' u' : Z) (w' : world H),
  chain_prefix handler qi mem_addr mem_size k i u w = Some (i', u', w') ->
  exists evs, trace w' = trace w ++ evs /\ length evs = k /\
              forallb is_handler_event evs = true.
Proof.
  induction k as [|k IH]; simpl; intros i u w i' u' w' E.
  - injection E as _ _ <-. exists []. rewrite app_nil_r. auto.
  - destruct (chain_step handler qi mem_addr mem_size i u w) as [i1 u1 w1| | |] eqn:S1;
      try discriminate.
    apply chain_step_next_trace in S1 as (a & l & f & T1).
    apply IH in E as (evs & T & L & F).
    exists (EvHandler a l f :: evs). rewrite T, T1, <- app_assoc. simpl. auto.
Qed.

(** Fuel beyond the turns already taken is spent from where they ended. *)
Lemma chain_walk_prefix (k : nat) :
  forall (fuel : nat) (i u : Z) (w : world H) (i' u' : Z) (w' : world H),
  chain_prefix handler qi mem_addr mem_size k i u w = Some (i', u', w') ->
  chain_walk handler qi mem_addr mem_size (k + fuel) i u w
    = chain_walk handler qi mem_addr mem_size fuel i' u' w'.
Proof.
  induction k as [|k IH]; simpl; intros fuel i u w i' u' w' E.
  - injection E as <- <- <-. reflexivity.
  - destruct (chain_step handler qi mem_addr mem_size i u w); try discriminate.
    now apply IH.
Qed.

End Walk.

Section Handler.
Context {H : Type}.
Variable handler : virtio_queue_fn_t H.

(** [virtio_queue_read_desc] checks the bounds before it fills [out]. *)
Lemma read_desc_out_of_range (qi : nat) (i : Z) (out : virtio_desc_t)
    (m : machine H) (q : virtio_queue_t) :
  queues (dev m) !! qi = Some q ->
  virtio_device q = OwningDevice ->
  desc q <> 0 ->
  desc_out_of_range (mem m) (desc q + sizeof_vring_desc * i)
                    (guest_physmem_size (dev m)) = true ->
  virtio_queue_read_desc qi i out m = Ret (MX_ERR_OUT_OF_RANGE, out).
Proof.
  intros Hq Hd Hn Hbad. unfold virtio_queue_read_desc, get_queue.
  rewrite Hq. simpl. rewrite Hd.
  destruct (Z.eqb_spec (desc q) 0); [contradiction|].
  rewrite Hbad. reflexivity.
Qed.


(** A queue whose available ring is null, and whose device pointer is not,
    gives [virtio_queue_handler] nothing to do: it returns [MX_OK] and the
    world is the one it was given, whatever guest memory holds. *)
Lemma handler_null_avail (qi fuel : nat) (w : world H) (q : virtio_queue_t) :
  queues (dev (mach w)) !! qi = Some q ->
  virtio_device q = OwningDevice ->
  avail q = 0 ->
  virtio_queue_handler handler qi fuel w = Ret (MX_OK, w).
Proof.
  intros Hq Hd Ha. unfold virtio_queue_handler, get_queue. rewrite Hq. simpl.
  rewrite Hd. rewrite (next_avail_no_work qi 0 (mach w) q Hq)
    by (rewrite ring_avail_count_null by assumption; lia).
  simpl. destruct w; reflexivity.
Qed.

End Handler.


(** C9. The queue that a failed [virtio_queue_set_pfn] zeroed has a null
    available ring: its available count is 0 and [virtio_queue_next_avail]
    returns "no work" without touching it. [virtio_queue_handler] however
    reads [queue->virtio_device->guest_physmem_addr] first, through the
    pointer that was zeroed too. *)
Theorem handler_on_zeroed_queue_dereferences_null :
  forall (handler : virtio_queue_fn_t unit) (fuel : nat) (g : memory)
         (tr : list event),
    let zeroed := mk_machine (device_of [zero_queue]) g tt in
    virtio_queue_set_pfn 0 256 (mk_machine (device_of [fresh_queue 4]) g tt)
      = Ret (MX_ERR_OUT_OF_RANGE, zeroed) /\
    avail zero_queue = 0 /\
    ring_avail_count zero_queue g = 0 /\
    virtio_queue_next_avail 0 0 zeroed = Ret (MX_ERR_NOT_FOUND, 0, zeroed) /\
    virtio_queue_handler handler 0 fuel (mk_world zeroed tr) = Fault NullDeref.
Proof.
  intros handler fuel g tr. repeat split; reflexivity.
Qed.

(* ===================================================================== *)
(** ** The legacy PCI registers *)

Section Registers.
Context {H : Type}.
Variable ops : virtio_device_ops_t H.
Variable pci_interrupt : machine H -> mx_status_t * machine H.

(** The three accesses that check the selected queue reject a missing one
    and change nothing. *)
Lemma unselected_queue_rejected (io : mx_packet_guest_io_t)
    (vcpu_io : mx_vcpu_io_t) (w : world H) :
  selected_queue (dev (mach w)) = None ->
  virtio_pci_legacy_read ops 0 VIRTIO_PCI_QUEUE_PFN vcpu_io w
    = Ret (MX_ERR_NOT_SUPPORTED, vcpu_io, w) /\
  virtio_pci_legacy_read ops 0 VIRTIO_PCI_QUEUE_SIZE vcpu_io w
    = Ret (MX_ERR_NOT_SUPPORTED, vcpu_io, w) /\
  (access_size io = 4 ->
   virtio_pci_legacy_write ops pci_interrupt 0 VIRTIO_PCI_QUEUE_PFN io w
     = Ret (MX_ERR_NOT_SUPPORTED, w)).
Proof.
  intros Hsel. unfold virtio_pci_legacy_read, virtio_pci_legacy_write.
  rewrite Hsel. repeat split. intros ->. reflexivity.
Qed.

(** The QUEUE_SIZE write does not check it. *)
Lemma queue_size_write_null (io : mx_packet_guest_io_t) (w : world H) :
  selected_queue (dev (mach w)) = None ->
  access_size io = 2 ->
  virtio_pci_legacy_write ops pci_interrupt 0 VIRTIO_PCI_QUEUE_SIZE io w
    = Fault NullDeref.
Proof.
  intros Hsel Hw. unfold virtio_pci_legacy_write. rewrite Hsel, Hw. reflexivity.
Qed.

(** C10. A DRIVER_FEATURES write of width 4 that echoes the advertised
    features returns [MX_OK] and leaves the world as it was; and whatever the
    bar, the width and the value, a DRIVER_FEATURES write returns with the
    world unchanged. *)
Theorem driver_features_write_changes_nothing
    (io : mx_packet_guest_io_t) (w : world H) :
  access_size io = 4 ->
  io_u32 io = features (dev (mach w)) ->
  virtio_pci_legacy_write ops pci_interrupt 0 VIRTIO_PCI_DRIVER_FEATURES io w
    = Ret (MX_OK, w) /\
  forall (bar : Z) (io' : mx_packet_guest_io_t),
    exists st,
      virtio_pci_legacy_write ops pci_interrupt bar VIRTIO_PCI_DRIVER_FEATURES io' w
        = Ret (st, w).
Proof.
  intros Hw Hv. split.
  - unfold virtio_pci_legacy_write. rewrite Hw, Hv, !Z.eqb_refl. reflexivity.
  - intros bar io'. unfold virtio_pci_legacy_write.
    destruct (bar =? 0); simpl; [|eauto].
    destruct (access_size io' =? 4); simpl; [|eauto].
    destruct (io_u32 io' =? features (dev (mach w))); simpl; eauto.
Qed.

Lemma virtio_queue_return_isr (qi : nat) (idx l : Z) (w w1 : world H) :
  virtio_queue_return qi idx l w = Ret w1 ->
  isr_status (dev (mach w1))
    = u8 (Z.lor (isr_status (dev (mach w))) VIRTIO_ISR_QUEUE).
Proof.
  unfold virtio_queue_return, get_queue, ring_index.
  destruct (queues (dev (mach w)) !! qi) as [q|]; simpl; [|discriminate].
  destruct (used q =? 0); [discriminate|].
  destruct (size q =? 0); simpl; [discriminate|].
  destruct (virtio_device q); [discriminate|].
  intros E. injection E as <-. reflexivity.
Qed.

(** C8. After [virtio_queue_return] the queue bit is set in [isr_status];
    the first ISR_STATUS read returns a nonzero byte that has the bit and
    leaves [isr_status] at 0; the read that follows returns 0. *)
Theorem isr_read_returns_queue_bit_then_zero
    (qi : nat) (idx l : Z) (vcpu_io : mx_vcpu_io_t) (w w1 : world H) :
  virtio_queue_return qi idx l w = Ret w1 ->
  Z.land (isr_status (dev (mach w1))) VIRTIO_ISR_QUEUE = VIRTIO_ISR_QUEUE /\
  exists io1 w2 io2 w3,
    virtio_pci_legacy_read ops 0 VIRTIO_PCI_ISR_STATUS vcpu_io w1
      = Ret (MX_OK, io1, w2) /\
    vcpu_u8 io1 <> 0 /\
    Z.land (vcpu_u8 io1) VIRTIO_ISR_QUEUE = VIRTIO_ISR_QUEUE /\
    isr_status (dev (mach w2)) = 0 /\
    virtio_pci_legacy_read ops 0 VIRTIO_PCI_ISR_STATUS io1 w2
      = Ret (MX_OK, io2, w3) /\
    vcpu_u8 io2 = 0.
Proof.
  intros Hret. apply virtio_queue_return_isr in Hret.
  destruct (u8_lor_queue_bit (isr_status (dev (mach w)))) as [Hnz Hbit].
  split; [rewrite Hret; exact Hbit|].
  do 4 eexists. unfold virtio_pci_legacy_read. simpl.
  split; [reflexivity|].
  rewrite vcpu_u8_set_u8, Hret, u8_idem.
  repeat split; try assumption.
  rewrite vcpu_u8_set_u8. reflexivity.
Qed.



End Registers.

(** C5. On a device whose selected queue does not exist, reading QUEUE_PFN
    or QUEUE_SIZE and writing QUEUE_PFN fail with [MX_ERR_NOT_SUPPORTED] and
    change nothing; writing QUEUE_SIZE, the one path without the null
    check, assigns through the null queue pointer. *)
Theorem queue_size_write_lacks_null_check :
  let w := mk_world (mk_machine (device_of []) zero_mem tt) [] in
  let io0 := mk_vcpu_io 0 0 in
  selected_queue (dev (mach w)) = None /\
  virtio_pci_legacy_read quiet_ops 0 VIRTIO_PCI_QUEUE_PFN io0 w
    = Ret (MX_ERR_NOT_SUPPORTED, io0, w) /\
  virtio_pci_legacy_read quiet_ops 0 VIRTIO_PCI_QUEUE_SIZE io0 w
    = Ret (MX_ERR_NOT_SUPPORTED, io0, w) /\
  virtio_pci_legacy_write quiet_ops pci_ok 0 VIRTIO_PCI_QUEUE_PFN (mk_io 4 1) w
    = Ret (MX_ERR_NOT_SUPPORTED, w) /\
  virtio_pci_legacy_write quiet_ops pci_ok 0 VIRTIO_PCI_QUEUE_SIZE (mk_io 2 8) w
    = Fault NullDeref.
Proof.
  repeat split; reflexivity.
Qed.

(** The echo of the features 3 of [featured_world]. *)
Lemma driver_features_write_changes_nothing_witness :
  virtio_pci_legacy_write quiet_ops pci_ok 0 VIRTIO_PCI_DRIVER_FEATURES (mk_io 4 3)
    featured_world = Ret (MX_OK, featured_world) /\
  forall (bar : Z) (io' : mx_packet_guest_io_t),
    exists st,
      virtio_pci_legacy_write quiet_ops pci_ok bar VIRTIO_PCI_DRIVER_FEATURES io'
        featured_world = Ret (st, featured_world).
Proof.
  apply (driver_features_write_changes_nothing quiet_ops pci_ok (mk_io 4 3)
           featured_world).
  - reflexivity.
  - reflexivity.
Defined.

(** Descriptor 2 is returned with 16 bytes used, then ISR_STATUS is read
    twice. *)
Lemma isr_read_returns_queue_bit_then_zero_witness :
  exists w1,
    virtio_queue_return 0 2 16 (mk_world (running 1 (avail_mem 1 0 2)) []) = Ret w1 /\
    Z.land (isr_status (dev (mach w1))) VIRTIO_ISR_QUEUE = VIRTIO_ISR_QUEUE /\
    exists io1 w2 io2 w3,
      virtio_pci_legacy_read quiet_ops 0 VIRTIO_PCI_ISR_STATUS (mk_vcpu_io 0 0) w1
        = Ret (MX_OK, io1, w2) /\
      vcpu_u8 io1 <> 0 /\
      Z.land (vcpu_u8 io1) VIRTIO_ISR_QUEUE = VIRTIO_ISR_QUEUE /\
      isr_status (dev (mach w2)) = 0 /\
      virtio_pci_legacy_read quiet_ops 0 VIRTIO_PCI_ISR_STATUS io1 w2
        = Ret (MX_OK, io2, w3) /\
      vcpu_u8 io2 = 0.
Proof.
  eexists. split; [vm_compute; reflexivity|].
  apply (isr_read_returns_queue_bit_then_zero quiet_ops 0 2 16 (mk_vcpu_io 0 0)
           (mk_world (running 1 (avail_mem 1 0 2)) [])).
  vm_compute. reflexivity.
Defined.



(* ===================================================================== *)
(** ** Reading back what was written to guest memory *)

Lemma read8_write8 (g : memory) (a v x : Z) :
  read8 (write8 g a v) x = if x =? a then u8 v else read8 g x.
Proof.
  unfold read8, write8. destruct (x =? a); [apply u8_idem|reflexivity].
Qed.

Lemma u16_bytes (v : Z) : u8 v + 2 ^ 8 * u8 (v / 2 ^ 8) = u16 v.
Proof.
  unfold u8, u16. change (2 ^ 16) with (2 ^ 8 * 2 ^ 8).
  rewrite Z.rem_mul_r by lia. reflexivity.
Qed.

Lemma u32_halves (v : Z) : u16 v + 2 ^ 16 * u16 (v / 2 ^ 16) = u32 v.
Proof.
  unfold u16, u32. change (2 ^ 32) with (2 ^ 16 * 2 ^ 16).
  rewrite Z.rem_mul_r by lia. reflexivity.
Qed.

Ltac split_addresses :=
  repeat match goal with
         | |- context [?x =? ?y] => destruct (Z.eqb_spec x y); try (exfalso; lia)
         end.

Lemma read16_write16_eq (g : memory) (a v : Z) :
  read16 (write16 g a v) a = u16 v.
Proof.
  unfold read16, write16. rewrite !read8_write8. split_addresses.
  apply u16_bytes.
Qed.

Lemma read16_write16_ne (g : memory) (a v x : Z) :
  x + 1 < a \/ a + 1 < x -> read16 (write16 g a v) x = read16 g x.
Proof.
  intros Hx. unfold read16, write16. rewrite !read8_write8. split_addresses.
  reflexivity.
Qed.

Lemma read8_write16_ne (g : memory) (a v x : Z) :
  x < a \/ a + 1 < x -> read8 (write16 g a v) x = read8 g x.
Proof.
  intros Hx. unfold write16. rewrite !read8_write8. split_addresses. reflexivity.
Qed.

Lemma read8_write32_ne (g : memory) (a v x : Z) :
  x < a \/ a + 3 < x -> read8 (write32 g a v) x = read8 g x.
Proof.
  intros Hx. unfold write32. rewrite !read8_write16_ne by lia. reflexivity.
Qed.

Lemma read16_write32_ne (g : memory) (a v x : Z) :
  x + 1 < a \/ a + 3 < x -> read16 (write32 g a v) x = read16 g x.
Proof.
  intros Hx. unfold read16. rewrite !read8_write32_ne by lia. reflexivity.
Qed.

Lemma read32_write32_eq (g : memory) (a v : Z) :
  read32 (write32 g a v) a = u32 v.
Proof.
  unfold read32, write32.
  rewrite read16_write16_ne by lia. rewrite !read16_write16_eq.
  apply u32_halves.
Qed.

Lemma read32_write32_ne (g : memory) (a v x : Z) :
  x + 3 < a \/ a + 3 < x -> read32 (write32 g a v) x = read32 g x.
Proof.
  intros Hx. unfold read32. rewrite !read16_write32_ne by lia. reflexivity.
Qed.

Lemma read32_write16_ne (g : memory) (a v x : Z) :
  x + 3 < a \/ a + 1 < x -> read32 (write16 g a v) x = read32 g x.
Proof.
  intros Hx. unfold read32. rewrite !read16_write16_ne by lia. reflexivity.
Qed.

(* ===================================================================== *)
(** ** The used ring *)

Section UsedRing.
Context {H : Type}.

(** X1. [virtio_queue_return] on a queue with a used ring, a capacity and
    its device: the entry [used.idx mod capacity] of the used ring holds the
    descriptor index and the length, [used.idx] has advanced by one modulo
    [2 ^ 16], no other byte of memory and no queue has changed, and the write
    is the one event. *)
Theorem queue_return_publishes_buffer
    (qi : nat) (idx l : Z) (w : world H) (q : virtio_queue_t) :
  queues (dev (mach w)) !! qi = Some q ->
  used q <> 0 ->
  0 < size q ->
  virtio_device q = OwningDevice ->
  let g := mem (mach w) in
  let old := read16 g (used q + ring_idx_off) in
  let elem := used q + ring_entries_off + sizeof_vring_used_elem * (old mod size q) in
  exists w',
    virtio_queue_return qi idx l w = Ret w' /\
    read32 (mem (mach w')) (elem + used_elem_id_off) = u32 idx /\
    read32 (mem (mach w')) (elem + used_elem_len_off) = u32 l /\
    read16 (mem (mach w')) (used q + ring_idx_off) = u16 (old + 1) /\
    (forall x, ~ (elem <= x < elem + sizeof_vring_used_elem) ->
               ~ (used q + ring_idx_off <= x < used q + ring_entries_off) ->
               read8 (mem (mach w')) x = read8 g x) /\
    queues (dev (mach w')) = queues (dev (mach w)) /\
    trace w' = trace w ++ [EvUsedElem qi idx l].
Proof.
  intros Hq Hu Hs Hd g old elem.
  unfold virtio_queue_return, get_queue, ring_index. rewrite Hq. simpl.
  destruct (Z.eqb_spec (used q) 0); [contradiction|].
  destruct (Z.eqb_spec (size q) 0); [lia|]. simpl. rewrite Hd.
  fold g. fold old.
  pose proof (read16_range g (used q + ring_idx_off)) as Hold. fold old in Hold.
  assert (E : u32 old = old) by (unfold u32; apply Z.mod_small; lia).
  rewrite E. fold elem.
  pose proof (Z.mod_pos_bound old (size q) Hs) as Hslot.
  unfold ring_idx_off, ring_entries_off, sizeof_vring_used_elem, used_elem_id_off,
    used_elem_len_off in *.
  eexists. split; [reflexivity|]. simpl.
  assert (Helem : used q + 4 <= elem) by (unfold elem; lia).
  repeat split.
  - rewrite read32_write16_ne, read32_write32_ne, read32_write32_eq by lia.
    reflexivity.
  - rewrite read32_write16_ne, read32_write32_eq by lia. reflexivity.
  - rewrite read16_write16_eq. rewrite !read16_write32_ne by lia. reflexivity.
  - intros x Hx1 Hx2.
    rewrite read8_write16_ne, !read8_write32_ne by lia. reflexivity.
Qed.

End UsedRing.

(* ===================================================================== *)
(** ** More on the ring layout *)

Section LayoutFrame.
Context {H : Type}.

(** X2. Whatever [virtio_queue_set_pfn] returns, it is [MX_OK] or
    [MX_ERR_OUT_OF_RANGE]; guest memory, the state of the device model, the
    registers of the device and every other queue are as before; and on
    [MX_OK] the queue keeps its capacity, its cursor and its device and
    records the pfn. *)
Theorem set_pfn_touches_one_queue
    (qi : nat) (p : Z) (m m' : machine H) (st : mx_status_t) :
  virtio_queue_set_pfn qi p m = Ret (st, m') ->
  (st = MX_OK \/ st = MX_ERR_OUT_OF_RANGE) /\
  mem m' = mem m /\ host m' = host m /\
  features (dev m') = features (dev m) /\
  status (dev m') = status (dev m) /\
  isr_status (dev m') = isr_status (dev m) /\
  queue_sel (dev m') = queue_sel (dev m) /\
  guest_physmem_addr (dev m') = guest_physmem_addr (dev m) /\
  guest_physmem_size (dev m') = guest_physmem_size (dev m) /\
  num_queues (dev m') = num_queues (dev m) /\
  (forall j, j <> qi -> queues (dev m') !! j = queues (dev m) !! j) /\
  (st = MX_OK ->
   exists q q',
     queues (dev m) !! qi = Some q /\ queues (dev m') !! qi = Some q' /\
     size q' = size q /\ index q' = index q /\
     virtio_device q' = OwningDevice /\ pfn q' = u32 p).
Proof.
  unfold virtio_queue_set_pfn, get_queue.
  destruct (queues (dev m) !! qi) as [q|] eqn:Hq; simpl; [|discriminate].
  destruct (virtio_device q); [discriminate|].
  assert (Hlt : (qi < length (queues (dev m)))%nat)
    by (eapply lookup_lt_Some; eassumption).
  match goal with |- context [if ?c then _ else _] => destruct c end;
    intros E; injection E as <- <-; simpl;
    (split; [auto|]); repeat (split; [reflexivity|]);
    (split; [unfold num_queues; simpl; now rewrite length_insert|]);
    (split; [intros j Hj; now apply list_lookup_insert_ne|]).
  - discriminate.
  - intros _. do 2 eexists. split; [reflexivity|].
    split; [apply list_lookup_insert_eq; assumption|]. auto.
Qed.

(** X3. A successful [virtio_queue_set_pfn] has checked what it stores: the
    five regions, with the sizes the code gives them, follow each other
    without overlap from the descriptor table to the avail-event cell, start
    in guest memory and end in it, and the used ring starts on a page
    boundary of guest-physical memory. *)
Theorem set_pfn_ring_inside_guest_memory
    (qi : nat) (p : Z) (m m' : machine H) (q : virtio_queue_t) :
  queues (dev m) !! qi = Some q ->
  virtio_device q = OwningDevice ->
  0 <= size q < 2 ^ 16 ->
  0 <= p < 2 ^ 20 ->
  0 <= guest_physmem_addr (dev m) ->
  guest_physmem_addr (dev m) + 2 ^ 33 <= 2 ^ 64 ->
  0 <= guest_physmem_size (dev m) ->
  guest_physmem_addr (dev m) + guest_physmem_size (dev m) < 2 ^ 64 ->
  virtio_queue_set_pfn qi p m = Ret (MX_OK, m') ->
  exists q',
    queues (dev m') !! qi = Some q' /\
    guest_physmem_addr (dev m) <= desc q' /\
    desc q' + size q * sizeof_vring_desc = avail q' /\
    avail q' + (sizeof_ptr + size q * sizeof_avail_entry) = used_event q' /\
    used_event q' + sizeof_ptr <= used q' /\
    (used q' - guest_physmem_addr (dev m)) mod PAGE_SIZE = 0 /\
    used q' + (sizeof_ptr + size q * sizeof_vring_used_elem) = avail_event q' /\
    avail_event q' + sizeof_ptr
      <= guest_physmem_addr (dev m) + guest_physmem_size (dev m).
Proof.
  intros Hq Hd Hn Hp Hb0 Hb1 Hs0 Hs1 E.
  rewrite (set_pfn_no_wrap qi p m q) in E by assumption.
  match type of E with context [?a >? ?b] => destruct (Z.gtb_spec a b) as [|Hfit] end;
    [discriminate|].
  injection E as <-. eexists. split.
  { simpl. apply list_lookup_insert_eq. eapply lookup_lt_Some; eassumption. }
  simpl.
  pose proof (align_up_bounds
                (p * PAGE_SIZE + size q * sizeof_vring_desc + sizeof_ptr
                 + size q * sizeof_avail_entry + sizeof_ptr)) as Hal.
  unfold sizeof_vring_desc, sizeof_ptr, sizeof_avail_entry, sizeof_vring_used_elem,
    PAGE_SIZE in *.
  repeat split; try lia.
  match goal with |- (?b + ?u - ?b) mod _ = 0 => replace (b + u - b) with u by lia end.
  unfold align_up. apply Z.mod_mul. lia.
Qed.

(** X4. After a successful [virtio_queue_set_pfn] nothing of the old pfn is
    left in the queue: a further call gives what it would have given on the
    state before; so setting the same pfn again changes nothing. *)
Theorem set_pfn_last_wins (qi : nat) (p1 p2 : Z) (m m1 : machine H) :
  virtio_queue_set_pfn qi p1 m = Ret (MX_OK, m1) ->
  virtio_queue_set_pfn qi p2 m1 = virtio_queue_set_pfn qi p2 m /\
  virtio_queue_set_pfn qi p1 m1 = Ret (MX_OK, m1).
Proof.
  intros E.
  assert (Hlast : forall p, virtio_queue_set_pfn qi p m1 = virtio_queue_set_pfn qi p m).
  { intros p. revert E. unfold virtio_queue_set_pfn, get_queue.
    destruct (queues (dev m) !! qi) as [q|] eqn:Hq; simpl; [|discriminate].
    destruct (virtio_device q) eqn:Hd; [discriminate|].
    assert (Hlt : (qi < length (queues (dev m)))%nat)
      by (eapply lookup_lt_Some; eassumption).
    match goal with |- context [if ?c then _ else _] => destruct c end;
      intros E; [discriminate|].
    injection E as <-. simpl.
    rewrite list_lookup_insert_eq by assumption. simpl.
    unfold put_queue. simpl. rewrite !list_insert_insert_eq. reflexivity. }
  split; [apply Hlast|]. rewrite Hlast. exact E.
Qed.

End LayoutFrame.

(* ===================================================================== *)
(** ** More on the available ring *)

Section AvailRingMore.
Context {H : Type}.

(** X5. [virtio_queue_next_avail_locked] keeps the promise of its comment:
    when it returns, the status is [MX_OK] or [MX_ERR_NOT_FOUND]. It never
    writes guest memory, never changes another queue, and on
    [MX_ERR_NOT_FOUND] it leaves the machine and the out-parameter alone. *)
Theorem next_avail_only_not_found
    (qi : nat) (out h : Z) (m m' : machine H) (st : mx_status_t) :
  virtio_queue_next_avail_locked qi out m = Ret (st, h, m') ->
  (st = MX_OK \/ st = MX_ERR_NOT_FOUND) /\
  (st = MX_ERR_NOT_FOUND -> h = out /\ m' = m) /\
  mem m' = mem m /\
  (forall j, j <> qi -> queues (dev m') !! j = queues (dev m) !! j).
Proof.
  unfold virtio_queue_next_avail_locked, get_queue, ring_index.
  destruct (queues (dev m) !! qi) as [q|] eqn:Hq; simpl; [|discriminate].
  destruct (ring_avail_count q (mem m) <? 1).
  - intros E. injection E as <- <- <-. auto.
  - destruct (size q =? 0); simpl; [discriminate|].
    intros E. injection E as <- <- <-. simpl.
    repeat split; auto; try discriminate.
    intros j Hj. now apply list_lookup_insert_ne.
Qed.

(** X6. Taking an entry takes exactly one: with [c >= 1] entries counted
    and a cursor that is a 16-bit value, [virtio_queue_next_avail] succeeds
    and the count of the queue is [c - 1] afterwards. *)
Theorem next_avail_consumes_one
    (qi : nat) (out : Z) (m : machine H) (q : virtio_queue_t) :
  queues (dev m) !! qi = Some q ->
  1 <= ring_avail_count q (mem m) ->
  size q <> 0 ->
  0 <= index q ->
  exists h m' q',
    virtio_queue_next_avail qi out m = Ret (MX_OK, h, m') /\
    queues (dev m') !! qi = Some q' /\
    index q' = index q + 1 /\
    ring_avail_count q' (mem m') = ring_avail_count q (mem m) - 1.
Proof.
  intros Hq Hc Hs Hi.
  assert (Ha : avail q <> 0).
  { intros E. rewrite ring_avail_count_null in Hc by assumption. lia. }
  rewrite ring_avail_count_int in Hc by assumption.
  pose proof (read16_range (mem m) (avail q + ring_idx_off)) as Hr.
  assert (Hw : u16 (index q + 1) = index q + 1)
    by (unfold u16; apply Z.mod_small; lia).
  do 3 eexists. split.
  { apply (next_avail_takes_entry qi out m q Hq); [|assumption].
    rewrite ring_avail_count_int by assumption. lia. }
  split.
  { simpl. apply list_lookup_insert_eq. eapply lookup_lt_Some; eassumption. }
  simpl. rewrite !ring_avail_count_int by assumption. simpl. lia.
Qed.

(** X7. [ring_index] is circular across the wrap of a 16-bit counter when the
    capacity divides [2 ^ 16] (a power of two up to 32768 or 65536): the slot
    of the counter plus one is the slot after the slot of the counter. *)
Theorem ring_index_successor (q : virtio_queue_t) (c : Z) :
  0 < size q ->
  (size q | 2 ^ 16) ->
  0 <= c < 2 ^ 16 ->
  exists i j,
    ring_index q c = Ret i /\ ring_index q (u16 (c + 1)) = Ret j /\
    0 <= i < size q /\ i = c mod size q /\ j = (i + 1) mod size q.
Proof.
  intros Hs Hdiv Hc. unfold ring_index.
  destruct (Z.eqb_spec (size q) 0); [lia|].
  do 2 eexists. split; [reflexivity|]. split; [reflexivity|].
  assert (E1 : u32 c = c) by (unfold u32; apply Z.mod_small; lia).
  assert (E2 : u32 (u16 (c + 1)) = u16 (c + 1)).
  { unfold u32, u16. apply Z.mod_small.
    pose proof (Z.mod_pos_bound (c + 1) (2 ^ 16) ltac:(lia)). lia. }
  rewrite E1, E2. split; [apply Z.mod_pos_bound; lia|]. split; [reflexivity|].
  unfold u16. rewrite Z.mod_mod_divide by assumption.
  now rewrite Z.add_mod_idemp_l by lia.
Qed.

End AvailRingMore.

(* ===================================================================== *)
(** ** More on the descriptor-chain walk *)

Lemma read32_range (g : memory) (a : Z) : 0 <= read32 g a < 2 ^ 32.
Proof.
  unfold read32.
  pose proof (read16_range g a). pose proof (read16_range g (a + 2)). lia.
Qed.

Lemma read64_range (g : memory) (a : Z) : 0 <= read64 g a < 2 ^ 64.
Proof.
  unfold read64.
  pose proof (read32_range g a). pose proof (read32_range g (a + 4)). lia.
Qed.

(** A descriptor that passes the check has its buffer in guest memory, and
    the host address of the buffer does not wrap. *)
Lemma desc_in_range_buffer (g : memory) (d mem_addr mem_size : Z) :
  0 <= mem_addr ->
  mem_addr + mem_size < 2 ^ 64 ->
  desc_out_of_range g d mem_size = false ->
  read64 g (d + desc_addr_off) + read32 g (d + desc_len_off) <= mem_size /\
  u64 (mem_addr + read64 g (d + desc_addr_off))
    = mem_addr + read64 g (d + desc_addr_off).
Proof.
  intros Hb0 Hb1. unfold desc_out_of_range.
  pose proof (read64_range g (d + desc_addr_off)) as Ha.
  pose proof (read32_range g (d + desc_len_off)) as Hl.
  set (a := read64 g (d + desc_addr_off)) in *.
  set (l := read32 g (d + desc_len_off)) in *.
  intros E. apply orb_false_iff in E as [E1 E2].
  apply Z.ltb_ge in E1. rewrite Z.gtb_ltb in E2. apply Z.ltb_ge in E2.
  assert (Hnowrap : a + l < 2 ^ 64).
  { destruct (Z.lt_ge_cases (a + l) (2 ^ 64)) as [|Hge]; [assumption|].
    exfalso. unfold u64 in E1.
    replace (a + l) with (a + l - 2 ^ 64 + 1 * 2 ^ 64) in E1 by lia.
    rewrite Z.mod_add, Z.mod_small in E1 by lia. lia. }
  unfold u64 in *. rewrite Z.mod_small in E2 by lia.
  split; [assumption|]. apply Z.mod_small. lia.
Qed.

Section HandlerMore.
Context {H : Type}.
Variable handler : virtio_queue_fn_t H.

Lemma virtio_queue_return_trace (qi : nat) (idx l : Z) (w w' : world H) :
  virtio_queue_return qi idx l w = Ret w' ->
  trace w' = trace w ++ [EvUsedElem qi idx l] /\
  queues (dev (mach w')) = queues (dev (mach w)).
Proof.
  unfold virtio_queue_return, get_queue, ring_index.
  destruct (queues (dev (mach w)) !! qi) as [q|]; simpl; [|discriminate].
  destruct (used q =? 0); [discriminate|].
  destruct (size q =? 0); simpl; [discriminate|].
  destruct (virtio_device q); [discriminate|].
  intros E. injection E as <-. auto.
Qed.

(** X10. A chain that is given up: after [k] descriptors that link on, the
    next turn of the loop returns a status (the descriptor is out of range,
    or the handler failed on it). [virtio_queue_handler] returns that status
    in the world of that moment; the head is gone from the available ring,
    the cursor having moved on, and no used-ring entry tells the guest. *)
Theorem handler_abandons_failed_chain
    (qi : nat) (fuel k : nat) (w w2 w3 : world H) (queue : virtio_queue_t)
    (head i u : Z) (m1 : machine H) (st : mx_status_t) :
  let mem_addr := guest_physmem_addr (dev (mach w)) in
  let mem_size := guest_physmem_size (dev (mach w)) in
  queues (dev (mach w)) !! qi = Some queue ->
  virtio_device queue = OwningDevice ->
  virtio_queue_next_avail qi 0 (mach w) = Ret (MX_OK, head, m1) ->
  chain_prefix handler qi mem_addr mem_size k head 0 (set_mach w m1)
    = Some (i, u, w2) ->
  chain_step handler qi mem_addr mem_size i u w2 = StepReturn st w3 ->
  (k < fuel)%nat ->
  virtio_queue_handler handler qi fuel w = Ret (st, w3) /\
  queues (dev m1) !! qi = Some (set_index queue (u16 (index queue + 1))) /\
  exists evs,
    trace w3 = trace w ++ evs /\ forallb is_handler_event evs = true.
Proof.
  intros mem_addr mem_size Hq Hdev Hnext Hpre Hstep Hfuel.
  split; [|split].
  - unfold virtio_queue_handler, get_queue. rewrite Hq. simpl.
    rewrite Hdev, Hnext. simpl.
    replace fuel with (k + S (fuel - S k))%nat by lia.
    fold mem_addr mem_size.
    rewrite (chain_walk_prefix handler qi mem_addr mem_size k _ _ _ _ _ _ _ Hpre).
    simpl. rewrite Hstep. reflexivity.
  - revert Hnext.
    unfold virtio_queue_next_avail, virtio_queue_next_avail_locked, get_queue,
      ring_index.
    rewrite Hq. simpl.
    destruct (ring_avail_count queue (mem (mach w)) <? 1); [discriminate|].
    destruct (size queue =? 0); simpl; [discriminate|].
    intros E. injection E as _ <-. simpl.
    apply list_lookup_insert_eq. eapply lookup_lt_Some; eassumption.
  - pose proof (chain_prefix_trace handler qi mem_addr mem_size k _ _ _ _ _ _ Hpre)
      as (evs & T & _ & F).
    pose proof (chain_step_trace handler qi mem_addr mem_size i u w2) as S1.
    rewrite Hstep in S1. destruct S1 as (e1 & T1 & F1).
    exists (evs ++ e1). rewrite T1, T, <- app_assoc, forallb_app, F, F1. auto.
Qed.

End HandlerMore.

(** Testing a flag with [&] is testing its bit. *)
Lemma land_bit_test (f k : Z) :
  0 <= k -> negb (Z.land f (2 ^ k) =? 0) = Z.testbit f k.
Proof.
  intros Hk. destruct (Z.testbit f k) eqn:T.
  - destruct (Z.eqb_spec (Z.land f (2 ^ k)) 0) as [E|]; [|reflexivity].
    assert (B : Z.testbit (Z.land f (2 ^ k)) k = true)
      by (rewrite Z.land_spec, T, Z.pow2_bits_true by lia; reflexivity).
    rewrite E, Z.bits_0 in B. discriminate.
  - destruct (Z.eqb_spec (Z.land f (2 ^ k)) 0) as [|E]; [reflexivity|].
    exfalso. apply E. apply Z.bits_inj'. intros n Hn.
    rewrite Z.land_spec, Z.bits_0.
    destruct (Z.eq_dec n k) as [->|Hne]; [now rewrite T|].
    rewrite Z.pow2_bits_false by lia. apply andb_false_r.
Qed.

Section HandlerLoops.
Context {H : Type}.
Variable handler : virtio_queue_fn_t H.

Lemma chain_walk_self_linked (qi : nat) (mem_addr mem_size : Z)
    (m1 : machine H) (q1 : virtio_queue_t) (head : Z) :
  queues (dev m1) !! qi = Some q1 ->
  desc q1 <> 0 ->
  desc_out_of_range (mem m1) (desc q1 + sizeof_vring_desc * head) mem_size = false ->
  Z.land (read16 (mem m1) (desc q1 + sizeof_vring_desc * head + desc_flags_off))
         VRING_DESC_F_NEXT <> 0 ->
  read16 (mem m1) (desc q1 + sizeof_vring_desc * head + desc_next_off) = head ->
  (forall a l f u, exists u', handler a l f u m1 = (MX_OK, u', m1)) ->
  forall (fuel : nat) (u : Z) (tr : list event),
    chain_walk handler qi mem_addr mem_size fuel head u (mk_world m1 tr) = OutOfFuel.
Proof.
  intros Hq Hd Hr Hflag Hnext Hh.
  induction fuel as [|fuel IH]; intros u tr; [reflexivity|].
  simpl. unfold chain_step. simpl. rewrite Hq.
  destruct (Z.eqb_spec (desc q1) 0); [contradiction|].
  rewrite Hr.
  match goal with |- context [handler ?a ?l ?f u m1] =>
    destruct (Hh a l f u) as [u' ->] end.
  simpl.
  destruct (Z.eqb_spec
              (Z.land (read16 (mem m1)
                         (desc q1 + sizeof_vring_desc * head + desc_flags_off))
                      VRING_DESC_F_NEXT) 0); [contradiction|].
  rewrite Hnext. apply IH.
Qed.

(** X11. Nothing bounds the walk. If the head descriptor is in range, has
    the next flag set and names itself as next, and the handler succeeds
    without changing the machine, [virtio_queue_handler] does not return,
    however many turns of the loop it is given. *)
Theorem handler_never_leaves_self_linked_chain
    (qi : nat) (w : world H) (queue q1 : virtio_queue_t) (head : Z)
    (m1 : machine H) :
  queues (dev (mach w)) !! qi = Some queue ->
  virtio_device queue = OwningDevice ->
  virtio_queue_next_avail qi 0 (mach w) = Ret (MX_OK, head, m1) ->
  queues (dev m1) !! qi = Some q1 ->
  desc q1 <> 0 ->
  desc_out_of_range (mem m1) (desc q1 + sizeof_vring_desc * head)
                    (guest_physmem_size (dev (mach w))) = false ->
  Z.land (read16 (mem m1) (desc q1 + sizeof_vring_desc * head + desc_flags_off))
         VRING_DESC_F_NEXT <> 0 ->
  read16 (mem m1) (desc q1 + sizeof_vring_desc * head + desc_next_off) = head ->
  (forall a l f u, exists u', handler a l f u m1 = (MX_OK, u', m1)) ->
  forall fuel : nat, virtio_queue_handler handler qi fuel w = OutOfFuel.
Proof.
  intros Hq Hdev Hnext Hq1 Hd Hr Hflag Hself Hh fuel.
  unfold virtio_queue_handler, get_queue. rewrite Hq. simpl.
  rewrite Hdev, Hnext. simpl. unfold set_mach.
  rewrite (chain_walk_self_linked qi _ _ m1 q1 head) by assumption.
  reflexivity.
Qed.

End HandlerLoops.

(* ===================================================================== *)
(** ** More on the legacy PCI registers *)

Lemma member_set_get (w v d : Z) :
  0 < w -> (d - d mod w + v mod w) mod w = v mod w.
Proof.
  intros Hw. rewrite (Z.div_mod d w) at 1 by lia.
  replace (w * (d / w) + d mod w - d mod w + v mod w)
    with (v mod w + (d / w) * w) by lia.
  rewrite Z.mod_add by lia. apply Z.mod_mod. lia.
Qed.

Lemma vcpu_u16_set_u16 (v : Z) (io : mx_vcpu_io_t) :
  vcpu_u16 (vcpu_set_u16 v io) = u16 v.
Proof. unfold vcpu_u16, vcpu_set_u16, u16; simpl. apply member_set_get. lia. Qed.

Lemma vcpu_u32_set_u32 (v : Z) (io : mx_vcpu_io_t) :
  vcpu_u32 (vcpu_set_u32 v io) = u32 v.
Proof. unfold vcpu_u32, vcpu_set_u32, u32; simpl. apply member_set_get. lia. Qed.

Lemma u16_idem (x : Z) : u16 (u16 x) = u16 x.
Proof. unfold u16. apply Z.mod_mod. lia. Qed.

Lemma u32_idem (x : Z) : u32 (u32 x) = u32 x.
Proof. unfold u32. apply Z.mod_mod. lia. Qed.

(** A selected queue is a queue of the device. *)
Lemma selected_queue_lookup (d : virtio_device_t) (qi : nat) :
  0 <= queue_sel d ->
  selected_queue d = Some qi ->
  qi = Z.to_nat (queue_sel d) /\ exists q, queues d !! qi = Some q.
Proof.
  intros H0. unfold selected_queue, num_queues.
  destruct (Z.ltb_spec (queue_sel d) (Z.of_nat (length (queues d)))); [|discriminate].
  intros E. injection E as <-. split; [reflexivity|].
  apply lookup_lt_is_Some_2. lia.
Qed.

Section RegistersMore.
Context {H : Type}.
Variable ops : virtio_device_ops_t H.
Variable pci_interrupt : machine H -> mx_status_t * machine H.

(** X13. Each of the six writable registers has one width: a write of any
    other width returns [MX_ERR_IO_DATA_INTEGRITY] and changes nothing,
    whatever the value, the selected queue and the callbacks. *)
Theorem wrong_width_write_is_rejected
    (port width : Z) (io : mx_packet_guest_io_t) (w : world H) :
  In (port, width)
     [(VIRTIO_PCI_DRIVER_FEATURES, 4); (VIRTIO_PCI_DEVICE_STATUS, 1);
      (VIRTIO_PCI_QUEUE_PFN, 4); (VIRTIO_PCI_QUEUE_SIZE, 2);
      (VIRTIO_PCI_QUEUE_SELECT, 2); (VIRTIO_PCI_QUEUE_NOTIFY, 2)] ->
  access_size io <> width ->
  virtio_pci_legacy_write ops pci_interrupt 0 port io w
    = Ret (MX_ERR_IO_DATA_INTEGRITY, w).
Proof.
  intros Hin Hw. simpl in Hin.
  unfold virtio_pci_legacy_write.
  destruct Hin as [E|[E|[E|[E|[E|[E|[]]]]]]]; injection E as <- <-;
    apply Z.eqb_neq in Hw; simpl; rewrite Hw; reflexivity.
Qed.

(** X14. A write on a bar other than 0, or to a port below the device
    configuration that is not one of the six writable registers (the
    read-only DEVICE_FEATURES and ISR_STATUS among them), returns
    [MX_ERR_NOT_SUPPORTED] and changes nothing: writing ISR_STATUS does not
    clear it. *)
Theorem unhandled_write_is_rejected
    (bar port : Z) (io : mx_packet_guest_io_t) (w : world H) :
  bar <> 0 \/
  (port < VIRTIO_PCI_DEVICE_CFG_BASE /\
   ~ In port [VIRTIO_PCI_DRIVER_FEATURES; VIRTIO_PCI_DEVICE_STATUS;
              VIRTIO_PCI_QUEUE_PFN; VIRTIO_PCI_QUEUE_SIZE;
              VIRTIO_PCI_QUEUE_SELECT; VIRTIO_PCI_QUEUE_NOTIFY]) ->
  virtio_pci_legacy_write ops pci_interrupt bar port io w
    = Ret (MX_ERR_NOT_SUPPORTED, w).
Proof.
  unfold virtio_pci_legacy_write.
  destruct (Z.eqb_spec bar 0) as [->|Hb]; simpl; [|reflexivity].
  intros [Hb|[Hlt Hnot]]; [contradiction|]. simpl in Hnot.
  repeat match goal with
         | |- context [port =? ?c] =>
             destruct (Z.eqb_spec port c); [exfalso; apply Hnot; subst; tauto|]
         end.
  destruct (Z.geb_spec port VIRTIO_PCI_DEVICE_CFG_BASE); [lia|]. reflexivity.
Qed.

(** X15. Reading is free of effects but for ISR_STATUS: on another bar, or
    on any port below the device configuration other than ISR_STATUS, a read
    returns with the world unchanged, either [MX_OK] with an answer or
    [MX_ERR_NOT_SUPPORTED] with the answer untouched; the write-only
    registers are of the second kind. *)
Theorem register_read_changes_nothing
    (bar port : Z) (vcpu_io : mx_vcpu_io_t) (w : world H) :
  0 <= queue_sel (dev (mach w)) ->
  bar <> 0 \/ (port < VIRTIO_PCI_DEVICE_CFG_BASE /\ port <> VIRTIO_PCI_ISR_STATUS) ->
  exists st io',
    virtio_pci_legacy_read ops bar port vcpu_io w = Ret (st, io', w) /\
    (st = MX_OK \/ (st = MX_ERR_NOT_SUPPORTED /\ io' = vcpu_io)) /\
    (bar <> 0 \/
     In port [VIRTIO_PCI_DRIVER_FEATURES; VIRTIO_PCI_QUEUE_SELECT;
              VIRTIO_PCI_QUEUE_NOTIFY] ->
     st = MX_ERR_NOT_SUPPORTED).
Proof.
  intros Hsel Hcase. unfold virtio_pci_legacy_read.
  destruct (Z.eqb_spec bar 0) as [->|Hb]; simpl.
  2:{ do 2 eexists. split; [reflexivity|]. auto. }
  destruct Hcase as [Hb|[Hlt Hisr]]; [contradiction|].
  destruct (Z.eqb_spec port VIRTIO_PCI_DEVICE_FEATURES) as [->|].
  { do 2 eexists. split; [reflexivity|]. split; [auto|].
    intros [?|Hin]; [contradiction|]. simpl in Hin.
    unfold VIRTIO_PCI_DRIVER_FEATURES, VIRTIO_PCI_QUEUE_SELECT,
      VIRTIO_PCI_QUEUE_NOTIFY, VIRTIO_PCI_DEVICE_FEATURES in Hin. lia. }
  destruct (Z.eqb_spec port VIRTIO_PCI_QUEUE_PFN) as [->|].
  { destruct (selected_queue (dev (mach w))) as [qi|] eqn:S.
    - destruct (selected_queue_lookup _ _ Hsel S) as [_ [q Hq]].
      unfold get_queue. rewrite Hq. simpl.
      do 2 eexists. split; [reflexivity|]. split; [auto|].
      intros [?|Hin]; [contradiction|]. simpl in Hin.
      unfold VIRTIO_PCI_DRIVER_FEATURES, VIRTIO_PCI_QUEUE_SELECT,
        VIRTIO_PCI_QUEUE_NOTIFY, VIRTIO_PCI_QUEUE_PFN in Hin. lia.
    - do 2 eexists. split; [reflexivity|]. auto. }
  destruct (Z.eqb_spec port VIRTIO_PCI_QUEUE_SIZE) as [->|].
  { destruct (selected_queue (dev (mach w))) as [qi|] eqn:S.
    - destruct (selected_queue_lookup _ _ Hsel S) as [_ [q Hq]].
      unfold get_queue. rewrite Hq. simpl.
      do 2 eexists. split; [reflexivity|]. split; [auto|].
      intros [?|Hin]; [contradiction|]. simpl in Hin.
      unfold VIRTIO_PCI_DRIVER_FEATURES, VIRTIO_PCI_QUEUE_SELECT,
        VIRTIO_PCI_QUEUE_NOTIFY, VIRTIO_PCI_QUEUE_SIZE in Hin. lia.
    - do 2 eexists. split; [reflexivity|]. auto. }
  destruct (Z.eqb_spec port VIRTIO_PCI_DEVICE_STATUS) as [->|].
  { do 2 eexists. split; [reflexivity|]. split; [auto|].
    intros [?|Hin]; [contradiction|]. simpl in Hin.
    unfold VIRTIO_PCI_DRIVER_FEATURES, VIRTIO_PCI_QUEUE_SELECT,
      VIRTIO_PCI_QUEUE_NOTIFY, VIRTIO_PCI_DEVICE_STATUS in Hin. lia. }
  destruct (Z.eqb_spec port VIRTIO_PCI_ISR_STATUS); [contradiction|].
  destruct (Z.geb_spec port VIRTIO_PCI_DEVICE_CFG_BASE); [lia|].
  do 2 eexists. split; [reflexivity|]. auto.
Qed.

(** X16. DEVICE_STATUS stores what the guest writes, any byte, without a
    check; the register reads back that byte, and nothing else of the device
    or its queues has changed. *)
Theorem device_status_round_trip
    (io : mx_packet_guest_io_t) (vcpu_io : mx_vcpu_io_t) (w : world H) :
  access_size io = 1 ->
  exists w1 io',
    virtio_pci_legacy_write ops pci_interrupt 0 VIRTIO_PCI_DEVICE_STATUS io w
      = Ret (MX_OK, w1) /\
    virtio_pci_legacy_read ops 0 VIRTIO_PCI_DEVICE_STATUS vcpu_io w1
      = Ret (MX_OK, io', w1) /\
    vcpu_access_size io' = 1 /\ vcpu_u8 io' = io_u8 io /\
    w1 = set_mach w (set_dev (mach w) (set_status (dev (mach w)) (io_u8 io))).
Proof.
  intros Hw. unfold virtio_pci_legacy_write, virtio_pci_legacy_read.
  rewrite Hw. simpl. do 2 eexists. split; [reflexivity|]. split; [reflexivity|].
  split; [reflexivity|]. split; [|reflexivity].
  rewrite vcpu_u8_set_u8. unfold io_u8. apply u8_idem.
Qed.

(** X17. Selecting a queue and sizing it: QUEUE_SELECT with an existing
    index, then QUEUE_SIZE, both of width 2, succeed; QUEUE_SIZE then reads
    back the size written; the selected queue differs from what it was in its
    size only (its ring pointers are not recomputed) and the other queues
    are untouched. *)
Theorem queue_select_then_size
    (sel sz : mx_packet_guest_io_t) (vcpu_io : mx_vcpu_io_t) (w : world H) :
  access_size sel = 2 ->
  io_u16 sel < num_queues (dev (mach w)) ->
  access_size sz = 2 ->
  exists w1 w2 io' q,
    virtio_pci_legacy_write ops pci_interrupt 0 VIRTIO_PCI_QUEUE_SELECT sel w
      = Ret (MX_OK, w1) /\
    virtio_pci_legacy_write ops pci_interrupt 0 VIRTIO_PCI_QUEUE_SIZE sz w1
      = Ret (MX_OK, w2) /\
    virtio_pci_legacy_read ops 0 VIRTIO_PCI_QUEUE_SIZE vcpu_io w2
      = Ret (MX_OK, io', w2) /\
    vcpu_access_size io' = 2 /\ vcpu_u16 io' = io_u16 sz /\
    queue_sel (dev (mach w2)) = io_u16 sel /\
    queues (dev (mach w)) !! Z.to_nat (io_u16 sel) = Some q /\
    queues (dev (mach w2))
      = <[Z.to_nat (io_u16 sel) := set_size q (io_u16 sz)]> (queues (dev (mach w))).
Proof.
  intros Hs Hlt Hz.
  assert (H0 : 0 <= io_u16 sel) by (unfold io_u16, u16; apply Z.mod_pos_bound; lia).
  assert (Hn : (Z.to_nat (io_u16 sel) < length (queues (dev (mach w))))%nat)
    by (unfold num_queues in Hlt; lia).
  destruct (lookup_lt_is_Some_2 _ _ Hn) as [q Hq].
  unfold virtio_pci_legacy_write at 1. rewrite Hs. simpl.
  destruct (Z.geb_spec (io_u16 sel) (num_queues (dev (mach w)))); [lia|].
  do 4 eexists. split; [reflexivity|].
  assert (Hsel : forall d, length (queues d) = length (queues (dev (mach w))) ->
                           queue_sel d = io_u16 sel ->
                           selected_queue d = Some (Z.to_nat (io_u16 sel))).
  { intros d Hl Hd. unfold selected_queue, num_queues. rewrite Hl, Hd.
    destruct (Z.ltb_spec (io_u16 sel) (Z.of_nat (length (queues (dev (mach w))))));
      [reflexivity|unfold num_queues in Hlt; lia]. }
  split.
  { unfold virtio_pci_legacy_write. rewrite Hz. simpl.
    rewrite Hsel by reflexivity. unfold get_queue. simpl. rewrite Hq. reflexivity. }
  unfold virtio_pci_legacy_read. simpl.
  rewrite Hsel; [|simpl; apply length_insert|reflexivity].
  unfold get_queue. simpl.
  rewrite list_lookup_insert_eq by assumption. simpl.
  split; [reflexivity|]. split; [reflexivity|].
  split; [rewrite vcpu_u16_set_u16; unfold io_u16; apply u16_idem|].
  split; [reflexivity|]. split; [exact Hq|reflexivity].
Qed.

(** X18. QUEUE_SELECT and QUEUE_NOTIFY refuse an index that is not a queue of
    the device: [MX_ERR_NOT_SUPPORTED], the selection stays and no callback
    is called. *)
Theorem queue_index_out_of_range_is_rejected
    (port : Z) (io : mx_packet_guest_io_t) (w : world H) :
  port = VIRTIO_PCI_QUEUE_SELECT \/ port = VIRTIO_PCI_QUEUE_NOTIFY ->
  access_size io = 2 ->
  num_queues (dev (mach w)) <= io_u16 io ->
  virtio_pci_legacy_write ops pci_interrupt 0 port io w
    = Ret (MX_ERR_NOT_SUPPORTED, w).
Proof.
  intros Hp Hw Hge. unfold virtio_pci_legacy_write.
  destruct Hp as [-> | ->]; simpl; rewrite Hw; simpl;
    destruct (Z.geb_spec (io_u16 io) (num_queues (dev (mach w))));
    try lia; reflexivity.
Qed.

(** X19. What QUEUE_PFN reads back after a write of width 4 to it: the pfn
    written when the write succeeded; and after the bounds error 0, with
    QUEUE_SIZE reading 0 as well, the capacity being lost with the ring. *)
Theorem queue_pfn_round_trip
    (io : mx_packet_guest_io_t) (vcpu_io : mx_vcpu_io_t) (w w1 : world H)
    (st : mx_status_t) :
  0 <= queue_sel (dev (mach w)) ->
  queue_sel (dev (mach w)) < num_queues (dev (mach w)) ->
  access_size io = 4 ->
  virtio_pci_legacy_write ops pci_interrupt 0 VIRTIO_PCI_QUEUE_PFN io w
    = Ret (st, w1) ->
  exists io1 io2,
    virtio_pci_legacy_read ops 0 VIRTIO_PCI_QUEUE_PFN vcpu_io w1
      = Ret (MX_OK, io1, w1) /\
    virtio_pci_legacy_read ops 0 VIRTIO_PCI_QUEUE_SIZE vcpu_io w1
      = Ret (MX_OK, io2, w1) /\
    (st = MX_OK \/ st = MX_ERR_OUT_OF_RANGE) /\
    (st = MX_OK -> vcpu_u32 io1 = io_u32 io) /\
    (st = MX_ERR_OUT_OF_RANGE -> vcpu_u32 io1 = 0 /\ vcpu_u16 io2 = 0).
Proof.
  intros H0 Hlt Hw.
  assert (Hn : (Z.to_nat (queue_sel (dev (mach w)))
                < length (queues (dev (mach w))))%nat)
    by (unfold num_queues in Hlt; lia).
  unfold virtio_pci_legacy_write. rewrite Hw. simpl.
  unfold selected_queue at 1.
  destruct (Z.ltb_spec (queue_sel (dev (mach w))) (num_queues (dev (mach w))));
    [|lia].
  unfold virtio_queue_set_pfn, get_queue.
  destruct (lookup_lt_is_Some_2 _ _ Hn) as [q Hq]. rewrite Hq. simpl.
  destruct (virtio_device q); [discriminate|].
  match goal with |- context [if ?c then _ else _] => destruct c end;
    simpl; intros E; injection E as <- <-;
    unfold virtio_pci_legacy_read, selected_queue, get_queue, num_queues; simpl;
    rewrite length_insert;
    (destruct (Z.ltb_spec (queue_sel (dev (mach w)))
                          (Z.of_nat (length (queues (dev (mach w))))));
     [|unfold num_queues in Hlt; lia]);
    rewrite list_lookup_insert_eq by assumption; simpl;
    do 2 eexists; (split; [reflexivity|]); (split; [reflexivity|]).
  - split; [auto|]. split; [discriminate|]. intros _.
    rewrite vcpu_u32_set_u32, vcpu_u16_set_u16. split; reflexivity.
  - split; [auto|]. split; [|discriminate]. intros _.
    rewrite vcpu_u32_set_u32. unfold io_u32. now rewrite !u32_idem.
Qed.

End RegistersMore.

(* ===================================================================== *)
(** ** The blocking wait and the polling worker *)

Lemma is_ok_eq (st : mx_status_t) : is_ok st = true -> st = MX_OK.
Proof. destruct st; simpl; congruence. Qed.

Lemma poll_events_cons (qi : nat) (d l : Z) (bufs : list (Z * Z)) (b : bool) :
  bufs <> [] ->
  poll_events qi ((d, l) :: bufs) b
    = EvUsedElem qi d l :: EvPciInterrupt :: poll_events qi bufs b.
Proof. destruct bufs as [|[d' l'] rest]; [contradiction|reflexivity]. Qed.

Section WorkersFacts.
Context {H : Type}.
Variable cnd_wait : machine H -> machine H.
Variable pci_interrupt : machine H -> mx_status_t * machine H.

(** X20. [virtio_queue_wait] never returns from an empty ring. When it
    returns, the machine [m0] of its last poll (the machine it was called
    on, or one it woke up to) had a positive available count; the index
    returned is the entry of the available ring at the cursor of [m0] modulo
    the capacity, and the machine returned is [m0] with that cursor advanced
    by one. *)
Theorem wait_returns_entry_of_nonempty_ring
    (qi fuel : nat) (out h : Z) (m m' : machine H) :
  virtio_queue_wait cnd_wait qi fuel out m = Ret (h, m') ->
  exists m0 q,
    (m0 = m \/ exists m_asleep, m0 = cnd_wait m_asleep) /\
    queues (dev m0) !! qi = Some q /\
    1 <= ring_avail_count q (mem m0) /\
    size q <> 0 /\
    h = read16 (mem m0)
               (avail q + ring_entries_off
                + sizeof_avail_entry * (u32 (index q) mod size q)) /\
    m' = put_queue m0 qi (set_index q (u16 (index q + 1))).
Proof.
  revert out m. induction fuel as [|fuel IH]; intros out m; simpl; [discriminate|].
  unfold virtio_queue_next_avail_locked, get_queue, ring_index.
  destruct (queues (dev m) !! qi) as [q|] eqn:Hq; simpl; [|discriminate].
  destruct (Z.ltb_spec (ring_avail_count q (mem m)) 1) as [|Hc]; simpl.
  - intros E. apply IH in E as (m0 & q0 & Horigin & Hrest).
    exists m0, q0. split; [|exact Hrest].
    right. destruct Horigin as [->|?]; eauto.
  - destruct (Z.eqb_spec (size q) 0); simpl; [discriminate|].
    intros E. injection E as <- <-. exists m, q. auto 10.
Qed.

(** X21. Woken up by the producer: [ring_avail_count], which is [avail.idx]
    minus the cursor as [int], is below 1 when [virtio_queue_wait] is called,
    and on the machine the thread wakes up to from its first sleep it is at
    least 1 and the capacity is not 0. The call then returns the entry at the
    cursor of the machine it woke up to, after that one sleep, and advances
    the cursor. *)
Theorem wait_wakes_up_to_new_entry
    (qi fuel : nat) (out : Z) (m : machine H) (q q1 : virtio_queue_t) :
  queues (dev m) !! qi = Some q ->
  ring_avail_count q (mem m) < 1 ->
  queues (dev (cnd_wait m)) !! qi = Some q1 ->
  1 <= ring_avail_count q1 (mem (cnd_wait m)) ->
  size q1 <> 0 ->
  virtio_queue_wait cnd_wait qi (S (S fuel)) out m
    = Ret (read16 (mem (cnd_wait m))
                  (avail q1 + ring_entries_off
                   + sizeof_avail_entry * (u32 (index q1) mod size q1)),
           put_queue (cnd_wait m) qi (set_index q1 (u16 (index q1 + 1)))).
Proof.
  intros Hq Hc Hq1 Hc1 Hs1. simpl.
  unfold virtio_queue_next_avail_locked, get_queue, ring_index.
  rewrite Hq. simpl.
  destruct (Z.ltb_spec (ring_avail_count q (mem m)) 1); [|lia]. simpl.
  rewrite Hq1. simpl.
  destruct (Z.ltb_spec (ring_avail_count q1 (mem (cnd_wait m))) 1); [lia|].
  destruct (Z.eqb_spec (size q1) 0); [contradiction|]. reflexivity.
Qed.

End WorkersFacts.

(* ===================================================================== *)
(** ** The PCI identity of a device *)

(** X23. [virtio_pci_legacy_id] gives two 16-bit virtio ids the same PCI
    device id only if they are the same id; the PCI id is itself a 16-bit
    value, and it is [virtio_id + 0xfff] unless that wraps. *)
Theorem virtio_pci_legacy_id_injective (a b : Z) :
  0 <= a < 2 ^ 16 ->
  0 <= b < 2 ^ 16 ->
  0 <= virtio_pci_legacy_id a < 2 ^ 16 /\
  (a <= 0xf000 -> virtio_pci_legacy_id a = a + 0xfff) /\
  (virtio_pci_legacy_id a = virtio_pci_legacy_id b -> a = b).
Proof.
  intros Ha Hb. unfold virtio_pci_legacy_id, u16.
  split; [apply Z.mod_pos_bound; lia|].
  split; [intros Hle; apply Z.mod_small; lia|].
  intros E.
  assert (Hred : forall x, 0 <= x < 2 ^ 16 ->
                   (x + 4095) mod 2 ^ 16
                   = if x + 4095 <? 2 ^ 16 then x + 4095 else x + 4095 - 2 ^ 16).
  { intros x Hx. destruct (Z.ltb_spec (x + 4095) (2 ^ 16)).
    - apply Z.mod_small. lia.
    - replace (x + 4095) with (x + 4095 - 2 ^ 16 + 1 * 2 ^ 16) at 1 by lia.
      rewrite Z.mod_add by lia. apply Z.mod_small. lia. }
  rewrite (Hred a Ha), (Hred b Hb) in E.
  destruct (Z.ltb_spec (a + 4095) (2 ^ 16));
    destruct (Z.ltb_spec (b + 4095) (2 ^ 16)); lia.
Qed.

Section PciInit.
Context {H : Type}.
Variable ops : virtio_device_ops_t H.

(** X24. The BAR that [virtio_pci_init] declares is the register block
    followed by the device configuration. When the two fit in 16 bits, a
    read on bar 0 of any port of the BAR past the registers goes to the
    device's own read callback, with an offset that starts at 0 and stays
    below the size of the configuration. *)
Theorem config_ports_reach_device_callback
    (device_id config_size port : Z) (vcpu_io : mx_vcpu_io_t) (w : world H) :
  0 <= config_size ->
  sizeof_virtio_pci_legacy_config_t + config_size < 2 ^ 16 ->
  VIRTIO_PCI_DEVICE_CFG_BASE <= port
    < bar0_size (virtio_pci_init device_id config_size) ->
  bar0_size (virtio_pci_init device_id config_size)
    = VIRTIO_PCI_DEVICE_CFG_BASE + config_size /\
  0 <= port - VIRTIO_PCI_DEVICE_CFG_BASE < config_size /\
  virtio_pci_legacy_read ops 0 port vcpu_io w
    = (let '(st, io', m') :=
         ops_read ops (mach w) (port - VIRTIO_PCI_DEVICE_CFG_BASE) vcpu_io in
       Ret (st, io',
            emit (set_mach w m') (EvConfigRead (port - VIRTIO_PCI_DEVICE_CFG_BASE)))).
Proof.
  intros Hc Hfit. simpl.
  unfold sizeof_virtio_pci_legacy_config_t, VIRTIO_PCI_DEVICE_CFG_BASE in *.
  assert (E : u16 (20 + config_size) = 20 + config_size)
    by (unfold u16; apply Z.mod_small; lia).
  rewrite E. intros Hp. split; [reflexivity|]. split; [lia|].
  unfold virtio_pci_legacy_read. simpl.
  unfold VIRTIO_PCI_DEVICE_FEATURES, VIRTIO_PCI_QUEUE_PFN, VIRTIO_PCI_QUEUE_SIZE,
    VIRTIO_PCI_DEVICE_STATUS, VIRTIO_PCI_ISR_STATUS, VIRTIO_PCI_DEVICE_CFG_BASE.
  repeat match goal with
         | |- context [port =? ?c] => destruct (Z.eqb_spec port c); [lia|]
         end.
  destruct (Z.geb_spec port 20); [|lia].
  assert (E2 : u16 (port - 20) = port - 20) by (unfold u16; apply Z.mod_small; lia).
  rewrite E2. reflexivity.
Qed.

End PciInit.

(* ===================================================================== *)
(** ** The used ring inside the ring that was checked *)

Section ReturnInside.
Context {H : Type}.

(** X25. What [virtio_queue_set_pfn] checked is what [virtio_queue_return]
    needs: on a queue whose used ring, capacity (not 0) and device are as a
    successful [virtio_queue_set_pfn] left them, [virtio_queue_return]
    completes, whatever guest memory holds and wherever the cursor is, and
    every byte it changes lies in guest memory. *)
Theorem queue_return_writes_inside_guest_memory
    (qi : nat) (p idx l : Z) (m m' : machine H) (q q' qw : virtio_queue_t)
    (w : world H) :
  queues (dev m) !! qi = Some q ->
  virtio_device q = OwningDevice ->
  0 < size q < 2 ^ 16 ->
  0 <= p < 2 ^ 20 ->
  0 <= guest_physmem_addr (dev m) ->
  guest_physmem_addr (dev m) + 2 ^ 33 <= 2 ^ 64 ->
  0 <= guest_physmem_size (dev m) ->
  guest_physmem_addr (dev m) + guest_physmem_size (dev m) < 2 ^ 64 ->
  virtio_queue_set_pfn qi p m = Ret (MX_OK, m') ->
  queues (dev m') !! qi = Some q' ->
  queues (dev (mach w)) !! qi = Some qw ->
  used qw = used q' ->
  size qw = size q' ->
  virtio_device qw = OwningDevice ->
  exists w',
    virtio_queue_return qi idx l w = Ret w' /\
    forall x,
      ~ (guest_physmem_addr (dev m) <= x
         < guest_physmem_addr (dev m) + guest_physmem_size (dev m)) ->
      read8 (mem (mach w')) x = read8 (mem (mach w)) x.
Proof.
  intros Hq Hd Hn Hp Hb0 Hb1 Hs0 Hs1 E Hq' Hqw Hused Hsize Hdev.
  rewrite (set_pfn_no_wrap qi p m q) in E by (try assumption; lia).
  match type of E with context [?a >? ?b] => destruct (Z.gtb_spec a b) as [|Hfit] end;
    [discriminate|].
  injection E as <-. simpl in Hq'.
  rewrite list_lookup_insert_eq in Hq' by (eapply lookup_lt_Some; eassumption).
  injection Hq' as <-. simpl in Hused, Hsize.
  pose proof (align_up_bounds
                (p * PAGE_SIZE + size q * sizeof_vring_desc + sizeof_ptr
                 + size q * sizeof_avail_entry + sizeof_ptr)) as Hal.
  unfold virtio_queue_return, get_queue, ring_index. rewrite Hqw. simpl.
  rewrite Hused, Hsize, Hdev.
  unfold sizeof_vring_desc, sizeof_ptr, sizeof_avail_entry, sizeof_vring_used_elem,
    PAGE_SIZE, ring_idx_off, ring_entries_off, used_elem_id_off, used_elem_len_off
    in *.
  match goal with |- context [?u =? 0] =>
    destruct (Z.eqb_spec u 0) as [Hz|_]; [exfalso; lia|] end.
  destruct (Z.eqb_spec (size q) 0); [lia|]. simpl.
  eexists. split; [reflexivity|]. simpl. intros x Hx.
  match goal with |- context [u32 ?i mod size q] =>
    pose proof (Z.mod_pos_bound (u32 i) (size q) ltac:(lia)) as Hslot end.
  rewrite read8_write16_ne, !read8_write32_ne by lia. reflexivity.
Qed.

End ReturnInside.

(* ===================================================================== *)
(** ** Memories that agree on a range *)

Lemma read8_agree (lo hi : Z) (g g' : memory) (a : Z) :
  agree_on lo hi g g' -> lo <= a < hi -> read8 g a = read8 g' a.
Proof. intros A Ha. unfold read8. now rewrite (A a Ha). Qed.

Lemma read16_agree (lo hi : Z) (g g' : memory) (a : Z) :
  agree_on lo hi g g' -> lo <= a -> a + 2 <= hi -> read16 g a = read16 g' a.
Proof.
  intros A H1 H2. unfold read16.
  rewrite (read8_agree lo hi g g' a A), (read8_agree lo hi g g' (a + 1) A) by lia.
  reflexivity.
Qed.

Lemma read32_agree (lo hi : Z) (g g' : memory) (a : Z) :
  agree_on lo hi g g' -> lo <= a -> a + 4 <= hi -> read32 g a = read32 g' a.
Proof.
  intros A H1 H2. unfold read32.
  rewrite (read16_agree lo hi g g' a A), (read16_agree lo hi g g' (a + 2) A) by lia.
  reflexivity.
Qed.

Lemma read64_agree (lo hi : Z) (g g' : memory) (a : Z) :
  agree_on lo hi g g' -> lo <= a -> a + 8 <= hi -> read64 g a = read64 g' a.
Proof.
  intros A H1 H2. unfold read64.
  rewrite (read32_agree lo hi g g' a A), (read32_agree lo hi g g' (a + 4) A) by lia.
  reflexivity.
Qed.


Lemma scribbling_guest_keeps (lo hi : Z) (t : nat) (g : memory) :
  guest_base < lo -> agree_on lo hi (scribbling_guest t g) g.
Proof.
  intros Hlo x Hx. unfold scribbling_guest, write8.
  destruct (Z.eqb_spec x guest_base); [lia|reflexivity].
Qed.

(** A buffer whose guest address lies past the end of guest memory is not
    inside the host mapping, whether or not its host address wraps. *)
Lemma buffer_past_guest_memory (mem_addr mem_size a l f : Z) :
  0 <= mem_addr < 2 ^ 64 -> 0 <= a < 2 ^ 64 -> 0 <= l ->
  mem_size < a ->
  buffer_in_guest mem_addr mem_size (EvHandler (u64 (mem_addr + a)) l f) = false.
Proof.
  intros Hm Ha Hl Hout. simpl. apply andb_false_iff.
  destruct (Z.lt_ge_cases (mem_addr + a) (2 ^ 64)) as [Hlt|Hge].
  - right. unfold u64. rewrite Z.mod_small by lia. apply Z.leb_gt. lia.
  - left. unfold u64.
    replace (mem_addr + a) with (mem_addr + a - 2 ^ 64 + 1 * 2 ^ 64) by lia.
    rewrite Z.mod_add, Z.mod_small by lia. apply Z.leb_gt. lia.
Qed.

Lemma is_stop_eq (st : mx_status_t) : is_stop st = true -> st = MX_ERR_STOP.
Proof. destruct st; simpl; congruence. Qed.

Section NextAvailHead.
Context {H : Type}.

(** What a successful [virtio_queue_next_avail] leaves: a 16-bit head, the
    memory as it was and the cursor moved on. *)
Lemma next_avail_head (qi : nat) (m m1 : machine H) (q : virtio_queue_t) (head : Z) :
  queues (dev m) !! qi = Some q ->
  virtio_queue_next_avail qi 0 m = Ret (MX_OK, head, m1) ->
  0 <= head < 2 ^ 16 /\ mem m1 = mem m /\
  queues (dev m1) !! qi = Some (set_index q (u16 (index q + 1))).
Proof.
  intros Hq.
  unfold virtio_queue_next_avail, virtio_queue_next_avail_locked, get_queue,
    ring_index.
  rewrite Hq. simpl.
  destruct (ring_avail_count q (mem m) <? 1); [discriminate|].
  destruct (size q =? 0); simpl; [discriminate|].
  intros E. injection E as <- <-. simpl.
  split; [apply read16_range|]. split; [reflexivity|].
  apply list_lookup_insert_eq. eapply lookup_lt_Some; eassumption.
Qed.

End NextAvailHead.

(* ===================================================================== *)
(** ** The walk, load by load *)

Section StillGuest.
Context {H : Type}.
Variable handler : virtio_queue_fn_t H.
Variable qi : nat.
Variables mem_addr mem_size : Z.

(** With a guest that stands still the loads of a turn see one memory: the
    turn is [chain_step]. *)
Lemma chain_step_still (t : nat) (i u : Z) (w : world H) :
  chain_step_volatile still_guest handler qi mem_addr mem_size t i u w
    = chain_step handler qi mem_addr mem_size i u w.
Proof.
  unfold chain_step_volatile, chain_step, still_guest, desc_out_of_range.
  destruct w as [[d g h] tr]. simpl.
  destruct (queues d !! qi) as [q|]; [|reflexivity].
  destruct (desc q =? 0); [reflexivity|].
  destruct (_ || _); [reflexivity|].
  unfold set_mem. simpl.
  destruct (handler _ _ _ _ _) as [[st u1] [d1 g1 h1]]. simpl.
  reflexivity.
Qed.

Lemma chain_walk_still (fuel : nat) : forall (t : nat) (i u : Z) (w : world H),
  chain_walk_volatile still_guest handler qi mem_addr mem_size fuel t i u w
    = chain_walk handler qi mem_addr mem_size fuel i u w.
Proof.
  induction fuel as [|fuel IH]; intros t i u w; simpl; [reflexivity|].
  rewrite chain_step_still.
  destruct (chain_step handler qi mem_addr mem_size i u w); auto.
Qed.

Lemma read_desc_still (i : Z) (out : virtio_desc_t) (m : machine H) :
  virtio_queue_read_desc_volatile still_guest qi i out m
    = (r <- virtio_queue_read_desc qi i out m ;; Ret (r, m)).
Proof.
  unfold virtio_queue_read_desc_volatile, virtio_queue_read_desc, still_guest,
    desc_out_of_range.
  destruct m as [d g h]. simpl.
  destruct (get_queue _ qi) as [q| |]; simpl; try reflexivity.
  destruct (virtio_device q); [reflexivity|].
  destruct (desc q =? 0); [reflexivity|].
  destruct (_ || _); reflexivity.
Qed.

End StillGuest.

Section StillHandler.
Context {H : Type}.

Lemma handler_still (handler : virtio_queue_fn_t H) (qi fuel : nat) (w : world H) :
  virtio_queue_handler_volatile still_guest handler qi fuel w
    = virtio_queue_handler handler qi fuel w.
Proof.
  unfold virtio_queue_handler_volatile, virtio_queue_handler.
  destruct (get_queue (mach w) qi) as [q| |]; simpl; try reflexivity.
  destruct (virtio_device q); [reflexivity|].
  destruct (virtio_queue_next_avail qi 0 (mach w)) as [[[st head] m1]| |];
    simpl; try reflexivity.
  destruct (is_not_found st); [reflexivity|].
  destruct (negb (is_ok st)); [reflexivity|].
  now rewrite chain_walk_still.
Qed.

End StillHandler.

Section VolatileWalk.
Context {H : Type}.
Variable guest : nat -> memory -> memory.
Variable handler : virtio_queue_fn_t H.
Variable qi : nat.
Variables mem_addr mem_size : Z.

(** The events of a turn, and of the loop, are added to the trace. *)
Lemma chain_step_volatile_trace (t : nat) (i u : Z) (w : world H) :
  match chain_step_volatile guest handler qi mem_addr mem_size t i u w with
  | StepNext _ _ w' | StepLast _ w' | StepReturn _ w' =>
      exists evs, trace w' = trace w ++ evs
  | StepFault _ => True
  end.
Proof.
  unfold chain_step_volatile.
  destruct (queues (dev (mach w)) !! qi) as [q|]; [|exact I].
  destruct (desc q =? 0); [exact I|].
  destruct (_ || _).
  { exists []. rewrite app_nil_r. reflexivity. }
  destruct (handler _ _ _ _ _) as [[st u1] m1].
  destruct (negb (is_ok st)); [|destruct (Z.land _ _ =? 0)];
    simpl; eexists; reflexivity.
Qed.

Lemma chain_walk_volatile_trace (fuel : nat) :
  forall (t : nat) (i u : Z) (w : world H),
  match chain_walk_volatile guest handler qi mem_addr mem_size fuel t i u w with
  | Ret (WalkDone _ w') | Ret (WalkReturn _ w') =>
      exists evs, trace w' = trace w ++ evs
  | _ => True
  end.
Proof.
  induction fuel as [|fuel IH]; simpl; intros t i u w; [exact I|].
  pose proof (chain_step_volatile_trace t i u w) as S1.
  destruct (chain_step_volatile guest handler qi mem_addr mem_size t i u w)
    as [i1 u1 w1| | |]; try assumption.
  specialize (IH (t + 8)%nat i1 u1 w1).
  destruct S1 as (e1 & T1).
  destruct (chain_walk_volatile guest handler qi mem_addr mem_size fuel _ i1 u1 w1)
    as [[? w'|? w']| |]; try exact I;
    destruct IH as (e2 & T2); exists (e1 ++ e2);
    rewrite T2, T1, <- app_assoc; reflexivity.
Qed.


End VolatileWalk.

Section QuietGuest.
Context {H : Type}.
Variable guest : nat -> memory -> memory.
Variable handler : virtio_queue_fn_t H.
Variable qi : nat.
Variables mem_addr mem_size : Z.
Variable table : Z.

(** The guest leaves the descriptor table alone, the handler the queues. *)
Hypothesis guest_keeps_table : forall t g,
  agree_on table (table + sizeof_vring_desc * 2 ^ 16) (guest t g) g.
Hypothesis handler_keeps_queues : forall a l f u m,
  queues (dev (snd (handler a l f u m))) = queues (dev m).

Section InGuest.
Hypothesis mem_addr_pos : 0 <= mem_addr.
Hypothesis mem_end_fits : mem_addr + mem_size < 2 ^ 64.

Lemma chain_step_volatile_in_guest (t : nat) (i u : Z) (w : world H) :
  (exists q, queues (dev (mach w)) !! qi = Some q /\ desc q = table) ->
  0 <= i < 2 ^ 16 ->
  match chain_step_volatile guest handler qi mem_addr mem_size t i u w with
  | StepNext i' _ w' =>
      (exists evs, trace w' = trace w ++ evs /\
                   forallb (buffer_in_guest mem_addr mem_size) evs = true) /\
      (exists q, queues (dev (mach w')) !! qi = Some q /\ desc q = table) /\
      0 <= i' < 2 ^ 16
  | StepLast _ w' | StepReturn _ w' =>
      exists evs, trace w' = trace w ++ evs /\
                  forallb (buffer_in_guest mem_addr mem_size) evs = true
  | StepFault _ => True
  end.
Proof.
  intros (q & Hq & Hd) Hi. unfold chain_step_volatile. rewrite Hq, Hd.
  destruct (table =? 0); [exact I|].
  set (g := mem (mach w)).
  set (d := table + sizeof_vring_desc * i).
  assert (R64 : forall t' g', read64 (guest t' g') (d + desc_addr_off)
                              = read64 g' (d + desc_addr_off)).
  { intros t' g'. apply (read64_agree _ _ _ _ _ (guest_keeps_table t' g'));
      unfold d, sizeof_vring_desc, desc_addr_off; lia. }
  assert (R32 : forall t' g', read32 (guest t' g') (d + desc_len_off)
                              = read32 g' (d + desc_len_off)).
  { intros t' g'. apply (read32_agree _ _ _ _ _ (guest_keeps_table t' g'));
      unfold d, sizeof_vring_desc, desc_len_off; lia. }
  rewrite !R64, !R32.
  destruct (_ || _) eqn:Hr.
  { exists []. rewrite app_nil_r. auto. }
  destruct (desc_in_range_buffer g d mem_addr mem_size mem_addr_pos mem_end_fits Hr)
    as [Hfit Haddr].
  pose proof (read64_range g (d + desc_addr_off)) as Ha.
  match goal with |- context [handler ?a ?l ?f u ?m] =>
    pose proof (handler_keeps_queues a l f u m) as K;
    assert (Hin : buffer_in_guest mem_addr mem_size (EvHandler a l f) = true)
      by (simpl; rewrite Haddr; apply andb_true_iff; split; apply Z.leb_le; lia);
    destruct (handler a l f u m) as [[st u1] m1] end.
  simpl in K.
  destruct (negb (is_ok st)); [|destruct (Z.land _ _ =? 0)]; simpl.
  - eexists. split; [reflexivity|]. cbn [forallb]. rewrite Hin. reflexivity.
  - eexists. split; [reflexivity|]. cbn [forallb]. rewrite Hin. reflexivity.
  - split; [|split].
    + eexists. split; [reflexivity|]. cbn [forallb]. rewrite Hin. reflexivity.
    + exists q. rewrite K. simpl. auto.
    + apply read16_range.
Qed.

Lemma chain_walk_volatile_in_guest (fuel : nat) :
  forall (t : nat) (i u : Z) (w : world H),
  (exists q, queues (dev (mach w)) !! qi = Some q /\ desc q = table) ->
  0 <= i < 2 ^ 16 ->
  match chain_walk_volatile guest handler qi mem_addr mem_size fuel t i u w with
  | Ret (WalkDone _ w') | Ret (WalkReturn _ w') =>
      exists evs, trace w' = trace w ++ evs /\
                  forallb (buffer_in_guest mem_addr mem_size) evs = true
  | _ => True
  end.
Proof.
  induction fuel as [|fuel IH]; simpl; intros t i u w Hq Hi; [exact I|].
  pose proof (chain_step_volatile_in_guest t i u w Hq Hi) as S1.
  destruct (chain_step_volatile guest handler qi mem_addr mem_size t i u w)
    as [i1 u1 w1| | |]; try assumption.
  destruct S1 as ((e1 & T1 & F1) & Hq1 & Hi1).
  specialize (IH (t + 8)%nat i1 u1 w1 Hq1 Hi1).
  destruct (chain_walk_volatile guest handler qi mem_addr mem_size fuel _ i1 u1 w1)
    as [[? w'|? w']| |]; try exact I;
    destruct IH as (e2 & T2 & F2); exists (e1 ++ e2);
    rewrite T2, T1, <- app_assoc, forallb_app, F1, F2; auto.
Qed.

End InGuest.

Section InOrder.
Variable g : memory.

(** The handler leaves the descriptor table alone as well. *)
Hypothesis handler_keeps_table : forall a l f u m,
  agree_on table (table + sizeof_vring_desc * 2 ^ 16)
           (mem (snd (handler a l f u m))) (mem m).



End InOrder.

End QuietGuest.

Section VolatileHandler.
Context {H : Type}.
Variable guest : nat -> memory -> memory.
Variable handler : virtio_queue_fn_t H.

(** X8. The walk of [virtio_queue_handler] loads the address and the length
    of a descriptor for the bounds test and loads them again for the call.
    For a guest that does not write to the descriptor table while the call
    runs, whatever it writes elsewhere and whenever, and a handler that
    leaves the queues of the device in place: whenever
    [virtio_queue_handler] returns, every buffer it handed to the handler
    lies inside the host mapping of guest memory, address and length checked
    without wrap-around, and the only other event is the used-ring entry
    that ends a completed chain. The table is the 65536 slots that a 16-bit
    index reaches from [queue->desc]: the walk does not compare the index
    with the capacity. *)
Theorem handler_buffers_inside_guest_memory
    (qi fuel : nat) (w w' : world H) (queue : virtio_queue_t) (st : mx_status_t) :
  0 <= guest_physmem_addr (dev (mach w)) ->
  guest_physmem_addr (dev (mach w)) + guest_physmem_size (dev (mach w)) < 2 ^ 64 ->
  queues (dev (mach w)) !! qi = Some queue ->
  (forall t g,
     agree_on (desc queue) (desc queue + sizeof_vring_desc * 2 ^ 16) (guest t g) g) ->
  (forall a l f u m, queues (dev (snd (handler a l f u m))) = queues (dev m)) ->
  virtio_queue_handler_volatile guest handler qi fuel w = Ret (st, w') ->
  exists evs tail,
    trace w' = trace w ++ evs ++ tail /\
    forallb (buffer_in_guest (guest_physmem_addr (dev (mach w)))
                             (guest_physmem_size (dev (mach w)))) evs = true /\
    (tail = [] \/ exists head l, tail = [EvUsedElem qi head l]).
Proof.
  intros Hb0 Hb1 Hq Hguest Hkeep. unfold virtio_queue_handler_volatile, get_queue.
  rewrite Hq. simpl.
  destruct (virtio_device queue); [discriminate|].
  destruct (virtio_queue_next_avail qi 0 (mach w)) as [[[st1 head] m1]| |] eqn:Hnext;
    simpl; try discriminate.
  destruct (is_not_found st1) eqn:Hnf.
  { intros E. injection E as <- <-. exists [], []. simpl. rewrite app_nil_r. auto. }
  destruct (is_ok st1) eqn:Hok; simpl.
  2:{ intros E. injection E as <- <-. exists [], []. simpl. rewrite app_nil_r. auto. }
  apply is_ok_eq in Hok. subst st1.
  destruct (next_avail_head qi _ _ _ _ Hq Hnext) as (Hhead & _ & Hq1).
  assert (Hq1' : exists q, queues (dev (mach (set_mach w m1))) !! qi = Some q /\
                           desc q = desc queue)
    by (eexists; split; [exact Hq1|reflexivity]).
  pose proof (chain_walk_volatile_in_guest guest handler qi _ _ (desc queue)
                Hguest Hkeep Hb0 Hb1 fuel 0%nat head 0 (set_mach w m1) Hq1' Hhead)
    as Hwalk.
  destruct (chain_walk_volatile guest handler qi _ _ fuel 0 head 0 (set_mach w m1))
    as [[u2 w2|st2 w2]| |]; simpl; try discriminate;
    destruct Hwalk as (evs & T & F).
  - destruct (virtio_queue_return qi head u2 w2) as [w3| |] eqn:R; simpl;
      try discriminate.
    apply virtio_queue_return_trace in R as [T3 _].
    destruct (queues (dev (mach w3)) !! qi); simpl; try discriminate.
    intros E. injection E as <- <-.
    exists evs, [EvUsedElem qi head u2]. rewrite T3, T. simpl.
    rewrite <- app_assoc. split; [reflexivity|]. split; [exact F|]. right. eauto.
  - intros E. injection E as <- <-. exists evs, []. rewrite T. simpl.
    rewrite app_nil_r. auto.
Qed.


End VolatileHandler.

Section DoubleFetch.
Context {H : Type}.
Variable handler : virtio_queue_fn_t H.

(** X12. [virtio_queue_read_desc] returns [MX_OK] or [MX_ERR_OUT_OF_RANGE],
    whatever the guest does between its loads, and on the error [out] is
    untouched. On [MX_OK], for a guest that does not write to the descriptor
    while the call runs, the buffer described lies inside the host mapping
    of guest memory, [len] and [next] are those of the descriptor, and
    [has_next] and [writable] are bits 0 and 1 of its flags. *)
Theorem read_desc_checks_then_fills
    (guest : nat -> memory -> memory) (qi : nat) (i : Z) (out d : virtio_desc_t)
    (m m' : machine H) (q : virtio_queue_t) (st : mx_status_t) :
  0 <= guest_physmem_addr (dev m) ->
  guest_physmem_addr (dev m) + guest_physmem_size (dev m) < 2 ^ 64 ->
  queues (dev m) !! qi = Some q ->
  virtio_queue_read_desc_volatile guest qi i out m = Ret (st, d, m') ->
  let p := desc q + sizeof_vring_desc * i in
  (st = MX_OK \/ st = MX_ERR_OUT_OF_RANGE) /\
  (st = MX_ERR_OUT_OF_RANGE -> d = out) /\
  (st = MX_OK ->
   (forall t g, agree_on p (p + sizeof_vring_desc) (guest t g) g) ->
   guest_physmem_addr (dev m) <= addr d /\
   addr d + len d <= guest_physmem_addr (dev m) + guest_physmem_size (dev m) /\
   addr d = guest_physmem_addr (dev m) + read64 (mem m) (p + desc_addr_off) /\
   len d = read32 (mem m) (p + desc_len_off) /\
   next d = read16 (mem m) (p + desc_next_off) /\
   has_next d = Z.testbit (read16 (mem m) (p + desc_flags_off)) 0 /\
   writable d = Z.testbit (read16 (mem m) (p + desc_flags_off)) 1).
Proof.
  intros Hb0 Hb1 Hq. unfold virtio_queue_read_desc_volatile, get_queue.
  rewrite Hq. simpl.
  destruct (virtio_device q); [discriminate|].
  destruct (desc q =? 0); [discriminate|].
  destruct (_ || _) eqn:Hr; intros E; injection E as <- <- <-.
  - repeat split; auto; discriminate.
  - split; [auto|]. split; [discriminate|]. intros _ Hkeep.
    set (p := desc q + sizeof_vring_desc * i) in *.
    assert (R64 : forall t g, read64 (guest t g) (p + desc_addr_off)
                              = read64 g (p + desc_addr_off)).
    { intros t g. apply (read64_agree _ _ _ _ _ (Hkeep t g));
        unfold sizeof_vring_desc, desc_addr_off; lia. }
    assert (R32 : forall t g, read32 (guest t g) (p + desc_len_off)
                              = read32 g (p + desc_len_off)).
    { intros t g. apply (read32_agree _ _ _ _ _ (Hkeep t g));
        unfold sizeof_vring_desc, desc_len_off; lia. }
    assert (Rf : forall t g, read16 (guest t g) (p + desc_flags_off)
                             = read16 g (p + desc_flags_off)).
    { intros t g. apply (read16_agree _ _ _ _ _ (Hkeep t g));
        unfold sizeof_vring_desc, desc_flags_off; lia. }
    assert (Rn : forall t g, read16 (guest t g) (p + desc_next_off)
                             = read16 g (p + desc_next_off)).
    { intros t g. apply (read16_agree _ _ _ _ _ (Hkeep t g));
        unfold sizeof_vring_desc, desc_next_off; lia. }
    rewrite !R64, !R32 in Hr.
    destruct (desc_in_range_buffer (mem m) p _ _ Hb0 Hb1 Hr) as [Hfit Haddr].
    pose proof (read64_range (mem m) (p + desc_addr_off)) as Ha.
    cbn [addr len next has_next writable].
    rewrite ?R64, ?R32, ?Rf, ?Rn, Haddr. repeat split; try lia.
    + apply (land_bit_test _ 0). lia.
    + apply (land_bit_test _ 1). lia.
Qed.

(** X27. [virtio_queue_read_desc] tests [desc.addr + desc.len] and then loads
    [desc.addr] and [desc.len] again to fill [out]. When the descriptor
    passes the test and the guest rewrites its memory between the test and
    the load that fills [out->addr], the call returns [MX_OK] with the
    address and the length of the rewritten descriptor, which were never
    tested: if that address lies past the end of guest memory, the buffer
    handed out is not inside the host mapping of guest memory. *)
Theorem read_desc_fills_from_second_load
    (qi : nat) (i : Z) (out : virtio_desc_t) (m : machine H) (q : virtio_queue_t)
    (g' : memory) :
  let p := desc q + sizeof_vring_desc * i in
  let mem_addr := guest_physmem_addr (dev m) in
  let mem_size := guest_physmem_size (dev m) in
  queues (dev m) !! qi = Some q ->
  virtio_device q = OwningDevice ->
  desc q <> 0 ->
  desc_out_of_range (mem m) p mem_size = false ->
  exists d,
    virtio_queue_read_desc_volatile (rewriting_guest 3 g') qi i out m
      = Ret (MX_OK, d, set_mem m g') /\
    addr d = u64 (mem_addr + read64 g' (p + desc_addr_off)) /\
    len d = read32 g' (p + desc_len_off) /\
    (0 <= mem_addr < 2 ^ 64 ->
     mem_size < read64 g' (p + desc_addr_off) ->
     ~ (mem_addr <= addr d /\ addr d + len d <= mem_addr + mem_size)).
Proof.
  intros p mem_addr mem_size Hq Hdev Hd Hr.
  unfold virtio_queue_read_desc_volatile, get_queue. rewrite Hq. simpl.
  rewrite Hdev. destruct (Z.eqb_spec (desc q) 0); [contradiction|].
  unfold desc_out_of_range in Hr. unfold rewriting_guest. cbn [Nat.eqb].
  fold p mem_size. rewrite Hr.
  eexists. split; [reflexivity|]. cbn [addr len].
  split; [reflexivity|]. split; [reflexivity|].
  intros Hm Hout [B1 B2].
  pose proof (buffer_past_guest_memory mem_addr mem_size
                (read64 g' (p + desc_addr_off)) (read32 g' (p + desc_len_off)) 0
                Hm (read64_range _ _) (proj1 (read32_range _ _)) Hout) as Hno.
  simpl in Hno. apply andb_false_iff in Hno as [Hno|Hno]; apply Z.leb_gt in Hno;
    fold mem_addr in B1, B2; lia.
Qed.

(** The first turn of the walk when the guest rewrites its memory after the
    bounds test: the handler is called on what the guest wrote. *)
Lemma chain_step_rewritten (qi : nat) (mem_addr mem_size : Z) (head u : Z)
    (w1 : world H) (q1 : virtio_queue_t) (g' : memory) :
  let d := desc q1 + sizeof_vring_desc * head in
  queues (dev (mach w1)) !! qi = Some q1 ->
  desc q1 <> 0 ->
  desc_out_of_range (mem (mach w1)) d mem_size = false ->
  match chain_step_volatile (rewriting_guest 3 g') handler qi mem_addr mem_size
                            0 head u w1 with
  | StepNext _ _ w2 | StepLast _ w2 | StepReturn _ w2 =>
      trace w2 = trace w1
                   ++ [EvHandler (u64 (mem_addr + read64 g' (d + desc_addr_off)))
                                 (read32 g' (d + desc_len_off))
                                 (read16 g' (d + desc_flags_off))]
  | StepFault _ => False
  end.
Proof.
  intros d Hq Hd Hr. unfold chain_step_volatile. rewrite Hq.
  destruct (Z.eqb_spec (desc q1) 0); [contradiction|].
  unfold desc_out_of_range in Hr. unfold rewriting_guest.
  cbn [Nat.add Nat.eqb]. fold d. rewrite Hr.
  destruct (handler _ _ _ _ _) as [[st u1] m2].
  destruct (negb (is_ok st)); [|destruct (Z.land _ _ =? 0)]; reflexivity.
Qed.

(** X28. The bounds test of [virtio_queue_handler] and its call of the
    handler load [desc->addr] separately. When the head descriptor passes the
    test and the guest rewrites its memory between the test and the load
    that computes the host address, so that the descriptor points past the
    end of guest memory, the first call of the handler gets that buffer,
    which is not inside the host mapping of guest memory. *)
Theorem handler_passes_rewritten_buffer
    (qi fuel : nat) (w w' : world H) (queue : virtio_queue_t) (head : Z)
    (m1 : machine H) (g' : memory) (st : mx_status_t) :
  let mem_addr := guest_physmem_addr (dev (mach w)) in
  let mem_size := guest_physmem_size (dev (mach w)) in
  let d := desc queue + sizeof_vring_desc * head in
  let e := EvHandler (u64 (mem_addr + read64 g' (d + desc_addr_off)))
                     (read32 g' (d + desc_len_off))
                     (read16 g' (d + desc_flags_off)) in
  0 <= mem_addr < 2 ^ 64 ->
  queues (dev (mach w)) !! qi = Some queue ->
  desc queue <> 0 ->
  virtio_queue_next_avail qi 0 (mach w) = Ret (MX_OK, head, m1) ->
  desc_out_of_range (mem (mach w)) d mem_size = false ->
  mem_size < read64 g' (d + desc_addr_off) ->
  virtio_queue_handler_volatile (rewriting_guest 3 g') handler qi fuel w
    = Ret (st, w') ->
  buffer_in_guest mem_addr mem_size e = false /\
  exists tail, trace w' = trace w ++ e :: tail.
Proof.
  intros mem_addr mem_size d e Hm Hq Hd Hnext Hr Hout Hrun.
  split.
  { apply buffer_past_guest_memory; try assumption.
    - apply read64_range.
    - apply read32_range. }
  revert Hrun.
  destruct (next_avail_head qi _ _ _ _ Hq Hnext) as (_ & Hmem & Hq1).
  unfold virtio_queue_handler_volatile, get_queue. rewrite Hq. simpl.
  destruct (virtio_device queue); [discriminate|].
  rewrite Hnext. simpl. fold mem_addr mem_size.
  destruct fuel as [|fuel]; [discriminate|]. simpl.
  pose proof (chain_step_rewritten qi mem_addr mem_size head 0 (set_mach w m1)
                (set_index queue (u16 (index queue + 1))) g' Hq1 Hd) as S1.
  simpl in S1. rewrite Hmem in S1. specialize (S1 Hr). fold d e in S1.
  destruct (chain_step_volatile _ handler qi mem_addr mem_size 0 head 0 (set_mach w m1))
    as [i1 u1 w2|u1 w2|st1 w2|]; [| | |contradiction].
  - pose proof (chain_walk_volatile_trace (rewriting_guest 3 g') handler qi mem_addr
                  mem_size fuel 8%nat i1 u1 w2) as Hwalk.
    destruct (chain_walk_volatile _ handler qi mem_addr mem_size fuel 8 i1 u1 w2)
      as [[u2 w3|st2 w3]| |]; simpl; try discriminate; destruct Hwalk as (evs & T).
    + destruct (virtio_queue_return qi head u2 w3) as [w4| |] eqn:R; simpl;
        try discriminate.
      apply virtio_queue_return_trace in R as [T4 _].
      destruct (queues (dev (mach w4)) !! qi); simpl; try discriminate.
      intros E. injection E as <- <-. eexists.
      rewrite T4, T, S1. simpl. rewrite <- !app_assoc. reflexivity.
    + intros E. injection E as <- <-. eexists.
      rewrite T, S1. simpl. rewrite <- !app_assoc. reflexivity.
  - simpl.
    destruct (virtio_queue_return qi head u1 w2) as [w4| |] eqn:R; simpl;
      try discriminate.
    apply virtio_queue_return_trace in R as [T4 _].
    destruct (queues (dev (mach w4)) !! qi); simpl; try discriminate.
    intros E. injection E as <- <-. eexists.
    rewrite T4, S1. simpl. rewrite <- !app_assoc. reflexivity.
  - simpl. intros E. injection E as <- <-. exists []. exact S1.
Qed.

End DoubleFetch.

(* ===================================================================== *)
(** ** The cursor at its last value *)

Section StuckCursor.
Context {H : Type}.
Variable cnd_wait : machine H -> machine H.

(** X26. Once the cursor [queue->index] is 65535 the queue gives out nothing
    more: [avail.idx] is a 16-bit value, so [ring_avail_count] is never
    positive. [virtio_queue_next_avail] answers [MX_ERR_NOT_FOUND] whatever
    guest memory holds, and [virtio_queue_wait] does not return, whatever
    the guest publishes while the thread sleeps and however often it wakes
    up, as long as the queue is left in place. *)
Theorem wait_never_passes_last_cursor
    (qi : nat) (m : machine H) (q : virtio_queue_t) :
  queues (dev m) !! qi = Some q ->
  index q = 2 ^ 16 - 1 ->
  (forall m0, queues (dev (cnd_wait m0)) !! qi = queues (dev m0) !! qi) ->
  (forall (g : memory) (out : Z),
     virtio_queue_next_avail qi out (set_mem m g)
       = Ret (MX_ERR_NOT_FOUND, out, set_mem m g)) /\
  (forall (fuel : nat) (out : Z),
     virtio_queue_wait cnd_wait qi fuel out m = OutOfFuel).
Proof.
  intros Hq Hc Hkeep.
  assert (Hcount : forall g, ring_avail_count q g < 1).
  { intros g. unfold ring_avail_count. destruct (avail q =? 0); [lia|].
    pose proof (read16_range g (avail q + ring_idx_off)). lia. }
  split.
  - intros g out.
    apply (next_avail_no_work qi out (set_mem m g) q); [exact Hq|apply Hcount].
  - intros fuel. revert m Hq.
    induction fuel as [|fuel IH]; intros m Hq out; [reflexivity|].
    simpl.
    pose proof (next_avail_no_work qi out m q Hq (Hcount _)) as E.
    unfold virtio_queue_next_avail in E. rewrite E. simpl.
    apply IH. rewrite Hkeep. exact Hq.
Qed.

End StuckCursor.

(* ===================================================================== *)
(** ** The polling worker on a ring that follows the protocol *)

Section PollRun.
Context {H : Type}.
Variable cnd_wait : machine H -> machine H.
Variable pci_interrupt : machine H -> mx_status_t * machine H.
Variable handler : virtio_queue_poll_fn_t H.
Variable hs : Z -> Z.
Variable qi : nat.
Variable q0 : virtio_queue_t.

Hypothesis capacity : 0 < size q0.
Hypothesis rings_apart :
  avail q0 + ring_entries_off + sizeof_avail_entry * size q0 <= used q0.
Hypothesis cnd_wait_follows : forall c m,
  0 <= c ->
  ring_follows hs qi q0 c m -> ring_follows hs qi q0 c (cnd_wait m).
Hypothesis handler_follows : forall c d u m,
  0 <= c ->
  ring_follows hs qi q0 c m -> ring_follows hs qi q0 c (snd (handler qi d u m)).
Hypothesis interrupt_follows : forall c m,
  0 <= c ->
  ring_follows hs qi q0 c m -> ring_follows hs qi q0 c (snd (pci_interrupt m)).

(** The wait returns the head at the cursor and moves the cursor on. *)
Lemma wait_follows (fuel : nat) :
  forall (out h c : Z) (m m' : machine H),
  0 <= c ->
  ring_follows hs qi q0 c m ->
  virtio_queue_wait cnd_wait qi fuel out m = Ret (h, m') ->
  h = hs c /\ ring_follows hs qi q0 (c + 1) m'.
Proof.
  induction fuel as [|fuel IH]; intros out h c m m' Hc F; simpl; [discriminate|].
  unfold virtio_queue_next_avail_locked, get_queue, ring_index.
  destruct F as [Hq Hent]. rewrite Hq. cbn [obind].
  unfold ring_avail_count. cbn [avail index size set_index].
  destruct (avail q0 =? 0).
  { cbn. intros E. eapply IH; [exact Hc| |exact E].
    apply cnd_wait_follows; [exact Hc|]. split; assumption. }
  pose proof (read16_range (mem m) (avail q0 + ring_idx_off)) as Hidx.
  destruct (Z.ltb_spec (read16 (mem m) (avail q0 + ring_idx_off) - c) 1) as [|Hcount].
  { cbn. intros E. eapply IH; [exact Hc| |exact E].
    apply cnd_wait_follows; [exact Hc|]. split; assumption. }
  destruct (Z.eqb_spec (size q0) 0); [lia|]. cbn.
  assert (Hu32 : u32 c = c) by (unfold u32; apply Z.mod_small; lia).
  assert (Hu16 : u16 (c + 1) = c + 1) by (unfold u16; apply Z.mod_small; lia).
  rewrite Hu32, Hu16. intros E. injection E as <- <-.
  split; [apply Hent; lia|]. split.
  - unfold put_queue. cbn.
    rewrite list_lookup_insert_eq by (eapply lookup_lt_Some; exact Hq).
    reflexivity.
  - cbn. intros j Hj. apply Hent. lia.
Qed.

(** Returning a buffer writes the used ring only. *)
Lemma return_follows (c d l : Z) (w w' : world H) :
  ring_follows hs qi q0 c (mach w) ->
  virtio_queue_return qi d l w = Ret w' ->
  ring_follows hs qi q0 c (mach w') /\
  trace w' = trace w ++ [EvUsedElem qi d l].
Proof.
  intros [Hq Hent]. unfold virtio_queue_return, get_queue, ring_index.
  rewrite Hq. cbn [obind]. cbn [used size virtio_device set_index].
  destruct (used q0 =? 0); [discriminate|].
  destruct (Z.eqb_spec (size q0) 0); [lia|]. cbn [obind].
  destruct (virtio_device q0); [discriminate|].
  intros E. injection E as <-. cbn.
  split; [|reflexivity]. split; [exact Hq|].
  set (i := u32 (read16 (mem (mach w)) (used q0 + ring_idx_off)) mod size q0).
  assert (Hi : 0 <= i < size q0) by (apply Z.mod_pos_bound; lia).
  unfold ring_idx_off, ring_entries_off, sizeof_avail_entry, sizeof_vring_used_elem,
    used_elem_id_off, used_elem_len_off in *.
  assert (Hsame : forall x, x + 1 < used q0 ->
            read16 (write16
                      (write32 (write32 (mem (mach w)) (used q0 + 4 + 8 * i + 0) d)
                               (used q0 + 4 + 8 * i + 4) l)
                      (used q0 + 2)
                      (read16 (write32 (write32 (mem (mach w)) (used q0 + 4 + 8 * i + 0) d)
                                       (used q0 + 4 + 8 * i + 4) l)
                              (used q0 + 2) + 1)) x
            = read16 (mem (mach w)) x).
  { intros x Hx. rewrite read16_write16_ne, !read16_write32_ne by lia. reflexivity. }
  rewrite Hsame by lia.
  intros j Hj.
  pose proof (Z.mod_pos_bound j (size q0) capacity) as Hslot.
  rewrite Hsame by lia. apply Hent. exact Hj.
Qed.

(** X22. The polling worker on a ring that follows the protocol: the guest
    publishes the heads [hs c], [hs (c + 1)], ... at the positions from the
    cursor [c] on and rewrites no entry it has published before the entry is
    taken; while the worker sleeps, in the handler and in the interrupt the
    queue is left as it is. That is [ring_follows], kept by [cnd_wait], by
    the handler and by [pci_interrupt]. When [virtio_queue_poll_task]
    returns it has taken [n] entries, at least one: the cursor is at
    [c + n], and the used ring was given the [n] heads [hs c], ...,
    [hs (c + n - 1)] in this order, each with the length the handler reported
    for it, also the one on which the handler failed or asked to stop. Every
    used-ring entry but possibly the last is followed by one interrupt.
    [MX_OK] is returned only when the handler answered [MX_ERR_STOP] on the
    last head; any other status is that of the handler on the last head,
    with no interrupt after it, or that of the interrupt raised last, each on
    a machine whose cursor stands just past the last head. *)
Theorem poll_task_returns_every_buffer
    (wait_fuel fuel : nat) (c : Z) (w w' : world H) (st : mx_status_t) :
  0 <= c ->
  ring_follows hs qi q0 c (mach w) ->
  virtio_queue_poll_task cnd_wait pci_interrupt handler qi wait_fuel fuel w
    = Ret (st, w') ->
  exists (bufs : list (Z * Z)) (last_interrupt : bool),
    let n := Z.of_nat (length bufs) in
    bufs <> [] /\
    map fst bufs = heads_from hs c (length bufs) /\
    Forall (fun b => exists m, snd (fst (handler qi (fst b) 0 m)) = snd b) bufs /\
    trace w' = trace w ++ poll_events qi bufs last_interrupt /\
    ring_follows hs qi q0 (c + n) (mach w') /\
    (st = MX_OK ->
     last_interrupt = false /\
     exists m, ring_follows hs qi q0 (c + n) m /\
               fst (fst (handler qi (hs (c + n - 1)) 0 m)) = MX_ERR_STOP) /\
    (st <> MX_OK ->
     (last_interrupt = false /\
      exists m, ring_follows hs qi q0 (c + n) m /\
                fst (fst (handler qi (hs (c + n - 1)) 0 m)) = st) \/
     (last_interrupt = true /\
      exists m, ring_follows hs qi q0 (c + n) m /\ fst (pci_interrupt m) = st)).
Proof.
  unfold virtio_queue_poll_task. revert c w.
  induction fuel as [|k IH]; intros c w Hc F; cbn [poll_loop]; [discriminate|].
  destruct (virtio_queue_wait cnd_wait qi wait_fuel 0 (mach w)) as [[d m1]| |] eqn:Hwait;
    cbn [obind]; try discriminate.
  destruct (wait_follows _ _ _ _ _ _ Hc F Hwait) as [-> F1].
  assert (Hc1 : 0 <= c + 1) by lia.
  pose proof (handler_follows (c + 1) (hs c) 0 m1 Hc1 F1) as F2.
  destruct (handler qi (hs c) 0 m1) as [[hst used'] m2] eqn:Hh. cbn [snd] in F2.
  destruct (virtio_queue_return qi (hs c) used' (set_mach w m2)) as [w3| |] eqn:R;
    cbn [obind]; try discriminate.
  destruct (return_follows (c + 1) (hs c) used' (set_mach w m2) w3 F2 R) as [F3 T3].
  cbn in T3.
  assert (Hcall : exists m, snd (fst (handler qi (hs c) 0 m)) = used')
    by (exists m1; rewrite Hh; reflexivity).
  assert (Hlast : c + Z.of_nat 1 - 1 = c) by lia.
  destruct (is_stop hst) eqn:Hstop.
  { apply is_stop_eq in Hstop. subst hst.
    intros E. injection E as <- <-. exists [(hs c, used')], false.
    cbn [length map fst heads_from poll_events]. rewrite Hlast.
    split; [discriminate|]. split; [reflexivity|].
    split; [constructor; [exact Hcall|constructor]|].
    split; [exact T3|]. split; [exact F3|].
    split; [|congruence].
    intros _. split; [reflexivity|]. exists m1. split; [exact F1|]. now rewrite Hh. }
  destruct (is_ok hst) eqn:Hok; cbn [negb].
  2:{ intros E. injection E as <- <-. exists [(hs c, used')], false.
      cbn [length map fst heads_from poll_events]. rewrite Hlast.
      split; [discriminate|]. split; [reflexivity|].
      split; [constructor; [exact Hcall|constructor]|].
      split; [exact T3|]. split; [exact F3|].
      split; [intros ->; discriminate|].
      intros _. left. split; [reflexivity|]. exists m1. split; [exact F1|].
      now rewrite Hh. }
  unfold virtio_device_notify.
  pose proof (interrupt_follows (c + 1) (mach w3) Hc1 F3) as F4.
  destruct (pci_interrupt (mach w3)) as [rst m4] eqn:Hirq. cbn [snd] in F4.
  destruct (is_ok rst) eqn:Hr; cbn [negb].
  2:{ intros E. injection E as <- <-. exists [(hs c, used')], true.
      cbn [length map fst heads_from poll_events]. rewrite Hlast.
      split; [discriminate|]. split; [reflexivity|].
      split; [constructor; [exact Hcall|constructor]|].
      split; [cbn; rewrite T3, <- app_assoc; reflexivity|]. split; [exact F4|].
      split; [intros ->; discriminate|].
      intros _. right. split; [reflexivity|]. exists (mach w3). split; [exact F3|].
      now rewrite Hirq. }
  apply is_ok_eq in Hr. subst rst. intros E.
  apply (IH (c + 1) _) in E as (bufs & b & Hne & Hheads & Hlens & T & F' & Hok' & Herr');
    [|lia|exact F4].
  exists ((hs c, used') :: bufs), b.
  assert (Hn : c + Z.of_nat (length ((hs c, used') :: bufs))
               = c + 1 + Z.of_nat (length bufs)) by (cbn [length]; lia).
  cbv zeta in *. rewrite Hn.
  split; [discriminate|].
  split; [cbn [length map fst heads_from]; now rewrite Hheads|].
  split; [constructor; [exact Hcall|exact Hlens]|].
  split.
  { rewrite poll_events_cons by assumption.
    rewrite T. cbn. rewrite T3, <- !app_assoc. reflexivity. }
  split; [exact F'|]. split; assumption.
Qed.

End PollRun.


Lemma queue_return_writes_inside_guest_memory_witness :
  exists w',
    virtio_queue_return 0 2 16 (mk_world (running 1 (avail_mem 1 0 2)) []) = Ret w' /\
    forall x,
      ~ (guest_base <= x < guest_base + MiB) ->
      read8 (mem (mach w')) x = read8 (avail_mem 1 0 2) x.
Proof.
  apply (queue_return_writes_inside_guest_memory 0 1 2 16 (boot 4)
           (put_queue (boot 4) 0 (ring4 0)) (fresh_queue 4) (ring4 0) (ring4 1)
           (mk_world (running 1 (avail_mem 1 0 2)) [])).
  - reflexivity.
  - reflexivity.
  - vm_compute. split; reflexivity.
  - vm_compute. split; [discriminate|reflexivity].
  - vm_compute. discriminate.
  - vm_compute. discriminate.
  - vm_compute. discriminate.
  - vm_compute. reflexivity.
  - reflexivity.
  - reflexivity.
  - reflexivity.
  - reflexivity.
  - reflexivity.
  - reflexivity.
Defined.

(* ===================================================================== *)
(** ** The theorems above on the concrete rings *)

Lemma queue_return_publishes_buffer_witness :
  exists w',
    virtio_queue_return 0 2 16 (mk_world (running 1 (avail_mem 1 0 2)) []) = Ret w' /\
    read32 (mem (mach w')) (guest_base + 8192 + 4) = 2 /\
    read32 (mem (mach w')) (guest_base + 8192 + 8) = 16 /\
    read16 (mem (mach w')) (guest_base + 8192 + 2) = 1 /\
    trace w' = [EvUsedElem 0 2 16].
Proof.
  destruct (queue_return_publishes_buffer 0 2 16
              (mk_world (running 1 (avail_mem 1 0 2)) []) (ring4 1))
    as (w' & E & Hid & Hlen & Hidx & _ & _ & T).
  - reflexivity.
  - vm_compute. lia.
  - reflexivity.
  - reflexivity.
  - exists w'. repeat split; assumption.
Defined.

Lemma set_pfn_touches_one_queue_witness :
  virtio_queue_set_pfn 0 1 (boot 4) = Ret (MX_OK, put_queue (boot 4) 0 (ring4 0)) /\
  mem (put_queue (boot 4) 0 (ring4 0)) = mem (boot 4) /\
  num_queues (dev (put_queue (boot 4) 0 (ring4 0))) = num_queues (dev (boot 4)).
Proof.
  assert (E : virtio_queue_set_pfn 0 1 (boot 4)
              = Ret (MX_OK, put_queue (boot 4) 0 (ring4 0))) by reflexivity.
  pose proof (set_pfn_touches_one_queue 0 1 (boot 4)
                (put_queue (boot 4) 0 (ring4 0)) MX_OK E) as P.
  split; [exact E|]. split; apply P.
Defined.

Lemma set_pfn_ring_inside_guest_memory_witness :
  exists q',
    queues (dev (put_queue (boot 4) 0 (ring4 0))) !! 0%nat = Some q' /\
    guest_base <= desc q' /\
    avail_event q' + sizeof_ptr <= guest_base + MiB.
Proof.
  destruct (set_pfn_ring_inside_guest_memory 0 1 (boot 4)
              (put_queue (boot 4) 0 (ring4 0)) (fresh_queue 4))
    as (q' & Hq & Hd & _ & _ & _ & _ & _ & He).
  - reflexivity.
  - reflexivity.
  - vm_compute. split; [discriminate|reflexivity].
  - vm_compute. split; [discriminate|reflexivity].
  - vm_compute. discriminate.
  - vm_compute. discriminate.
  - vm_compute. discriminate.
  - vm_compute. reflexivity.
  - reflexivity.
  - exists q'. repeat split; assumption.
Defined.

Lemma set_pfn_last_wins_witness :
  virtio_queue_set_pfn 0 256 (put_queue (boot 4) 0 (ring4 0))
    = virtio_queue_set_pfn 0 256 (boot 4) /\
  virtio_queue_set_pfn 0 1 (put_queue (boot 4) 0 (ring4 0))
    = Ret (MX_OK, put_queue (boot 4) 0 (ring4 0)).
Proof.
  apply (set_pfn_last_wins 0 1 256 (boot 4) (put_queue (boot 4) 0 (ring4 0))).
  reflexivity.
Defined.

Lemma next_avail_only_not_found_witness :
  virtio_queue_next_avail_locked 0 0 (running 0 (avail_mem 1 0 2))
    = Ret (MX_OK, 2, running 1 (avail_mem 1 0 2)) /\
  mem (running 1 (avail_mem 1 0 2)) = mem (running 0 (avail_mem 1 0 2)) /\
  (forall j, j <> 0%nat ->
     queues (dev (running 1 (avail_mem 1 0 2))) !! j
       = queues (dev (running 0 (avail_mem 1 0 2))) !! j).
Proof.
  assert (E : virtio_queue_next_avail_locked 0 0 (running 0 (avail_mem 1 0 2))
              = Ret (MX_OK, 2, running 1 (avail_mem 1 0 2))) by reflexivity.
  pose proof (next_avail_only_not_found 0 0 2 (running 0 (avail_mem 1 0 2))
                (running 1 (avail_mem 1 0 2)) MX_OK E) as P.
  split; [exact E|]. split; apply P.
Defined.

Lemma next_avail_consumes_one_witness :
  exists h m' q',
    virtio_queue_next_avail 0 0 (running 0 (avail_mem 1 0 2)) = Ret (MX_OK, h, m') /\
    queues (dev m') !! 0%nat = Some q' /\
    index q' = 1 /\
    ring_avail_count q' (mem m') = 0.
Proof.
  apply (next_avail_consumes_one 0 0 (running 0 (avail_mem 1 0 2)) (ring4 0)).
  - reflexivity.
  - vm_compute. discriminate.
  - vm_compute. discriminate.
  - vm_compute. discriminate.
Defined.

Lemma ring_index_successor_witness :
  exists i j,
    ring_index (ring4 0) 65535 = Ret i /\ ring_index (ring4 0) (u16 (65535 + 1)) = Ret j /\
    0 <= i < 4 /\ i = 65535 mod 4 /\ j = (i + 1) mod 4.
Proof.
  apply (ring_index_successor (ring4 0) 65535).
  - reflexivity.
  - exists (2 ^ 14). reflexivity.
  - vm_compute. split; [discriminate|reflexivity].
Defined.

Lemma handler_abandons_failed_chain_witness :
  virtio_queue_handler refuse_handler 0 1 chain_world
    = Ret (MX_ERR_INTERNAL, chain_stop_world) /\
  queues (dev (running 1 chain_mem)) !! 0%nat
    = Some (set_index (ring4 0) (u16 (index (ring4 0) + 1))) /\
  exists evs,
    trace chain_stop_world = trace chain_world ++ evs /\
    forallb is_handler_event evs = true.
Proof.
  apply (handler_abandons_failed_chain refuse_handler 0 1 0 chain_world
           (mk_world (running 1 chain_mem) []) chain_stop_world (ring4 0)
           2 2 0 (running 1 chain_mem) MX_ERR_INTERNAL).
  - reflexivity.
  - reflexivity.
  - vm_compute. reflexivity.
  - reflexivity.
  - vm_compute. reflexivity.
  - lia.
Defined.

Lemma handler_never_leaves_self_linked_chain_witness :
  virtio_queue_handler count_handler 0 1000 (mk_world (running 0 loop_mem) [])
    = OutOfFuel.
Proof.
  apply (fun hyp =>
           handler_never_leaves_self_linked_chain count_handler 0
             (mk_world (running 0 loop_mem) []) (ring4 0) (ring4 1) 2
             (running 1 loop_mem) eq_refl eq_refl eq_refl eq_refl hyp).
  - vm_compute. discriminate.
  - vm_compute. reflexivity.
  - vm_compute. discriminate.
  - vm_compute. reflexivity.
  - intros a l f u. eexists. reflexivity.
Defined.


Lemma wrong_width_write_is_rejected_witness :
  virtio_pci_legacy_write quiet_ops pci_ok 0 VIRTIO_PCI_QUEUE_SIZE (mk_io 4 8)
    notify_world = Ret (MX_ERR_IO_DATA_INTEGRITY, notify_world).
Proof.
  apply (wrong_width_write_is_rejected quiet_ops pci_ok VIRTIO_PCI_QUEUE_SIZE 2
           (mk_io 4 8) notify_world).
  - simpl. tauto.
  - vm_compute. discriminate.
Defined.

Lemma unhandled_write_is_rejected_witness :
  virtio_pci_legacy_write quiet_ops pci_ok 0 VIRTIO_PCI_ISR_STATUS (mk_io 1 0)
    pending_isr_world = Ret (MX_ERR_NOT_SUPPORTED, pending_isr_world).
Proof.
  apply (unhandled_write_is_rejected quiet_ops pci_ok 0 VIRTIO_PCI_ISR_STATUS
           (mk_io 1 0) pending_isr_world).
  right. split; [reflexivity|]. vm_compute. intuition discriminate.
Defined.

Lemma register_read_changes_nothing_witness :
  exists st io',
    virtio_pci_legacy_read quiet_ops 0 VIRTIO_PCI_QUEUE_NOTIFY (mk_vcpu_io 0 0)
      notify_world = Ret (st, io', notify_world) /\
    (st = MX_OK \/ (st = MX_ERR_NOT_SUPPORTED /\ io' = mk_vcpu_io 0 0)) /\
    (0 <> 0 \/
     In VIRTIO_PCI_QUEUE_NOTIFY
        [VIRTIO_PCI_DRIVER_FEATURES; VIRTIO_PCI_QUEUE_SELECT;
         VIRTIO_PCI_QUEUE_NOTIFY] ->
     st = MX_ERR_NOT_SUPPORTED).
Proof.
  apply (register_read_changes_nothing quiet_ops 0 VIRTIO_PCI_QUEUE_NOTIFY
           (mk_vcpu_io 0 0) notify_world).
  - vm_compute. discriminate.
  - right. split; [reflexivity|]. vm_compute. discriminate.
Defined.

Lemma device_status_round_trip_witness :
  exists w1 io',
    virtio_pci_legacy_write quiet_ops pci_ok 0 VIRTIO_PCI_DEVICE_STATUS (mk_io 1 255)
      notify_world = Ret (MX_OK, w1) /\
    virtio_pci_legacy_read quiet_ops 0 VIRTIO_PCI_DEVICE_STATUS (mk_vcpu_io 0 0) w1
      = Ret (MX_OK, io', w1) /\
    vcpu_access_size io' = 1 /\ vcpu_u8 io' = 255.
Proof.
  destruct (device_status_round_trip quiet_ops pci_ok (mk_io 1 255) (mk_vcpu_io 0 0)
              notify_world eq_refl) as (w1 & io' & P1 & P2 & P3 & P4 & _).
  exists w1, io'. repeat split; assumption.
Defined.

Lemma queue_select_then_size_witness :
  exists w1 w2 io',
    virtio_pci_legacy_write quiet_ops pci_ok 0 VIRTIO_PCI_QUEUE_SELECT (mk_io 2 0)
      notify_world = Ret (MX_OK, w1) /\
    virtio_pci_legacy_write quiet_ops pci_ok 0 VIRTIO_PCI_QUEUE_SIZE (mk_io 2 8) w1
      = Ret (MX_OK, w2) /\
    virtio_pci_legacy_read quiet_ops 0 VIRTIO_PCI_QUEUE_SIZE (mk_vcpu_io 0 0) w2
      = Ret (MX_OK, io', w2) /\
    vcpu_u16 io' = 8.
Proof.
  destruct (queue_select_then_size quiet_ops pci_ok (mk_io 2 0) (mk_io 2 8)
              (mk_vcpu_io 0 0) notify_world)
    as (w1 & w2 & io' & q & P1 & P2 & P3 & _ & P5 & _).
  - reflexivity.
  - reflexivity.
  - reflexivity.
  - exists w1, w2, io'. repeat split; assumption.
Defined.

Lemma queue_index_out_of_range_is_rejected_witness :
  virtio_pci_legacy_write eager_ops pci_ok 0 VIRTIO_PCI_QUEUE_NOTIFY (mk_io 2 1)
    notify_world = Ret (MX_ERR_NOT_SUPPORTED, notify_world).
Proof.
  apply (queue_index_out_of_range_is_rejected eager_ops pci_ok
           VIRTIO_PCI_QUEUE_NOTIFY (mk_io 2 1) notify_world).
  - right. reflexivity.
  - reflexivity.
  - vm_compute. discriminate.
Defined.

Lemma queue_pfn_round_trip_witness :
  exists io1 io2,
    virtio_pci_legacy_read quiet_ops 0 VIRTIO_PCI_QUEUE_PFN (mk_vcpu_io 0 0)
      (mk_world (put_queue (boot 4) 0 zero_queue) []) 
      = Ret (MX_OK, io1, mk_world (put_queue (boot 4) 0 zero_queue) []) /\
    virtio_pci_legacy_read quiet_ops 0 VIRTIO_PCI_QUEUE_SIZE (mk_vcpu_io 0 0)
      (mk_world (put_queue (boot 4) 0 zero_queue) []) 
      = Ret (MX_OK, io2, mk_world (put_queue (boot 4) 0 zero_queue) []) /\
    vcpu_u32 io1 = 0 /\ vcpu_u16 io2 = 0.
Proof.
  destruct (queue_pfn_round_trip quiet_ops pci_ok (mk_io 4 256) (mk_vcpu_io 0 0)
              (mk_world (boot 4) [])
              (mk_world (put_queue (boot 4) 0 zero_queue) [])
              MX_ERR_OUT_OF_RANGE)
    as (io1 & io2 & P1 & P2 & _ & _ & P5).
  - vm_compute. discriminate.
  - reflexivity.
  - reflexivity.
  - reflexivity.
  - exists io1, io2. destruct (P5 eq_refl). repeat split; assumption.
Defined.

Lemma wait_returns_entry_of_nonempty_ring_witness :
  exists m0 q,
    (m0 = running 0 zero_mem \/ exists m_asleep, m0 = producer m_asleep) /\
    queues (dev m0) !! 0%nat = Some q /\
    1 <= ring_avail_count q (mem m0) /\
    size q <> 0 /\
    2 = read16 (mem m0)
               (avail q + ring_entries_off
                + sizeof_avail_entry * (u32 (index q) mod size q)) /\
    running 1 (avail_mem 1 0 2) = put_queue m0 0 (set_index q (u16 (index q + 1))).
Proof.
  apply (wait_returns_entry_of_nonempty_ring producer 0 2 0 2 (running 0 zero_mem)
           (running 1 (avail_mem 1 0 2))).
  reflexivity.
Defined.

Lemma wait_wakes_up_to_new_entry_witness :
  virtio_queue_wait producer 0 2 0 (running 0 zero_mem)
    = Ret (2, running 1 (avail_mem 1 0 2)).
Proof.
  apply (wait_wakes_up_to_new_entry producer 0 0 0 (running 0 zero_mem)
           (ring4 0) (ring4 0)).
  - reflexivity.
  - reflexivity.
  - reflexivity.
  - vm_compute. discriminate.
  - vm_compute. discriminate.
Defined.

Lemma virtio_pci_legacy_id_injective_witness :
  0 <= virtio_pci_legacy_id 2 < 2 ^ 16 /\
  (2 <= 0xf000 -> virtio_pci_legacy_id 2 = 2 + 0xfff) /\
  (virtio_pci_legacy_id 2 = virtio_pci_legacy_id 0xf003 -> 2 = 0xf003).
Proof.
  apply (virtio_pci_legacy_id_injective 2 0xf003).
  - vm_compute. split; [discriminate|reflexivity].
  - vm_compute. split; [discriminate|reflexivity].
Defined.

Lemma config_ports_reach_device_callback_witness :
  bar0_size (virtio_pci_init 2 8) = VIRTIO_PCI_DEVICE_CFG_BASE + 8 /\
  0 <= 22 - VIRTIO_PCI_DEVICE_CFG_BASE < 8 /\
  virtio_pci_legacy_read quiet_ops 0 22 (mk_vcpu_io 0 0) notify_world
    = Ret (MX_OK, mk_vcpu_io 0 0,
           emit notify_world (EvConfigRead (22 - VIRTIO_PCI_DEVICE_CFG_BASE))).
Proof.
  apply (config_ports_reach_device_callback quiet_ops 2 8 22 (mk_vcpu_io 0 0)
           notify_world).
  - vm_compute. discriminate.
  - vm_compute. reflexivity.
  - vm_compute. split; [discriminate|reflexivity].
Defined.

(** [scribbling_guest] writes below the descriptor table of [ring4]; the two
    descriptors of [good_chain_mem] are handed to the handler and the chain
    is returned. *)
Lemma handler_buffers_inside_guest_memory_witness :
  exists st w',
    virtio_queue_handler_volatile scribbling_guest count_handler 0 2
      (mk_world (running 0 good_chain_mem) []) = Ret (st, w') /\
    exists evs tail,
      trace w' = [] ++ evs ++ tail /\
      forallb (buffer_in_guest guest_base MiB) evs = true /\
      (tail = [] \/ exists head l, tail = [EvUsedElem 0 head l]).
Proof.
  destruct (virtio_queue_handler_volatile scribbling_guest count_handler 0 2
              (mk_world (running 0 good_chain_mem) []))
    as [[st w']| |] eqn:R; [|vm_compute in R; discriminate R..].
  exists st, w'. split; [reflexivity|].
  apply (handler_buffers_inside_guest_memory scribbling_guest count_handler 0 2
           (mk_world (running 0 good_chain_mem) []) w' (ring4 0) st).
  - vm_compute. discriminate.
  - vm_compute. reflexivity.
  - reflexivity.
  - intros t g. apply scribbling_guest_keeps. vm_compute. reflexivity.
  - intros a l f u m. reflexivity.
  - exact R.
Defined.


(** Descriptor 2 of [good_chain_mem], read while the guest scribbles
    elsewhere. *)
Lemma read_desc_checks_then_fills_witness :
  exists d m',
    virtio_queue_read_desc_volatile scribbling_guest 0 2 blank_desc
      (running 0 good_chain_mem) = Ret (MX_OK, d, m') /\
    guest_base <= addr d /\ addr d + len d <= guest_base + MiB /\
    len d = 16 /\ next d = 3 /\ has_next d = true /\ writable d = false.
Proof.
  destruct (virtio_queue_read_desc_volatile scribbling_guest 0 2 blank_desc
              (running 0 good_chain_mem))
    as [[[st d] m']| |] eqn:R; [|vm_compute in R; discriminate R..].
  assert (Hst : st = MX_OK) by (vm_compute in R; congruence).
  subst st.
  destruct (read_desc_checks_then_fills scribbling_guest 0 2 blank_desc d
              (running 0 good_chain_mem) m' (ring4 0) MX_OK) as (_ & _ & P).
  - vm_compute. discriminate.
  - vm_compute. reflexivity.
  - reflexivity.
  - exact R.
  - destruct (P eq_refl) as (P1 & P2 & _ & P4 & P5 & P6 & P7).
    { intros t g. apply scribbling_guest_keeps. vm_compute. reflexivity. }
    exists d, m'. split; [reflexivity|]. split; [exact P1|]. split; [exact P2|].
    rewrite P4, P5, P6, P7. vm_compute. repeat split.
Defined.

(** Descriptor 2 of [good_chain_mem] passes the test; the guest then points
    it 4 GiB into the guest-physical space, of which 1 MiB is memory. *)
Lemma read_desc_fills_from_second_load_witness :
  desc_out_of_range good_chain_mem (desc (ring4 0) + sizeof_vring_desc * 2) MiB
    = false /\
  exists d,
    virtio_queue_read_desc_volatile (rewriting_guest 3 moved_chain_mem) 0 2
      blank_desc (running 0 good_chain_mem)
      = Ret (MX_OK, d, set_mem (running 0 good_chain_mem) moved_chain_mem) /\
    addr d = guest_base + 2 ^ 32 /\
    len d = 16 /\
    ~ (guest_base <= addr d /\ addr d + len d <= guest_base + MiB).
Proof.
  split; [vm_compute; reflexivity|].
  destruct (read_desc_fills_from_second_load 0 2 blank_desc
              (running 0 good_chain_mem) (ring4 0) moved_chain_mem)
    as (d & P1 & P2 & P3 & P4).
  - reflexivity.
  - reflexivity.
  - vm_compute. discriminate.
  - vm_compute. reflexivity.
  - exists d. split; [exact P1|]. split; [rewrite P2; vm_compute; reflexivity|].
    split; [rewrite P3; vm_compute; reflexivity|].
    apply P4.
    + vm_compute. split; [discriminate|reflexivity].
    + vm_compute. reflexivity.
Defined.

(** The same rewrite during the walk of the chain of [good_chain_mem]. *)
Lemma handler_passes_rewritten_buffer_witness :
  exists st w',
    virtio_queue_handler_volatile (rewriting_guest 3 moved_chain_mem) count_handler
      0 2 (mk_world (running 0 good_chain_mem) []) = Ret (st, w') /\
    buffer_in_guest guest_base MiB
      (EvHandler (guest_base + 2 ^ 32) 16 VRING_DESC_F_NEXT) = false /\
    exists tail,
      trace w' = [] ++ EvHandler (guest_base + 2 ^ 32) 16 VRING_DESC_F_NEXT :: tail.
Proof.
  destruct (virtio_queue_handler_volatile (rewriting_guest 3 moved_chain_mem)
              count_handler 0 2 (mk_world (running 0 good_chain_mem) []))
    as [[st w']| |] eqn:R; [|vm_compute in R; discriminate R..].
  exists st, w'. split; [reflexivity|].
  apply (handler_passes_rewritten_buffer count_handler 0 2
           (mk_world (running 0 good_chain_mem) []) w' (ring4 0) 2
           (running 1 good_chain_mem) moved_chain_mem st).
  - vm_compute. split; [discriminate|reflexivity].
  - reflexivity.
  - vm_compute. discriminate.
  - vm_compute. reflexivity.
  - vm_compute. reflexivity.
  - vm_compute. reflexivity.
  - exact R.
Defined.

(** The cursor and [avail.idx] at 65535, and a guest that publishes one more
    entry each time the thread sleeps. *)
Lemma wait_never_passes_last_cursor_witness :
  (forall (g : memory) (out : Z),
     virtio_queue_next_avail 0 out (set_mem (running 65535 (avail_mem 65535 0 2)) g)
       = Ret (MX_ERR_NOT_FOUND, out, set_mem (running 65535 (avail_mem 65535 0 2)) g)) /\
  (forall (fuel : nat) (out : Z),
     virtio_queue_wait eager_producer 0 fuel out (running 65535 (avail_mem 65535 0 2))
       = OutOfFuel).
Proof.
  apply (wait_never_passes_last_cursor eager_producer 0
           (running 65535 (avail_mem 65535 0 2)) (ring4 65535)).
  - reflexivity.
  - reflexivity.
  - intros m0. reflexivity.
Defined.

Lemma producer_of_two_follows (c : Z) (m : machine unit) :
  0 <= c ->
  ring_follows heads_2_3 0 (ring4 0) c m ->
  ring_follows heads_2_3 0 (ring4 0) c (producer_of_two m).
Proof.
  intros Hc [Hq _]. split; [exact Hq|].
  unfold producer_of_two. cbn [mem set_mem].
  change (avail (ring4 0)) with (guest_base + 4160).
  unfold ring_idx_off, ring_entries_off, sizeof_avail_entry, guest_base.
  change (size (ring4 0)) with 4.
  rewrite !read16_write16_ne, read16_write16_eq by lia.
  change (u16 2) with 2. intros j Hj.
  assert (Hj' : j = 0 \/ j = 1) by lia.
  destruct Hj' as [-> | ->].
  - change (0 mod 4) with 0.
    rewrite read16_write16_ne, read16_write16_eq by lia. reflexivity.
  - change (1 mod 4) with 1.
    rewrite read16_write16_eq. reflexivity.
Qed.

(** The worker finds the ring empty, sleeps, wakes up to descriptors 2 and 3
    and is stopped by its handler at descriptor 3. *)
Lemma poll_task_returns_every_buffer_witness :
  exists w',
    virtio_queue_poll_task producer_of_two pci_ok stop_at_3 0 2 2
      (mk_world (running 0 zero_mem) []) = Ret (MX_OK, w') /\
    exists (bufs : list (Z * Z)) (last_interrupt : bool),
      bufs <> [] /\
      map fst bufs = heads_from heads_2_3 0 (length bufs) /\
      Forall (fun b => exists m, snd (fst (stop_at_3 0%nat (fst b) 0 m)) = snd b) bufs /\
      trace w' = [] ++ poll_events 0 bufs last_interrupt /\
      ring_follows heads_2_3 0 (ring4 0) (0 + Z.of_nat (length bufs)) (mach w') /\
      last_interrupt = false /\
      exists m,
        ring_follows heads_2_3 0 (ring4 0) (0 + Z.of_nat (length bufs)) m /\
        fst (fst (stop_at_3 0%nat (heads_2_3 (0 + Z.of_nat (length bufs) - 1)) 0 m))
          = MX_ERR_STOP.
Proof.
  destruct (virtio_queue_poll_task producer_of_two pci_ok stop_at_3 0 2 2
              (mk_world (running 0 zero_mem) []))
    as [[st w']| |] eqn:R; [|vm_compute in R; discriminate R..].
  assert (Hst : st = MX_OK) by (vm_compute in R; congruence).
  subst st. exists w'. split; [reflexivity|].
  destruct (poll_task_returns_every_buffer producer_of_two pci_ok stop_at_3
              heads_2_3 0 (ring4 0)) with (wait_fuel := 2%nat) (fuel := 2%nat)
              (c := 0) (w := mk_world (running 0 zero_mem) []) (w' := w')
              (st := MX_OK)
    as (bufs & b & P1 & P2 & P3 & P4 & P5 & P6 & _).
  - vm_compute. reflexivity.
  - vm_compute. discriminate.
  - exact producer_of_two_follows.
  - intros c d u m _ F. exact F.
  - intros c m _ F. exact F.
  - lia.
  - split; [reflexivity|]. intros j Hj. vm_compute in Hj. destruct Hj as [Hj1 Hj2].
    exfalso. destruct j; try discriminate; contradiction.
  - exact R.
  - exists bufs, b. destruct (P6 eq_refl) as [P7 P8]. auto 10.
Defined.
